(** * cursor-templates: registry, validator, scorer, ratings, update

    A shallow embedding of the core of the cursor-templates command-line
    tool (JavaScript) and the properties of its specification.

    Modelling conventions.
    - A template descriptor is the typed record of the data model: every
      field may be absent ([None]); a present string may be empty.  A
      JavaScript truthiness test on a field is [truthy] below (present and,
      for strings, non-empty; arrays and objects are truthy even when
      empty).
    - Strings are sequences of code units; [toLowerCase] folds the ASCII
      letters, [String.length] is [.length].
    - An object used as a map (the commands of a template, the templates
      of the ratings document, the category tables) is a finite map over
      its own properties: keys are taken not to name a property inherited
      from [Object.prototype].
    - Exceptions ([TypeError] on a property of [undefined], I/O and parse
      failures) are values of [exn] threaded through the [result] monad.
    - The clock, the answers of the interactive prompt and the results of
      reading files are inputs of the operations that use them.
    - A stored rating always has one decimal place: it is kept as an
      integer number of tenths.  The arithmetic of doubles is replaced by
      exact arithmetic and [Math.round] by rounding half up; the two agree
      unless a quotient falls within the rounding error of a tie. *)

From Stdlib Require Import ZArith Lia List Ascii String Bool.
From stdpp Require Import base option list strings gmap.

Local Open Scope string_scope.
Local Open Scope list_scope.
Local Open Scope Z_scope.

(** ** Exceptions and the result monad *)

Inductive exn : Type :=
| TypeError (msg : string)
| SyntaxError (msg : string)
| IOError (msg : string)
| Error (msg : string).

Definition message (e : exn) : string :=
  match e with
  | TypeError m | SyntaxError m | IOError m | Error m => m
  end.

Inductive result (A : Type) : Type :=
| Ok (a : A)
| Throw (e : exn).
Arguments Ok {A} a.
Arguments Throw {A} e.

#[global] Instance result_ret : MRet result := fun _ a => Ok a.

#[global] Instance result_bind : MBind result := fun _ _ k r =>
  match r with
  | Ok a => k a
  | Throw e => Throw e
  end.

#[global] Instance result_fmap : FMap result := fun _ _ f r =>
  match r with
  | Ok a => Ok (f a)
  | Throw e => Throw e
  end.

(** [try { body } catch (error) { handler }] *)
Definition try_catch {A} (body : result A) (handler : exn -> A) : A :=
  match body with
  | Ok a => a
  | Throw e => handler e
  end.

(** ** JavaScript primitives used by the tool *)

Module Js.

(** Truthiness of an optional string property: [undefined] and the empty
    string are falsy. *)
Definition truthy (o : option string) : bool :=
  match o with
  | Some (String _ _) => true
  | _ => false
  end.

(** Truthiness of an optional array or object property. *)
Definition present {A} (o : option A) : bool :=
  match o with
  | Some _ => true
  | None => false
  end.

Definition is_upper (c : ascii) : bool :=
  let n := nat_of_ascii c in (Nat.leb 65 n && Nat.leb n 90)%bool.

Definition lower_char (c : ascii) : ascii :=
  if is_upper c then ascii_of_nat (nat_of_ascii c + 32) else c.

Fixpoint toLowerCase (s : string) : string :=
  match s with
  | EmptyString => EmptyString
  | String c s' => String (lower_char c) (toLowerCase s')
  end.

(** [s.startsWith(p)] *)
Fixpoint startsWith (s p : string) {struct p} : bool :=
  match p, s with
  | EmptyString, _ => true
  | String _ _, EmptyString => false
  | String b p', String a s' => (Ascii.eqb a b && startsWith s' p')%bool
  end.

(** [s.includes(p)]: [p] occurs in [s] as a substring. *)
Fixpoint includes (s p : string) : bool :=
  (startsWith s p ||
   match s with
   | EmptyString => false
   | String _ s' => includes s' p
   end)%bool.

(** The [TypeError] of reading a property of [undefined]. *)
Definition undefined_length : exn :=
  TypeError "Cannot read properties of undefined (reading 'length')".

Definition undefined_toLowerCase : exn :=
  TypeError "Cannot read properties of undefined (reading 'toLowerCase')".

(** [xs.join(sep)] *)
Fixpoint join (sep : string) (xs : list string) : string :=
  match xs with
  | [] => EmptyString
  | [x] => x
  | x :: rest => x +:+ sep +:+ join sep rest
  end.

(** [xs.some(f)] for a callback that may throw: stops at the first
    element on which [f] is true or throws. *)
Fixpoint someM {A} (f : A -> result bool) (xs : list A) : result bool :=
  match xs with
  | [] => Ok false
  | x :: rest =>
      f x ≫= fun b : bool => if b then Ok true else someM f rest
  end.

(** *** Regular expressions

    The two literals of the tool, [/^\d+\.\d+\.\d+$/] and
    [/^[a-z0-9-]+$/], are anchored at both ends: [test] decides whether
    the whole string belongs to the language of the body, by
    derivatives. *)

Inductive regex : Type :=
| Void
| Eps
| Class (p : ascii -> bool)
| Cat (r1 r2 : regex)
| Alt (r1 r2 : regex)
| Star (r : regex).

Definition Plus (r : regex) : regex := Cat r (Star r).

Fixpoint nullable (r : regex) : bool :=
  match r with
  | Void => false
  | Eps => true
  | Class _ => false
  | Cat r1 r2 => (nullable r1 && nullable r2)%bool
  | Alt r1 r2 => (nullable r1 || nullable r2)%bool
  | Star _ => true
  end.

Fixpoint deriv (c : ascii) (r : regex) : regex :=
  match r with
  | Void => Void
  | Eps => Void
  | Class p => if p c then Eps else Void
  | Cat r1 r2 =>
      if nullable r1
      then Alt (Cat (deriv c r1) r2) (deriv c r2)
      else Cat (deriv c r1) r2
  | Alt r1 r2 => Alt (deriv c r1) (deriv c r2)
  | Star r1 => Cat (deriv c r1) (Star r1)
  end.

(** [/^r$/.test(s)] *)
Fixpoint test (r : regex) (s : string) : bool :=
  match s with
  | EmptyString => nullable r
  | String c s' => test (deriv c r) s'
  end.

Definition is_digit (c : ascii) : bool :=
  let n := nat_of_ascii c in (Nat.leb 48 n && Nat.leb n 57)%bool.

Definition is_lower (c : ascii) : bool :=
  let n := nat_of_ascii c in (Nat.leb 97 n && Nat.leb n 122)%bool.

Definition chr (a : ascii) : regex := Class (Ascii.eqb a).

(** [\d+\.\d+\.\d+] *)
Definition semver_triple : regex :=
  Cat (Plus (Class is_digit))
    (Cat (chr ".")
       (Cat (Plus (Class is_digit))
          (Cat (chr ".") (Plus (Class is_digit))))).

(** [[a-z0-9-]+] *)
Definition kebab_name : regex :=
  Plus (Class (fun c => (is_lower c || is_digit c || Ascii.eqb c "-")%bool)).

(** The language of a regular expression, for stating what [test]
    decides. *)
Inductive lang : regex -> string -> Prop :=
| lang_eps : lang Eps EmptyString
| lang_class p c : p c = true -> lang (Class p) (String c EmptyString)
| lang_cat r1 r2 s1 s2 : lang r1 s1 -> lang r2 s2 -> lang (Cat r1 r2) (s1 +:+ s2)
| lang_alt_l r1 r2 s : lang r1 s -> lang (Alt r1 r2) s
| lang_alt_r r1 r2 s : lang r2 s -> lang (Alt r1 r2) s
| lang_star_nil r : lang (Star r) EmptyString
| lang_star_cons r s1 s2 : lang r s1 -> lang (Star r) s2 -> lang (Star r) (s1 +:+ s2).

(** Non-empty strings of characters of a class. *)
Fixpoint all_in (p : ascii -> bool) (s : string) : bool :=
  match s with
  | EmptyString => true
  | String c s' => (p c && all_in p s')%bool
  end.

Definition nonempty_of (p : ascii -> bool) (s : string) : Prop :=
  s <> EmptyString /\ all_in p s = true.

(** The strings [\d+\.\d+\.\d+] denotes: three non-empty digit strings
    separated by dots. *)
Definition is_version_triple (v : string) : Prop :=
  exists a b c,
    nonempty_of is_digit a /\ nonempty_of is_digit b /\ nonempty_of is_digit c /\
    v = a +:+ "." +:+ b +:+ "." +:+ c.

End Js.

(** ** Data model: template descriptors and the template store *)

Module Tpl.

Record FileEntry : Type := mkFile {
  path : option string;
  content : option string
}.

Record Rules : Type := mkRules {
  context : option string;
  style : option (list (string * string));
  restrictions : option (list string);
  preferences : option (list string)
}.

Record Template : Type := mkTemplate {
  name : option string;
  description : option string;
  version : option string;
  author : option string;
  tags : option (list string);
  rules : option Rules;
  files : option (list FileEntry);
  commands : option (gmap string string)
}.

(** [!!template[field]] for the field names the tool indexes with. *)
Definition truthy_field (t : Template) (field : string) : bool :=
  if String.eqb field "name" then Js.truthy (name t)
  else if String.eqb field "description" then Js.truthy (description t)
  else if String.eqb field "version" then Js.truthy (version t)
  else if String.eqb field "rules" then Js.present (rules t)
  else if String.eqb field "files" then Js.present (files t)
  else false.

(** [f.path === '.cursorrules'] *)
Definition is_cursorrules (f : FileEntry) : bool :=
  match path f with
  | Some p => String.eqb p ".cursorrules"
  | None => false
  end.

(** [!!commands[key]] *)
Definition has_command (c : gmap string string) (key : string) : bool :=
  Js.truthy (c !! key).

End Tpl.

Module Store.

(** One entry of the templates directory: its name and what reading
    [<dir>/template.json] gives: [None] when the file does not exist,
    [Some (Throw e)] when it cannot be read or parsed. *)
Record entry : Type := mkEntry {
  dir : string;
  descriptor : option (result Tpl.Template)
}.

End Store.

(** ** Quality scorer (scripts/quality-metrics.js) *)

Module Quality.
Import Tpl.

Record analysis : Type := mkAnalysis {
  score : Z;
  maxScore : Z;
  issues : list string;
  recommendations : list string
}.

Definition init (max : Z) : analysis := mkAnalysis 0 max [] [].

(** [analysis.score += n] *)
Definition add_score (n : Z) (a : analysis) : analysis :=
  mkAnalysis (score a + n) (maxScore a) (issues a) (recommendations a).

(** [analysis.issues.push(s)] *)
Definition push_issue (s : string) (a : analysis) : analysis :=
  mkAnalysis (score a) (maxScore a) (issues a ++ [s]) (recommendations a).

(** [analysis.recommendations.push(s)] *)
Definition push_rec (s : string) (a : analysis) : analysis :=
  mkAnalysis (score a) (maxScore a) (issues a) (recommendations a ++ [s]).

Definition requiredFields : list string :=
  ["name"; "description"; "version"; "rules"; "files"].

Definition analyzeCompleteness (t : Template) : analysis :=
  let a := init 30 in
  (* Required fields (15 points) *)
  let missingFields := filter (fun f => truthy_field t f = false) requiredFields in
  let a :=
    if Nat.eqb (length missingFields) 0 then add_score 15 a
    else
      push_issue ("Missing required fields: " +:+ Js.join ", " missingFields)
        (add_score (Z.max 0 (15 - Z.of_nat (length missingFields) * 3)) a) in
  (* Files completeness (10 points) *)
  let a :=
    match files t with
    | Some (f :: fs) =>
        if existsb is_cursorrules (f :: fs) then add_score 10 a
        else push_issue "Missing .cursorrules file" (add_score 5 a)
    | _ => push_issue "No template files defined" a
    end in
  (* Commands completeness (5 points) *)
  match commands t with
  | Some c =>
      let hasInstall := has_command c "install" in
      let hasDev := has_command c "dev" in
      let a :=
        if (hasInstall && hasDev)%bool then add_score 5 a
        else if (hasInstall || hasDev)%bool then add_score 3 a
        else a in
      let a := if hasInstall then a else push_rec "Add install command" a in
      if hasDev then a else push_rec "Add dev command" a
  | None => push_issue "No commands defined" a
  end.

Definition len (s : string) : Z := Z.of_nat (String.length s).

Definition analyzeDocumentation (t : Template) : result analysis :=
  let a := init 25 in
  (* Description quality (10 points) *)
  let a :=
    match description t with
    | Some (String c d) =>
        let description := String c d in
        if 50 <? len description then add_score 10 a
        else if 20 <? len description then add_score 7 a
        else push_rec "Expand template description" (add_score 4 a)
    | _ => push_issue "Missing description" a
    end in
  (* .cursorrules quality (15 points) *)
  match files t ≫= find is_cursorrules with
  | Some cursorRulesFile =>
      match Tpl.content cursorRulesFile with
      | None => Throw Js.undefined_length
      | Some content =>
          let a :=
            if 500 <? len content then add_score 15 a
            else if 200 <? len content then
              push_rec "Expand .cursorrules with more guidance" (add_score 10 a)
            else push_issue ".cursorrules content is too brief" (add_score 5 a) in
          (* Check for key sections *)
          let hasContext := (Js.includes content "context" || Js.includes content "You are")%bool in
          let hasExamples := (Js.includes content "```" || Js.includes content "Example")%bool in
          let hasBestPractices := (Js.includes content "Best Practices" || Js.includes content "## ")%bool in
          let a := if hasContext then a else push_rec "Add context section to .cursorrules" a in
          let a := if hasExamples then a else push_rec "Add code examples to .cursorrules" a in
          let a := if hasBestPractices then a else push_rec "Add best practices section to .cursorrules" a in
          Ok a
      end
  | None => Ok a
  end.

(** [xs && xs.length > 0] *)
Definition non_empty {A} (o : option (list A)) : bool :=
  match o with
  | Some (_ :: _) => true
  | _ => false
  end.

Definition analyzeBestPractices (t : Template) : analysis :=
  let a := init 25 in
  (* Versioning (5 points) *)
  let a :=
    match version t with
    | Some (String c v) =>
        if Js.test Js.semver_triple (String c v) then add_score 5 a
        else push_issue "Invalid or missing semantic version" a
    | _ => push_issue "Invalid or missing semantic version" a
    end in
  (* Tags (5 points) *)
  let a :=
    match tags t with
    | Some (x :: xs) =>
        let a := add_score 5 a in
        if Z.of_nat (length (x :: xs)) <? 3
        then push_rec "Add more descriptive tags" a else a
    | _ => push_issue "No tags specified" a
    end in
  (* Rules structure (15 points) *)
  match rules t with
  | Some r =>
      let '(rulesScore, a) :=
        if Js.truthy (context r) then (4, a)
        else (0, push_issue "Missing rules context" a) in
      let '(rulesScore, a) :=
        if Js.present (style r) then (rulesScore + 4, a)
        else (rulesScore, push_issue "Missing rules style" a) in
      let '(rulesScore, a) :=
        if non_empty (restrictions r) then (rulesScore + 3, a)
        else (rulesScore, push_rec "Add restrictions to rules" a) in
      let '(rulesScore, a) :=
        if non_empty (preferences r) then (rulesScore + 4, a)
        else (rulesScore, push_rec "Add preferences to rules" a) in
      add_score rulesScore a
  | None => push_issue "Missing rules object" a
  end.

Definition frameworks : list string :=
  ["react"; "vue"; "angular"; "svelte"; "nextjs"; "nuxt"; "flutter"; "django"; "express"].

Definition analyzeUsability (t : Template) : result analysis :=
  let a := init 20 in
  (* Name quality (5 points) *)
  let a :=
    match name t with
    | Some (String c n) =>
        if Js.test Js.kebab_name (String c n) then add_score 5 a
        else push_rec "Use kebab-case for template name" (add_score 3 a)
    | _ => a
    end in
  (* Author information (5 points) *)
  let a :=
    if Js.truthy (author t) then add_score 5 a
    else push_rec "Add author information" a in
  (* Framework alignment (10 points) *)
  match tags t, rules t with
  | Some tags, Some _ =>
      hasFramework ←
        Js.someM (fun fw =>
          if existsb (fun tag => Js.includes (Js.toLowerCase tag) fw) tags
          then Ok true
          else
            match name t with
            | Some n => Ok (Js.includes (Js.toLowerCase n) fw)
            | None => Throw Js.undefined_toLowerCase
            end) frameworks;
      Ok (if hasFramework : bool then add_score 10 a
          else push_rec "Specify target framework in tags" (add_score 5 a))
  | _, _ => Ok a
  end.

Definition calculateGrade (score : Z) : string :=
  if 90 <=? score then "A+"
  else if 85 <=? score then "A"
  else if 80 <=? score then "A-"
  else if 75 <=? score then "B+"
  else if 70 <=? score then "B"
  else if 65 <=? score then "B-"
  else if 60 <=? score then "C+"
  else if 55 <=? score then "C"
  else if 50 <=? score then "C-"
  else if 40 <=? score then "D"
  else "F".

Record dimensions : Type := mkDimensions {
  completeness : analysis;
  documentation : analysis;
  bestPractices : analysis;
  usability : analysis
}.

(** The object [analyzeTemplate] returns.  The record of the [catch]
    branch has no [issues], [recommendations] and [analysis]; the record
    of the normal path has no [error]. *)
Record metrics : Type := mkMetrics {
  m_name : string;
  m_score : Z;
  m_issues : option (list string);
  m_recommendations : option (list string);
  m_analysis : option dimensions;
  m_grade : string;
  m_error : option string;
  m_timestamp : string
}.

(** [readJson] is the result of [fs.readJson(templatePath)], [now] the
    clock. *)
Definition analyzeTemplate (readJson : result Template) (templateName now : string) : metrics :=
  try_catch
    (template ← readJson;
     let c := analyzeCompleteness template in
     let s := 0 + score c in
     d ← analyzeDocumentation template;
     let s := s + score d in
     let b := analyzeBestPractices template in
     let s := s + score b in
     u ← analyzeUsability template;
     let s := s + score u in
     let all := [c; d; b; u] in
     Ok (mkMetrics templateName s
           (Some (concat (map issues all)))
           (Some (concat (map recommendations all)))
           (Some (mkDimensions c d b u))
           (calculateGrade s) None now))
    (fun error =>
       mkMetrics templateName 0 None None None "F" (Some (message error)) now).

(** The colours of chalk that [getGradeColor] selects. *)
Inductive colour : Type := green | blue | yellow | red.

(** [getGradeColor]: [chalk.orange], selected for the grade D, is not a
    colour of chalk: the value is [undefined], here [None]. *)
Definition getGradeColor (grade : string) : option colour :=
  if Js.startsWith grade "A" then Some green
  else if Js.startsWith grade "B" then Some blue
  else if Js.startsWith grade "C" then Some yellow
  else if Js.startsWith grade "D" then None
  else Some red.

Definition not_a_function : exn := TypeError "gradeColor is not a function".

(** The loop of [analyzeAllTemplates]: every entry with a descriptor is
    analysed and its result pushed; the progress lines then call
    [gradeColor(metrics.grade)] and read [metrics.issues.length] and
    [metrics.recommendations.length]. *)
Fixpoint analyzeLoop (now : string) (templateDirs : list Store.entry)
    (results : list metrics) : result (list metrics) :=
  match templateDirs with
  | [] => Ok results
  | e :: rest =>
      match Store.descriptor e with
      | Some readJson =>
          let metrics := analyzeTemplate readJson (Store.dir e) now in
          let results := results ++ [metrics] in
          match getGradeColor (m_grade metrics) with
          | None => Throw not_a_function
          | Some gradeColor =>
              match m_issues metrics with
              | None => Throw Js.undefined_length
              | Some _ =>
                  match m_recommendations metrics with
                  | None => Throw Js.undefined_length
                  | Some _ => analyzeLoop now rest results
                  end
              end
          end
      | None => analyzeLoop now rest results
      end
  end.

(** [readdir] is the result of [fs.readdir(TEMPLATES_DIR)]. *)
Definition analyzeAllTemplates (readdir : result (list Store.entry)) (now : string)
    : result (list metrics) :=
  templateDirs ← readdir;
  analyzeLoop now templateDirs [].

End Quality.

(** ** Validator (scripts/test-templates.js) *)

Module Validator.
Import Tpl.

Record report : Type := mkReport {
  errors : list string;
  warnings : list string;
  template : option Template
}.

Definition version_error : string :=
  "Invalid version format. Use semantic versioning (x.y.z)".

Definition required : list string := ["name"; "description"; "version"; "rules"].

Section WithStringify.

(** [JSON.stringify(file)], the text of a file entry in an error
    message. *)
Variable stringify : FileEntry -> string.

Definition file_error (file : FileEntry) : string :=
  "Invalid file entry: " +:+ stringify file.

(** The body of [for (const file of template.files)]: the accumulated
    errors and warnings are threaded through; reading [.length] of an
    absent [content] throws. *)
Fixpoint validateFiles (fs : list FileEntry) (errors warnings : list string)
    : result (list string * list string) :=
  match fs with
  | [] => Ok (errors, warnings)
  | file :: rest =>
      let errors :=
        if (negb (Js.truthy (path file)) || negb (Js.truthy (content file)))%bool
        then errors ++ [file_error file] else errors in
      (* Check for .cursorrules file *)
      if is_cursorrules file then
        match content file with
        | None => Throw Js.undefined_length
        | Some c =>
            let warnings :=
              if Quality.len c <? 100
              then warnings ++ [".cursorrules file seems too short"] else warnings in
            validateFiles rest errors warnings
        end
      else validateFiles rest errors warnings
  end.

(** [readJson] is the result of [fs.readJson(templatePath)]. *)
Definition validateTemplate (readJson : result Template) : report :=
  try_catch
    (template ← readJson;
     let errors := [] in
     let warnings := [] in
     (* Required fields validation *)
     let errors :=
       errors ++
       map (fun field => "Missing required field: " +:+ field)
           (filter (fun field => truthy_field template field = false) required) in
     (* Version format validation *)
     let errors :=
       match version template with
       | Some (String c v) =>
           if Js.test Js.semver_triple (String c v) then errors
           else errors ++ [version_error]
       | _ => errors
       end in
     (* Rules validation *)
     let warnings :=
       match rules template with
       | Some r =>
           let warnings :=
             if Js.truthy (context r) then warnings
             else warnings ++ ["Missing rules.context"] in
           let warnings :=
             if Js.present (style r) then warnings
             else warnings ++ ["Missing rules.style"] in
           let warnings :=
             if Js.present (restrictions r) then warnings
             else warnings ++ ["Missing rules.restrictions"] in
           if Js.present (preferences r) then warnings
           else warnings ++ ["Missing rules.preferences"]
       | None => warnings
       end in
     (* Tags validation *)
     let warnings :=
       if Quality.non_empty (tags template) then warnings
       else warnings ++ ["No tags specified"] in
     (* Files validation *)
     '(errors, warnings) ←
       match files template with
       | Some fs => validateFiles fs errors warnings
       | None => Ok (errors, warnings ++ ["No files specified"])
       end;
     (* Commands validation *)
     let warnings :=
       match commands template with
       | Some c =>
           let warnings :=
             if has_command c "install" then warnings
             else warnings ++ ["No install command specified"] in
           if has_command c "dev" then warnings
           else warnings ++ ["No dev command specified"]
       | None => warnings ++ ["No commands specified"]
       end in
     Ok (mkReport errors warnings (Some template)))
    (fun error =>
       mkReport ["Failed to parse template: " +:+ message error] [] None).

End WithStringify.

End Validator.

(** ** Template store (getTemplates of cli/index.js, getAllTemplates of
    cli/discover.js) *)

Module Loader.
Import Tpl Store.

(** The loop of [getTemplates]: the templates pushed so far and the
    warnings printed so far are threaded through. *)
Fixpoint loadLoop (templateDirs : list entry) (templates : list Template)
    (console : list string) : list Template * list string :=
  match templateDirs with
  | [] => (templates, console)
  | e :: rest =>
      match descriptor e with
      | Some (Ok template) => loadLoop rest (templates ++ [template]) console
      | Some (Throw _) =>
          loadLoop rest templates
            (console ++ ["Warning: Could not load template from " +:+ dir e])
      | None => loadLoop rest templates console
      end
  end.

(** [readdir] is the result of [fs.readdir(TEMPLATES_DIR)]; the second
    component of the value is what was printed with [console.warn]. *)
Definition getTemplates (readdir : result (list entry))
    : result (list Template * list string) :=
  templateDirs ← readdir;
  Ok (loadLoop templateDirs [] []).

(** A template as [TemplateDiscovery.getAllTemplates] returns it:
    [{...template, path: templatePath, directory: dir}]. *)
Record located : Type := mkLocated {
  template : Template;
  path : string;
  directory : string
}.

(** [path.join(TEMPLATES_DIR, dir, 'template.json')], from the
    installation root. *)
Definition templatePath (d : string) : string := "templates/" +:+ d +:+ "/template.json".

Fixpoint loadAllLoop (dirs : list entry) (templates : list located)
    (console : list string) : list located * list string :=
  match dirs with
  | [] => (templates, console)
  | e :: rest =>
      match descriptor e with
      | Some (Ok t) =>
          loadAllLoop rest (templates ++ [mkLocated t (templatePath (dir e)) (dir e)]) console
      | Some (Throw _) =>
          loadAllLoop rest templates
            (console ++ ["Warning: Invalid template in " +:+ dir e])
      | None => loadAllLoop rest templates console
      end
  end.

Definition getAllTemplates (readdir : result (list entry))
    : result (list located * list string) :=
  dirs ← readdir;
  Ok (loadAllLoop dirs [] []).

End Loader.

(** ** Rating aggregator (getRatings, addRating and the [rate] command of
    cli/index.js) *)

Module Ratings.
Import Tpl.

(** A number produced by [parseInt]: [None] is [NaN]. *)
Definition number : Type := option Z.

Definition is_space (c : ascii) : bool :=
  let n := nat_of_ascii c in
  (Nat.leb 9 n && Nat.leb n 13 || Nat.eqb n 32)%bool.

Fixpoint trimStart (s : string) : string :=
  match s with
  | String c s' => if is_space c then trimStart s' else s
  | EmptyString => EmptyString
  end.

Definition digit_value (radix : Z) (c : ascii) : option Z :=
  let n := Z.of_nat (nat_of_ascii c) in
  let v :=
    if (48 <=? n) && (n <=? 57) then Some (n - 48)
    else if (97 <=? n) && (n <=? 122) then Some (n - 87)
    else if (65 <=? n) && (n <=? 90) then Some (n - 55)
    else None in
  match v with
  | Some d => if d <? radix then Some d else None
  | None => None
  end.

(** The longest prefix of digits of the radix, read as a number; [None]
    when the prefix is empty. *)
Fixpoint digits (radix : Z) (acc : option Z) (s : string) : option Z :=
  match s with
  | EmptyString => acc
  | String c s' =>
      match digit_value radix c with
      | Some d => digits radix (Some (default 0 acc * radix + d)) s'
      | None => acc
      end
  end.

(** [parseInt(s)]: leading white space, an optional sign, an optional
    [0x] prefix, then the longest prefix of digits; [NaN] when there is
    no digit. *)
Definition parseInt (s : string) : number :=
  let s := trimStart s in
  let '(sign, s) :=
    match s with
    | String "-" s' => (-1, s')
    | String "+" s' => (1, s')
    | _ => (1, s)
    end in
  let '(radix, s) :=
    match s with
    | String "0" (String "x" s') => (16, s')
    | String "0" (String "X" s') => (16, s')
    | _ => (10, s)
    end in
  (fun v => sign * v) <$> digits radix None s.

(** [a < b] and [a > b] on numbers: every comparison with [NaN] is
    false. *)
Definition lt (a : number) (b : Z) : bool :=
  match a with Some x => x <? b | None => false end.
Definition gt (a : number) (b : Z) : bool :=
  match a with Some x => b <? x | None => false end.

Record review : Type := mkReview {
  user : string;
  review_rating : number;
  comment : string;
  date : string
}.

(** A rating record.  [rating] is the stored mean in tenths ([Some 43]
    is 4.3); [None] is the [null] that [NaN] is written as. *)
Record record : Type := mkRecord {
  rating : option Z;
  votes : nat;
  reviews : list review
}.

Record document : Type := mkDocument {
  templates : gmap string record;
  featured : list string;
  trending : list string
}.

(** The ratings file: [None] when community/ratings.json does not
    exist, [Some (Throw e)] when it cannot be read or parsed. *)
Definition ratings_file : Type := option (result document).

Definition getRatings (file : ratings_file) : document :=
  match file with
  | Some (Ok ratings) => ratings
  | _ => mkDocument ∅ [] []
  end.

(** [Math.round(n / d)] for [d > 0]. *)
Definition round_div (n d : Z) : Z := (2 * n + d) / (2 * d).

(** [Math.round((newTotal / votes) * 10) / 10] in tenths, where
    [newTotal = rating * oldVotes + submitted] and [null] counts as 0 in
    the product. *)
Definition new_mean (stored : option Z) (oldVotes : nat) (submitted : number) : option Z :=
  match submitted with
  | Some r =>
      Some (round_div (default 0 stored * Z.of_nat oldVotes + 10 * r)
                      (Z.of_nat (S oldVotes)))
  | None => None
  end.

(** [addRating]: read the document, create the record if it is absent,
    update it in place and write the whole document back. *)
Definition addRating (file : ratings_file) (templateName : string)
    (rating : number) (comment : option string) (now : string) : ratings_file :=
  let ratings := getRatings file in
  let ratings :=
    match templates ratings !! templateName with
    | Some _ => ratings
    | None =>
        mkDocument (<[templateName := mkRecord (Some 0) 0 []]> (templates ratings))
          (featured ratings) (trending ratings)
    end in
  let template := default (mkRecord (Some 0) 0 []) (templates ratings !! templateName) in
  (* Simple rating calculation *)
  let template :=
    mkRecord (new_mean (Ratings.rating template) (votes template) rating)
      (S (votes template)) (reviews template) in
  let template :=
    if Js.truthy comment
    then mkRecord (Ratings.rating template) (votes template)
           (reviews template ++ [mkReview "anonymous" rating (default EmptyString comment) now])
    else template in
  Some (Ok (mkDocument (<[templateName := template]> (templates ratings))
              (featured ratings) (trending ratings))).

(** What the [rate] command prints. *)
Inductive outcome : Type :=
| OutOfRange                 (* Rating must be between 1 and 5 *)
| NotFound (templateName : string)   (* Template ... not found *)
| Rated (templateName : string) (ratingNum : number)
| Failed (msg : string).     (* Error rating template: ... *)

(** The action of [rate <template> <rating>]: the outcome and the
    ratings file afterwards. *)
Definition rate (readdir : result (list Store.entry)) (file : ratings_file)
    (templateName rating : string) (comment : option string) (now : string)
    : outcome * ratings_file :=
  let ratingNum := parseInt rating in
  if (lt ratingNum 1 || gt ratingNum 5)%bool then (OutOfRange, file)
  else
    match Loader.getTemplates readdir with
    | Throw error => (Failed (message error), file)
    | Ok (templates, _) =>
        match find (fun t => bool_decide (name t = Some templateName)) templates with
        | None => (NotFound templateName, file)
        | Some _ =>
            (Rated templateName ratingNum,
             addRating file templateName ratingNum comment now)
        end
    end.

(** The submissions of a sequence of successful calls of [addRating]
    for one template. *)
Record submission : Type := mkSubmission {
  sub_rating : Z;
  sub_comment : option string;
  sub_date : string
}.

Definition submit (templateName : string) (file : ratings_file) (s : submission)
    : ratings_file :=
  addRating file templateName (Some (sub_rating s)) (sub_comment s) (sub_date s).

Definition submit_all (templateName : string) (file : ratings_file)
    (subs : list submission) : ratings_file :=
  fold_left (submit templateName) subs file.

Definition lookup_record (file : ratings_file) (templateName : string) : option record :=
  templates (getRatings file) !! templateName.

End Ratings.

(** ** Search and category filter (cli/index.js, cli/discover.js) *)

Module Search.
Import Tpl.

(** The [categoryMap] literal of [filterByCategory] (own properties). *)
Definition categoryMap : list (string * list string) :=
  [ ("frontend", ["react"; "vue"; "angular"; "svelte"]);
    ("backend", ["express"; "fastapi"; "django"; "node"; "python"]);
    ("mobile", ["react-native"; "flutter"; "mobile"; "ios"; "android"]);
    ("desktop", ["electron"; "tauri"; "desktop"]);
    ("fullstack", ["nextjs"; "t3"; "remix"; "nuxt"; "fullstack"; "ssr"]) ].

(** [obj[key] || []] *)
Fixpoint lookup_or_empty (m : list (string * list string)) (key : string) : list string :=
  match m with
  | [] => []
  | (k, v) :: rest => if String.eqb k key then v else lookup_or_empty rest key
  end.

(** [template.tags?.some(p)] *)
Definition some_tag (p : string -> bool) (t : Template) : bool :=
  match tags t with
  | Some ts => existsb p ts
  | None => false
  end.

Definition filterByCategory (templates : list Template) (category : string)
    : list Template :=
  let categoryTags := lookup_or_empty categoryMap (Js.toLowerCase category) in
  List.filter (fun template =>
                 some_tag (fun tag =>
                   existsb (fun categoryTag => Js.includes (Js.toLowerCase tag) categoryTag)
                           categoryTags) template)
              templates.

(** The callback of the search filter: [nameMatch || descMatch ||
    tagMatch]; all three are computed, and [toLowerCase] of an absent
    name or description throws. *)
Definition matches (searchTerm : string) (t : Template) : result bool :=
  match name t, description t with
  | Some n, Some d =>
      let nameMatch := Js.includes (Js.toLowerCase n) searchTerm in
      let descMatch := Js.includes (Js.toLowerCase d) searchTerm in
      let tagMatch :=
        some_tag (fun tag => Js.includes (Js.toLowerCase tag) searchTerm) t in
      Ok (nameMatch || descMatch || tagMatch)%bool
  | _, _ => Throw Js.undefined_toLowerCase
  end.

(** [xs.filter(p)] for a callback that may throw. *)
Fixpoint filterM {A} (p : A -> result bool) (xs : list A) : result (list A) :=
  match xs with
  | [] => Ok []
  | x :: rest =>
      p x ≫= fun b : bool =>
      filterM p rest ≫= fun ys => Ok (if b then x :: ys else ys)
  end.

(** The [search <query>] command of cli/index.js, up to the list of
    results it prints: the category filter comes first, then the query
    filter. *)
Definition search (readdir : result (list Store.entry)) (query : string)
    (category : option string) : result (list Template) :=
  '(templates, _) ← Loader.getTemplates readdir;
  let templates :=
    if Js.truthy category
    then filterByCategory templates (default EmptyString category)
    else templates in
  let searchTerm := Js.toLowerCase query in
  filterM (matches searchTerm) templates.

(** The registry document of [TemplateDiscovery]. *)
Record registry : Type := mkRegistry {
  categories : list (string * list string);
  featured : list string;
  trending : list string
}.

(** The registry [loadRegistry] creates when registry.json is absent. *)
Definition default_registry : registry :=
  mkRegistry
    [ ("frontend", ["react"; "vue"; "angular"; "nextjs"; "svelte"]);
      ("backend", ["express"; "fastapi"; "django"; "rails"; "spring"]);
      ("fullstack", ["nextjs"; "t3-stack"; "remix"; "nuxt"]);
      ("mobile", ["react-native"; "flutter"; "ionic"]);
      ("desktop", ["electron"; "tauri"]);
      ("testing", ["jest"; "pytest"; "cypress"; "playwright"]);
      ("devops", ["docker"; "kubernetes"; "terraform"; "ansible"]) ]
    [] [].

(** [registryFile] is [None] when registry.json does not exist. *)
Definition loadRegistry (registryFile : option registry) : registry :=
  default default_registry registryFile.

(** [categoryTags.includes(x)]: membership in the array. *)
Definition array_includes (xs : list string) (x : string) : bool :=
  existsb (String.eqb x) xs.




End Search.

(** ** Update of a materialized project (the [update] command and
    [isNewer] of cli/index.js) *)

Module Update.
Import Tpl.

(** The project metadata marker, .cursor-template.json. *)
Record metadata : Type := mkMetadata {
  template : string;
  version : option string;
  installedAt : string;
  projectName : string;
  updatedAt : option string
}.

(** The project directory: the text files by path, and the marker
    ([None] when it does not exist).  Template files are taken not to
    target the marker path. *)
Record project : Type := mkProject {
  disk : gmap string string;
  marker : option metadata
}.

Record options : Type := mkOptions {
  check : bool;
  force : bool
}.

(** What the command prints. *)
Inductive event : Type :=
| NoMetadata                         (* No template metadata found ... *)
| NoLongerExists (name : string)     (* Template ... no longer exists *)
| UpdateAvailable (name : string) (current latest : option string)
| UpToDate (name : string) (current : option string)
| AlreadyUpToDate (current : option string)
| Cancelled                          (* Update cancelled *)
| BackedUp (path backup : string)    (* Backed up ... to ... *)
| Updated (paths : list (option string))  (* Template updated successfully! *)
| Failed (msg : string).             (* Update failed *)

(** *** Versions as semver reads them *)

(** [s.split('.')] *)
Fixpoint split_dots (s : string) : list string :=
  match s with
  | EmptyString => [EmptyString]
  | String c s' =>
      if Ascii.eqb c "." then EmptyString :: split_dots s'
      else
        match split_dots s' with
        | x :: xs => String c x :: xs
        | [] => [String c EmptyString]
        end
  end.

Definition all_digits (s : string) : bool :=
  forallb Js.is_digit (list_ascii_of_string s).

Definition MAX_SAFE_INTEGER : Z := 9007199254740991.

(** A numeric identifier of a strict semantic version: digits only, no
    leading zero, at most [MAX_SAFE_INTEGER]. *)
Definition parse_component (s : string) : option Z :=
  match s with
  | EmptyString => None
  | String "0" (String _ _) => None
  | _ =>
      if all_digits s then
        match Ratings.digits 10 None s with
        | Some n => if n <=? MAX_SAFE_INTEGER then Some n else None
        | None => None
        end
      else None
  end.

Definition parse_triple (s : string) : option (Z * Z * Z) :=
  match split_dots s with
  | [a; b; c] =>
      match parse_component a, parse_component b, parse_component c with
      | Some x, Some y, Some z => Some (x, y, z)
      | _, _, _ => None
      end
  | _ => None
  end.

(** Precedence: major, then minor, then patch, numerically. *)
Definition triple_gtb (a b : Z * Z * Z) : bool :=
  let '(a1, a2, a3) := a in
  let '(b1, b2, b3) := b in
  ((b1 <? a1) || (b1 =? a1) && ((b2 <? a2) || (b2 =? a2) && (b3 <? a3)))%bool.

(** What is assumed of [semver.gt] (an npm dependency): on two strict
    numeric triples it returns their precedence. *)
Definition semver_spec (gt : string -> string -> result bool) : Prop :=
  forall a b ta tb,
    parse_triple a = Some ta -> parse_triple b = Some tb ->
    gt a b = Ok (triple_gtb ta tb).

(** An instance of [semver.gt] restricted to numeric triples: anything
    else is rejected as an invalid version. *)
Definition semver_gt_triples (a b : string) : result bool :=
  match parse_triple a, parse_triple b with
  | Some ta, Some tb => Ok (triple_gtb ta tb)
  | _, _ => Throw (TypeError "Invalid Version")
  end.

Definition invalid_arg : exn := TypeError "ERR_INVALID_ARG_TYPE".

Definition backupPath (filePath stamp : string) : string :=
  filePath +:+ ".backup." +:+ stamp.

Section WithSemver.

(** [semver.gt] *)
Variable semver_gt : string -> string -> result bool.

(** [isNewer]: [semver.gt], and [!==] when it throws; it throws a
    [TypeError] on a version that is not a string. *)
Definition isNewer (newVersion currentVersion : option string) : bool :=
  let fallback := negb (bool_decide (newVersion = currentVersion)) in
  match newVersion, currentVersion with
  | Some n, Some c => try_catch (semver_gt n c) (fun _ => fallback)
  | _, _ => fallback
  end.

(** The loop over [currentTemplate.files]; [clock i] is [Date.now()]
    when the file of index [i] is processed.  The loop stops at the
    first exception, leaving what was written before it. *)
Fixpoint writeFiles (clock : nat -> string) (i : nat) (fs : list FileEntry)
    (d : gmap string string) (console : list event)
    : gmap string string * list event * option exn :=
  match fs with
  | [] => (d, console, None)
  | file :: rest =>
      match path file with
      | None => (d, console, Some invalid_arg)
      | Some filePath =>
          (* Backup existing file if it exists *)
          let '(d, console) :=
            match d !! filePath with
            | Some old =>
                let backup := backupPath filePath (clock i) in
                (<[backup := old]> d, console ++ [BackedUp filePath backup])
            | None => (d, console)
            end in
          match content file with
          | None => (d, console, Some invalid_arg)
          | Some c => writeFiles clock (S i) rest (<[filePath := c]> d) console
          end
      end
  end.

(** The action of [update]: [confirm] is the answer to the prompt,
    [now] the time the marker is rewritten.  The value is what was
    printed and the project afterwards. *)
Definition update (opts : options) (readdir : result (list Store.entry))
    (confirm : bool) (clock : nat -> string) (now : string) (p : project)
    : list event * project :=
  match marker p with
  | None => ([NoMetadata], p)
  | Some metadata =>
      match Loader.getTemplates readdir with
      | Throw error => ([Failed (message error)], p)
      | Ok (templates, _) =>
          match find (fun t => bool_decide (name t = Some (template metadata))) templates with
          | None => ([NoLongerExists (template metadata)], p)
          | Some currentTemplate =>
              let hasUpdate := isNewer (Tpl.version currentTemplate) (version metadata) in
              if check opts then
                if hasUpdate
                then ([UpdateAvailable (template metadata) (version metadata)
                         (Tpl.version currentTemplate)], p)
                else ([UpToDate (template metadata) (version metadata)], p)
              else if (negb hasUpdate && negb (force opts))%bool then
                ([AlreadyUpToDate (version metadata)], p)
              else if negb confirm then ([Cancelled], p)
              else
                (* Update template files *)
                let '(d, console, thrown) :=
                  match files currentTemplate with
                  | Some fs => writeFiles clock 0 fs (disk p) []
                  | None => (disk p, [], None)
                  end in
                match thrown with
                | Some error => (console ++ [Failed (message error)], mkProject d (marker p))
                | None =>
                    (* Update metadata *)
                    let metadata :=
                      mkMetadata (template metadata) (Tpl.version currentTemplate)
                        (installedAt metadata) (projectName metadata) (Some now) in
                    (console ++ [Updated (map path (default [] (files currentTemplate)))],
                     mkProject d (Some metadata))
                end
          end
      end
  end.

End WithSemver.

End Update.

(** ** The scorer as the specification words it *)

Module QualitySpec.
Import Tpl.

Definition if_missing (present : bool) (field : string) : list string :=
  if present then [] else [field].

(** The required fields that are missing, in the order of the list
    [{name, description, version, rules, files}]. *)
Definition missing (t : Template) : list string :=
  if_missing (Js.truthy (name t)) "name" ++
  if_missing (Js.truthy (description t)) "description" ++
  if_missing (Js.truthy (version t)) "version" ++
  if_missing (Js.present (rules t)) "rules" ++
  if_missing (Js.present (files t)) "files".

(** 15 points scaled down by 3 per missing required field, floor 0. *)
Definition required_points (t : Template) : Z :=
  Z.max 0 (15 - 3 * Z.of_nat (length (missing t))).

Definition has_cursorrules (t : Template) : bool :=
  match files t with
  | Some fs => existsb is_cursorrules fs
  | None => false
  end.

(** 10 points with a [.cursorrules] entry, 5 without, 0 when there are
    no files. *)
Definition files_points (t : Template) : Z :=
  if Quality.non_empty (files t)
  then (if has_cursorrules t then 10 else 5)
  else 0.

Definition command_present (t : Template) (key : string) : bool :=
  match commands t with
  | Some c => has_command c key
  | None => false
  end.

(** 5 points with both [install] and [dev], 3 with exactly one. *)
Definition commands_points (t : Template) : Z :=
  match command_present t "install", command_present t "dev" with
  | true, true => 5
  | false, false => 0
  | _, _ => 3
  end.

Definition completeness_issues (t : Template) : list string :=
  match missing t with
  | [] => []
  | fields => ["Missing required fields: " +:+ Js.join ", " fields]
  end ++
  (if Quality.non_empty (files t)
   then (if has_cursorrules t then [] else ["Missing .cursorrules file"])
   else ["No template files defined"]) ++
  (if Js.present (commands t) then [] else ["No commands defined"]).

(** One recommendation for each of the two commands that is absent. *)
Definition absent_commands (t : Template) : list string :=
  (if command_present t "install" then [] else ["Add install command"]) ++
  (if command_present t "dev" then [] else ["Add dev command"]).

(** The same, when the template has a [commands] object at all. *)
Definition completeness_recommendations (t : Template) : list string :=
  if Js.present (commands t) then absent_commands t else [].

(** The band table of the grade. *)
Definition bands : list (Z * string) :=
  [ (90, "A+"); (85, "A"); (80, "A-"); (75, "B+"); (70, "B"); (65, "B-");
    (60, "C+"); (55, "C"); (50, "C-"); (40, "D") ].

Definition band (score : Z) : string :=
  match find (fun b => fst b <=? score) bands with
  | Some b => snd b
  | None => "F"
  end.

(** The order of the grades, [F] lowest. *)
Definition grades : list string :=
  ["F"; "D"; "C-"; "C"; "C+"; "B-"; "B"; "B+"; "A-"; "A"; "A+"].

Fixpoint index_of (g : string) (gs : list string) : nat :=
  match gs with
  | [] => 0
  | x :: rest => if String.eqb x g then 0 else S (index_of g rest)
  end.

Definition rank (g : string) : nat := index_of g grades.

End QualitySpec.

(** ** Sample descriptors *)

Module Samples.
Import Tpl.

Definition npm_commands : gmap string string :=
  <["install" := "npm install"]> (<["dev" := "npm run dev"]> ∅).

Definition sample_rules : Rules :=
  mkRules (Some "You are an expert front-end developer.") (Some [("language", "TypeScript")])
    (Some ["No class components"]) (Some ["Functional components"]).

Definition react_vite : Template :=
  mkTemplate (Some "react-typescript-vite") (Some "React with TypeScript and Vite")
    (Some "1.0.0") (Some "cursor-templates") (Some ["react"; "typescript"; "vite"])
    (Some sample_rules)
    (Some [mkFile (Some ".cursorrules") (Some "You are an expert in React.")])
    (Some npm_commands).

Definition vue_vite : Template :=
  mkTemplate (Some "vue3-typescript-vite") (Some "Vue 3 with TypeScript and Vite")
    (Some "1.0.0") (Some "cursor-templates") (Some ["vue"; "typescript"; "vite"])
    (Some sample_rules)
    (Some [mkFile (Some ".cursorrules") (Some "You are an expert in Vue.")])
    (Some npm_commands).

(** A descriptor with the required fields and a file list, and no
    [commands] object. *)
Definition no_commands : Template :=
  mkTemplate (Some "plain") (Some "A plain template") (Some "1.0.0") None
    (Some ["plain"]) (Some sample_rules)
    (Some [mkFile (Some ".cursorrules") (Some "You are helpful.")]) None.

(** [{"path": ".cursorrules"}]: an entry without content. *)
Definition rules_without_content : FileEntry := mkFile (Some ".cursorrules") None.

Definition broken_files : Template :=
  mkTemplate (Some "broken") (Some "A template with a broken file entry") (Some "1.0")
    None None None (Some [rules_without_content]) None.

Definition store : list Store.entry :=
  [ Store.mkEntry "react-typescript-vite" (Some (Ok react_vite));
    Store.mkEntry "vue3-typescript-vite" (Some (Ok vue_vite)) ].

(** A store directory whose template.json is not valid JSON. *)
Definition corrupt : Store.entry :=
  Store.mkEntry "corrupt" (Some (Throw (SyntaxError "Unexpected token } in JSON"))).

End Samples.

(** ** The validator as the specification words it *)

Module ValidatorSpec.
Import Tpl.

(** An entry missing [path] or [content], or with either empty. *)
Definition bad_entry (f : FileEntry) : bool :=
  (negb (Js.truthy (path f)) || negb (Js.truthy (content f)))%bool.

(** A [.cursorrules] entry has a [content] to take the length of. *)
Definition rules_readable (f : FileEntry) : bool :=
  (negb (is_cursorrules f) || Js.present (content f))%bool.

Definition files_readable (t : Template) : bool :=
  match files t with
  | Some fs => forallb rules_readable fs
  | None => true
  end.

Definition short_rules (f : FileEntry) : bool :=
  (is_cursorrules f &&
   match content f with
   | Some c => Quality.len c <? 100
   | None => false
   end)%bool.

(** A rendering of file entries for the examples. *)
Definition show_file (f : FileEntry) : string :=
  "{path: " +:+ default "undefined" (path f) +:+ "}".


Definition with_version (v : string) : Template :=
  mkTemplate (Some "plain") (Some "A plain template") (Some v) None
    (Some ["plain"]) (Some Samples.sample_rules)
    (Some [mkFile (Some "README.md") None]) None.

End ValidatorSpec.

(** ** The store and the rating aggregator as the specification words
    them *)

Module LoaderSpec.
Import Tpl Store.

(** The template of an entry whose descriptor exists and parses. *)
Definition parsed_entry (e : entry) : option Template :=
  match descriptor e with
  | Some (Ok t) => Some t
  | _ => None
  end.

(** One template per such entry, in directory order. *)
Definition parsed (entries : list entry) : list Template := omap parsed_entry entries.

Definition malformed (e : entry) : bool :=
  match descriptor e with
  | Some (Throw _) => true
  | _ => false
  end.

Definition warning (e : entry) : string :=
  "Warning: Could not load template from " +:+ dir e.

Definition warnings_of (entries : list entry) : list string :=
  map warning (List.filter malformed entries).

End LoaderSpec.

Module RatingsSpec.
Import Ratings.





Definition sum (rs : list Z) : Z := fold_right Z.add 0 rs.

(** [round10(sum / n)] in tenths: the arithmetic mean of the ratings to
    one decimal place. *)
Definition rounded_mean (rs : list Z) : Z :=
  round_div (10 * sum rs) (Z.of_nat (length rs)).



Definition plain (r : Z) : submission := mkSubmission r None "2026-01-01T00:00:00.000Z".

Definition rating_after (rs : list Z) : option Z :=
  lookup_record (submit_all "react-typescript-vite" None (map plain rs))
                "react-typescript-vite" ≫= rating.

(** The run of the specification: ratings 5, 3, 4, the second with a
    comment. *)
Definition five_three_four : list submission :=
  [ mkSubmission 5 None "2026-01-01";
    mkSubmission 3 (Some "Works well") "2026-01-02";
    mkSubmission 4 None "2026-01-03" ].

End RatingsSpec.

(** ** Search as the specification words it *)

Module SearchSpec.
Import Tpl.





(** A template tagged [react-native] only. *)
Definition native_app : Template :=
  mkTemplate (Some "native-app") (Some "A mobile application") (Some "1.0.0") None
    (Some ["react-native"]) (Some Samples.sample_rules) None None.

Definition native_store : list Store.entry :=
  [Store.mkEntry "native-app" (Some (Ok native_app))].


End SearchSpec.

(** ** The update as the specification words it *)

Module UpdateSpec.
Import Tpl Update.






(** The marker after an update to the store's version. *)
Definition updated_marker (m : metadata) (v : option string) (now : string) : metadata :=
  mkMetadata (template m) v (installedAt m) (projectName m) (Some now).

(** *** A sample project *)

Definition two_files : Template :=
  mkTemplate (Some "two-files") (Some "A template with two files") (Some "1.1.0") None
    (Some ["plain"]) (Some Samples.sample_rules)
    (Some [ mkFile (Some ".cursorrules") (Some "X");
            mkFile (Some "src/a.txt") (Some "Y") ])
    None.

Definition two_files_store : list Store.entry :=
  [Store.mkEntry "two-files" (Some (Ok two_files))].

Definition installed (v : string) : project :=
  mkProject (<[".cursorrules" := "old rules"]> ∅)
    (Some (mkMetadata "two-files" (Some v) "2026-01-01" "demo" None)).

Definition at_noon (i : nat) : string := "1767268800000".

Definition two_files_marker : metadata :=
  mkMetadata "two-files" (Some "1.0.0") "2026-01-01" "demo" None.

End UpdateSpec.

(** ** Grouping by category and the [list] command (cli/index.js) *)

Module Categories.
Import Tpl.

(** The [groups] object: its keys in insertion order. *)
Definition groups_type : Type := list (string * list Template).

Definition empty_groups : groups_type :=
  [ ("Frontend", []); ("Backend", []); ("Mobile", []); ("Desktop", []);
    ("Full-Stack", []); ("Other", []) ].

(** [groups[key].push(template)] *)
Fixpoint push (key : string) (template : Template) (groups : groups_type) : groups_type :=
  match groups with
  | [] => []
  | (k, ts) :: rest =>
      if String.eqb k key then (k, ts ++ [template]) :: rest
      else (k, ts) :: push key template rest
  end.

(** [tags.some(tag => keywords.includes(tag.toLowerCase()))] *)
Definition some_listed (keywords : list string) (tags : list string) : bool :=
  existsb (fun tag => Search.array_includes keywords (Js.toLowerCase tag)) tags.

(** The five tests of the loop body, with the group each one feeds. *)
Definition tests : list (string * list string) :=
  [ ("Frontend", ["react"; "vue"; "angular"; "svelte"]);
    ("Backend", ["express"; "fastapi"; "django"; "node"; "python"; "backend"; "api"]);
    ("Mobile", ["react-native"; "flutter"; "mobile"; "ios"; "android"]);
    ("Desktop", ["electron"; "tauri"; "desktop"]);
    ("Full-Stack", ["nextjs"; "t3"; "remix"; "nuxt"; "fullstack"; "ssr"]) ].

(** The body of [templates.forEach]: the five [if]s in order, each pushing
    to its group and setting [categorized], then the push to Other. *)
Definition classify (groups : groups_type) (template : Template) : groups_type :=
  let tags := default [] (tags template) in
  let '(groups, categorized) :=
    fold_left
      (fun (st : groups_type * bool) (test : string * list string) =>
         if some_listed (snd test) tags
         then (push (fst test) template (fst st), true)
         else st)
      tests (groups, false) in
  if categorized then groups else push "Other" template groups.

Definition groupTemplatesByCategory (templates : list Template) : groups_type :=
  let groups := fold_left classify templates empty_groups in
  (* Remove empty groups *)
  List.filter (fun g => negb (Nat.eqb (length (snd g)) 0)) groups.

Definition getCategories (templates : list Template) : list (string * nat) :=
  map (fun g => (fst g, length (snd g))) (groupTemplatesByCategory templates).

(** The templates the [list] command shows, for its [--category] and
    [--tag] options. *)
Definition list_templates (readdir : result (list Store.entry))
    (category tag : option string) : result (list Template) :=
  '(templates, _) ← Loader.getTemplates readdir;
  (* Apply category filter *)
  let templates :=
    if Js.truthy category
    then Search.filterByCategory templates (default EmptyString category)
    else templates in
  (* Apply tag filter *)
  let templates :=
    if Js.truthy tag
    then List.filter
           (fun t =>
              match tags t with
              | Some ts =>
                  existsb (fun x => Js.includes (Js.toLowerCase x)
                                      (Js.toLowerCase (default EmptyString tag))) ts
              | None => false
              end)
           templates
    else templates in
  Ok templates.

End Categories.

(** ** Error log and usage analytics (cli/index.js, scripts/analytics.js) *)

Module Logs.

(** [xs.slice(-n)]: the last [n] elements. *)
Definition slice_last {A} (n : nat) (xs : list A) : list A :=
  drop (length xs - n) xs.

(** A JSON file holding an array: [None] when it does not exist,
    [Some (Throw e)] when it cannot be read or parsed. *)
Definition array_file (A : Type) : Type := option (result (list A)).

(** [saveErrorLog]: append the error and keep the last 50; a log that
    cannot be read makes the function give up without writing. *)
Definition saveErrorLog {A} (file : array_file A) (errorDetails : A) : array_file A :=
  try_catch
    (errors ← match file with
              | Some r => r
              | None => Ok []
              end;
     let errors := errors ++ [errorDetails] in
     (* Keep only last 50 errors *)
     let errors := if (50 <? length errors)%nat then slice_last 50 errors else errors in
     Ok (Some (Ok errors)))
    (fun logError => file).

(** [Analytics.trackSession]: the same with the last 100 sessions. *)
Definition trackSession {A} (file : array_file A) (session : A) : array_file A :=
  try_catch
    (sessions ← match file with
                | Some r => r
                | None => Ok []
                end;
     let sessions := sessions ++ [session] in
     (* Keep only last 100 sessions *)
     let sessions := if (100 <? length sessions)%nat then slice_last 100 sessions else sessions in
     Ok (Some (Ok sessions)))
    (fun error => file).

(** The usage document of [Analytics], of the shape [getUsageData]
    creates and [trackCommand] writes: the counters are numbers. *)
Record usage : Type := mkUsage {
  totalCommands : nat;
  templatesCreated : nat;
  popularTemplates : gmap string nat;
  commandUsage : gmap string nat;
  errorCounts : gmap string nat;
  firstUsed : string;
  lastUsed : string
}.

Definition usage_file : Type := option (result usage).

Definition getUsageData (file : usage_file) (now : string) : usage :=
  match file with
  | Some (Ok data) => data
  | _ => mkUsage 0 0 ∅ ∅ ∅ now now
  end.

(** [if (!counts[key]) counts[key] = 0; counts[key]++] *)
Definition increment (key : string) (counts : gmap string nat) : gmap string nat :=
  <[key := S (default 0%nat (counts !! key))]> counts.

(** [Analytics.trackCommand(command, templateName, success)] *)
Definition trackCommand (file : usage_file) (command : string)
    (templateName : option string) (success : bool) (now : string) : usage_file :=
  let data := getUsageData file now in
  let totalCommands := S (totalCommands data) in
  let lastUsed := now in
  (* Track command usage *)
  let commandUsage := increment command (commandUsage data) in
  (* Track template usage *)
  let '(templatesCreated, popularTemplates) :=
    if (Js.truthy templateName && String.eqb command "init")%bool
    then (S (templatesCreated data),
          increment (default EmptyString templateName) (popularTemplates data))
    else (templatesCreated data, popularTemplates data) in
  (* Track errors *)
  let errorCounts :=
    if success then errorCounts data else increment command (errorCounts data) in
  Some (Ok (mkUsage totalCommands templatesCreated popularTemplates commandUsage
              errorCounts (firstUsed data) lastUsed)).

(** The sum of the counters of a map. *)
Definition total (counts : gmap string nat) : nat :=
  map_fold (fun _ n acc => (n + acc)%nat) 0%nat counts.

(** The counters of the usage document agree: every command counted once,
    every created template counted once, no more errors of a command than
    uses of it. *)
Definition consistent (data : usage) : Prop :=
  totalCommands data = total (commandUsage data) /\
  templatesCreated data = total (popularTemplates data) /\
  (total (errorCounts data) <= totalCommands data)%nat /\
  forall c, (default 0 (errorCounts data !! c) <= default 0 (commandUsage data !! c))%nat.

(** A call of [trackCommand]: the command, the template, whether it
    succeeded, and the time of the call. *)
Definition call : Type := string * option string * bool * string.

Definition track (file : usage_file) (c : call) : usage_file :=
  let '(command, templateName, success, now) := c in
  trackCommand file command templateName success now.

End Logs.

(** ** Summary of a quality run (scripts/quality-metrics.js) *)

Module Summary.
Import Quality.

(** An object used as a counter, its keys in insertion order. *)
Definition counter : Type := list (string * nat).

(** [count[key] = (count[key] || 0) + 1] *)
Fixpoint bump (key : string) (count : counter) : counter :=
  match count with
  | [] => [(key, 1%nat)]
  | (k, n) :: rest =>
      if String.eqb k key then (k, S n) :: rest else (k, n) :: bump key rest
  end.

Definition getGradeDistribution (results : list metrics) : counter :=
  fold_left (fun distribution r => bump (m_grade r) distribution) results [].

(** [entries.sort(([,a], [,b]) => b - a)]: the sort is stable, so entries
    of equal count keep their order. *)
Fixpoint insert_desc (x : string * nat) (sorted : counter) : counter :=
  match sorted with
  | [] => [x]
  | y :: rest =>
      if (snd x <? snd y)%nat then y :: insert_desc x rest else x :: y :: rest
  end.

Definition sort_desc (entries : counter) : counter := fold_right insert_desc [] entries.

(** The occurrences counted by [getTopIssues] and
    [getTopRecommendations]: [r.issues?.forEach(...)] over the results. *)
Definition count_all (field : metrics -> option (list string)) (results : list metrics)
    : counter :=
  fold_left (fun count r => fold_left (fun c x => bump x c) (default [] (field r)) count)
            results [].

Definition getTopIssues (results : list metrics) : counter :=
  take 5 (sort_desc (count_all m_issues results)).

Definition getTopRecommendations (results : list metrics) : counter :=
  take 5 (sort_desc (count_all m_recommendations results)).

Record summary : Type := mkSummary {
  total : nat;
  analyzed : nat;
  averageScore : Z;
  gradeDistribution : counter;
  topIssues : counter;
  topRecommendations : counter
}.

Definition generateSummary (results : list metrics) : summary :=
  let validResults := List.filter (fun r => negb (Js.truthy (m_error r))) results in
  mkSummary
    (length results)
    (length validResults)
    (if (0 <? length validResults)%nat
     then Ratings.round_div (fold_left (fun sum r => sum + m_score r) validResults 0)
                            (Z.of_nat (length validResults))
     else 0)
    (getGradeDistribution validResults)
    (getTopIssues validResults)
    (getTopRecommendations validResults).

End Summary.

(** ** Registry operations of TemplateDiscovery (cli/discover.js) *)

Module Discovery.
Import Tpl.

(** An entry of [registry.templates]. *)
Record registry_entry : Type := mkRegistryEntry {
  name : option string;
  description : option string;
  version : option string;
  author : option string;
  tags : option (list string);
  addedAt : string
}.

(** [addToRegistry]: the [templates] array of the registry before and
    after. *)
Definition addToRegistry (templates : list registry_entry) (template : Template)
    (now : string) : list registry_entry :=
  if existsb (fun t => bool_decide (name t = Tpl.name template)) templates
  then templates
  else templates ++
       [mkRegistryEntry (Tpl.name template) (Tpl.description template)
          (Tpl.version template) (Tpl.author template) (Tpl.tags template) now].

(** [names.includes(t.name)] *)
Definition name_listed (names : list string) (t : Loader.located) : bool :=
  match Tpl.name (Loader.template t) with
  | Some n => Search.array_includes names n
  | None => false
  end.

Definition getFeaturedTemplates (reg : Search.registry)
    (readdir : result (list Store.entry)) : result (list Loader.located) :=
  '(allTemplates, _) ← Loader.getAllTemplates readdir;
  Ok (List.filter (name_listed (Search.featured reg)) allTemplates).

Definition getTrendingTemplates (reg : Search.registry)
    (readdir : result (list Store.entry)) : result (list Loader.located) :=
  '(allTemplates, _) ← Loader.getAllTemplates readdir;
  Ok (List.filter (name_listed (Search.trending reg)) allTemplates).

(** [map.set(key, value)] on a [Map]: a key already present keeps its
    position and takes the new value. *)
Fixpoint map_set {V} (key : option string) (value : V) (m : list (option string * V))
    : list (option string * V) :=
  match m with
  | [] => [(key, value)]
  | (k, v) :: rest =>
      if bool_decide (k = key) then (k, value) :: rest
      else (k, v) :: map_set key value rest
  end.

(** [Array.from(new Map(ts.map(t => [t.name, t])).values())] *)
Definition unique_by_name (ts : list Loader.located) : list Loader.located :=
  map snd (fold_left (fun m t => map_set (Tpl.name (Loader.template t)) t m) ts []).

(** [recommendTemplates(context)], [currentTags] being
    [context.currentTags]. *)
Definition recommendTemplates (reg : Search.registry)
    (readdir : result (list Store.entry)) (currentTags : option (list string))
    : result (list Loader.located) :=
  '(templates, _) ← Loader.getAllTemplates readdir;
  featured ← getFeaturedTemplates reg readdir;
  let recommendations := featured in
  (* Recommend based on tags similarity *)
  let recommendations :=
    match currentTags with
    | Some current =>
        recommendations ++
        List.filter
          (fun t => Search.some_tag (fun tag => Search.array_includes current tag)
                                    (Loader.template t))
          templates
    | None => recommendations
    end in
  (* Remove duplicates *)
  Ok (take 5 (unique_by_name recommendations)).

(** *** Import from GitHub *)

Definition not_slash (c : ascii) : bool := negb (Ascii.eqb c "/").

(** The longest prefix without a slash, and what follows it. *)
Fixpoint span_segment (s : string) : string * string :=
  match s with
  | EmptyString => (EmptyString, EmptyString)
  | String c s' =>
      if not_slash c
      then let '(seg, rest) := span_segment s' in (String c seg, rest)
      else (EmptyString, s)
  end.

Fixpoint drop_chars (n : nat) (s : string) : string :=
  match n, s with
  | O, _ => s
  | S n', String _ s' => drop_chars n' s'
  | S _, EmptyString => EmptyString
  end.

(** A match of [github\.com\/([^\/]+)\/([^\/]+)] that starts at the head
    of the string: the two groups. *)
Definition match_here (s : string) : option (string * string) :=
  if Js.startsWith s "github.com/" then
    let '(owner, rest) := span_segment (drop_chars 11 s) in
    match owner, rest with
    | String _ _, String _ rest' =>
        let '(repo, _) := span_segment rest' in
        match repo with
        | String _ _ => Some (owner, repo)
        | EmptyString => None
        end
    | _, _ => None
    end
  else None.

(** [repoUrl.match(/github\.com\/([^\/]+)\/([^\/]+)/)]: the leftmost
    match. *)
Fixpoint match_github (repoUrl : string) : option (string * string) :=
  match match_here repoUrl with
  | Some groups => Some groups
  | None =>
      match repoUrl with
      | EmptyString => None
      | String _ rest => match_github rest
      end
  end.

(** [repo.replace(/-template$/, '')] *)
Fixpoint strip_template (repo : string) : string :=
  if String.eqb repo "-template" then EmptyString
  else
    match repo with
    | EmptyString => EmptyString
    | String c rest => String c (strip_template rest)
    end.

(** The placeholder descriptor of an imported repository. *)
Definition placeholder (owner repo : string) : Template :=
  mkTemplate (Some (strip_template repo))
    (Some ("Template from " +:+ owner +:+ "/" +:+ repo))
    (Some "1.0.0") (Some owner) (Some ["external"; "github"])
    (Some (mkRules (Some "Imported from GitHub") (Some []) (Some []) (Some [])))
    None None.

(** [importFromGitHub(repoUrl)]: the template returned (and written to
    its directory of the store) and the [templates] array of the registry
    afterwards. *)
Definition importFromGitHub (templates : list registry_entry) (repoUrl now : string)
    : result (Template * list registry_entry) :=
  match match_github repoUrl with
  | None => Throw (Error "Invalid GitHub URL")
  | Some (owner, repo) =>
      let template := placeholder owner repo in
      Ok (template, addToRegistry templates template now)
  end.

End Discovery.

(** ** The [init] command (cli/index.js) and the [validate] command
    (the second cli/index.js) *)

Module Init.
Import Tpl.

(** What the command prints. *)
Inductive event : Type :=
| NotFound (name : string)     (* Template ... not found, then exit(1) *)
| Cancelled                    (* Operation cancelled *)
| Added                        (* Template files added successfully! *)
| AddFailed (msg : string)     (* Failed to add template files *)
| Failed (msg : string).       (* Error initializing project: ... *)

(** The loop over [selectedTemplate.files]: each file is written at its
    path under the project; the loop stops at the first exception, leaving
    what was written before it. *)
Fixpoint copyFiles (fs : list FileEntry) (d : gmap string string)
    : gmap string string * option exn :=
  match fs with
  | [] => (d, None)
  | file :: rest =>
      match path file, content file with
      | Some filePath, Some c => copyFiles rest (<[filePath := c]> d)
      | _, _ => (d, Some Update.invalid_arg)
      end
  end.

(** The action of [init --template <name> --name <project>].  [exists]
    tells whether the project directory exists, [overwrite] is the answer
    to the prompt asked in that case, and [scaffold] is what the first
    step (the framework's own create command, or the creation of the
    directory) makes of the files of the project. *)
Definition init (readdir : result (list Store.entry)) (templateName projectName : string)
    (exists_ overwrite : bool) (scaffold : gmap string string -> gmap string string)
    (now : string) (p : Update.project) : list event * Update.project :=
  match Loader.getTemplates readdir with
  | Throw error => ([Failed (message error)], p)
  | Ok (templates, _) =>
      match find (fun t => bool_decide (name t = Some templateName)) templates with
      | None => ([NotFound templateName], p)
      | Some selectedTemplate =>
          if (exists_ && negb overwrite)%bool then ([Cancelled], p)
          else
            (* Step 1: Create the framework project *)
            let d := scaffold (Update.disk p) in
            (* Step 2: Add template files *)
            let '(d, thrown) :=
              match files selectedTemplate with
              | Some fs => copyFiles fs d
              | None => (d, None)
              end in
            match thrown with
            | Some error =>
                ([AddFailed (message error)], Update.mkProject d (Update.marker p))
            | None =>
                (* Write template metadata *)
                ([Added],
                 Update.mkProject d
                   (Some (Update.mkMetadata templateName (version selectedTemplate)
                            now projectName None)))
            end
      end
  end.

(** The verdict of [validate <template>]. *)
Inductive verdict : Type :=
| Valid                                  (* Template is valid! *)
| MissingFields (missing : list string)  (* Missing required fields: ..., exit(1) *)
| InvalidVersion                         (* Invalid version format ..., exit(1) *)
| ValidationError (msg : string).

(** The action of [validate], [readJson] being the result of reading the
    descriptor. *)
Definition validate (readJson : result Template) : verdict :=
  try_catch
    (template ← readJson;
     (* Basic validation *)
     let missing :=
       List.filter (fun field => negb (truthy_field template field)) Validator.required in
     if negb (Nat.eqb (length missing) 0) then Ok (MissingFields missing)
     (* Validate version format *)
     else if negb (Js.test Js.semver_triple (default EmptyString (version template)))
     then Ok InvalidVersion
     else Ok Valid)
    (fun error => ValidationError (message error)).

End Init.

(** ** Conditions read off the code, for the further properties *)

Module MoreSpec.
Import Tpl.

(** The first [.cursorrules] entry of the file list has no content: the
    documentation analysis reads [content.length] of it. *)
Definition rules_file_without_content (t : Template) : bool :=
  match files t ≫= find is_cursorrules with
  | Some f => negb (Js.present (content f))
  | None => false
  end.

(** The template has tags and rules but no name, and no tag contains
    "react": the usability analysis reads [template.name.toLowerCase()]. *)
Definition unnamed_without_react (t : Template) : bool :=
  match name t, tags t, rules t with
  | None, Some ts, Some _ =>
      negb (existsb (fun tag => Js.includes (Js.toLowerCase tag) "react") ts)
  | _, _, _ => false
  end.

Definition analysis_throws (t : Template) : bool :=
  (rules_file_without_content t || unnamed_without_react t)%bool.

(** The least a template without validation errors can score: name in
    no particular form, a short description, empty rules, nothing else. *)
Definition minimal_valid : Template :=
  mkTemplate (Some "X") (Some "short") (Some "1.0.0") None None
    (Some (mkRules None None None None)) None None.

(** A template without a name, tagged vue. *)
Definition unnamed_vue : Template :=
  mkTemplate None (Some "A Vue template") (Some "1.0.0") None (Some ["vue"])
    (Some Samples.sample_rules) None None.

(** The located template of an entry whose descriptor exists and
    parses. *)
Definition located_entry (e : Store.entry) : option Loader.located :=
  match Store.descriptor e with
  | Some (Ok t) => Some (Loader.mkLocated t (Loader.templatePath (Store.dir e)) (Store.dir e))
  | _ => None
  end.

Definition located_of (entries : list Store.entry) : list Loader.located :=
  omap located_entry entries.

(** A tag of the template, lowercased, is one of the keywords. *)
Definition belongs (keywords : list string) (t : Template) : bool :=
  Categories.some_listed keywords (default [] (tags t)).

Definition uncategorized (t : Template) : bool :=
  forallb (fun test => negb (belongs (snd test) t)) Categories.tests.

(** The six groups as lists of the templates that belong to them. *)
Definition grouped (templates : list Template) : Categories.groups_type :=
  map (fun test => (fst test, List.filter (belongs (snd test)) templates)) Categories.tests ++
  [("Other", List.filter uncategorized templates)].

(** [groups[key]], empty when the key is not reported. *)
Fixpoint members (key : string) (groups : Categories.groups_type) : list Template :=
  match groups with
  | [] => []
  | (k, ts) :: rest => if String.eqb k key then ts else members key rest
  end.

(** The groups whose keywords are those of the category filter, with the
    name of the category. *)
Definition shared_categories : list (string * string) :=
  [ ("Frontend", "frontend"); ("Mobile", "mobile"); ("Desktop", "desktop");
    ("Full-Stack", "fullstack") ].

(** The template has a name and a description to lowercase. *)
Definition described (t : Template) : bool :=
  (Js.present (name t) && Js.present (description t))%bool.

(** The query occurs in the lowercased name, description or a tag. *)
Definition query_matches (query : string) (t : Template) : bool :=
  let q := Js.toLowerCase query in
  (Js.includes (Js.toLowerCase (default EmptyString (name t))) q ||
   Js.includes (Js.toLowerCase (default EmptyString (description t))) q ||
   Search.some_tag (fun tag => Js.includes (Js.toLowerCase tag) q) t)%bool.

(** A template tagged [api] only, and one tagged [reactjs] only. *)
Definition api_service : Template :=
  mkTemplate (Some "api-service") (Some "An API service") (Some "1.0.0") None
    (Some ["api"]) (Some Samples.sample_rules) None None.

Definition reactjs_app : Template :=
  mkTemplate (Some "reactjs-app") (Some "A React application") (Some "1.0.0") None
    (Some ["reactjs"]) (Some Samples.sample_rules) None None.

(** A descriptor without description. *)
Definition undescribed : Template :=
  mkTemplate (Some "bare") None (Some "1.0.0") None None None None None.


(** The [groups] object with the given arrays. *)
Definition shape (l1 l2 l3 l4 l5 l6 : list Template) : Categories.groups_type :=
  [ ("Frontend", l1); ("Backend", l2); ("Mobile", l3); ("Desktop", l4);
    ("Full-Stack", l5); ("Other", l6) ].

(** The sum of the counts [getCategories] reports. *)
Definition count_sum (counts : list (string * nat)) : nat :=
  fold_right (fun c acc => (snd c + acc)%nat) 0%nat counts.

(** A template whose second file entry has no content. *)
Definition half_written : Template :=
  mkTemplate (Some "two-files") (Some "A template with a broken entry") (Some "1.1.0") None
    (Some ["plain"]) (Some Samples.sample_rules)
    (Some [ mkFile (Some "src/a.txt") (Some "Y");
            mkFile (Some ".cursorrules") None;
            mkFile (Some "src/b.txt") (Some "Z") ])
    None.

(** The results of a quality run over descriptors read with the given
    results, under the given directory names. *)
Definition analyses (inputs : list (result Template * string)) (now : string)
    : list Quality.metrics :=
  map (fun i => Quality.analyzeTemplate (fst i) (snd i) now) inputs.

(** The results of a run that count as analysed. *)
Definition without_error (results : list Quality.metrics) : list Quality.metrics :=
  List.filter (fun r => negb (Js.truthy (Quality.m_error r))) results.

(** All the issues (or recommendations) of the results, one after the
    other. *)
Definition occurrences (field : Quality.metrics -> option (list string))
    (results : list Quality.metrics) : list string :=
  concat (map (fun r => default [] (field r)) results).

(** The counts of a counter are in descending order. *)
Fixpoint descending (count : list (string * nat)) : Prop :=
  match count with
  | [] => True
  | x :: rest => Forall (fun y => (snd y <= snd x)%nat) rest /\ descending rest
  end.

(** [count[key] || 0] *)
Fixpoint count_of (key : string) (count : list (string * nat)) : nat :=
  match count with
  | [] => 0%nat
  | (k, n) :: rest => if String.eqb k key then n else count_of key rest
  end.

End MoreSpec.

(** * Properties *)

(** ** Strings and regular expressions *)

Module JsFacts.
Import Js.

#[local] Arguments String.append !_ _ / : simpl nomatch.

Lemma append_nil_r (s : string) : s +:+ EmptyString = s.
Proof. induction s as [|c s IH]; simpl; [reflexivity | now f_equal]. Qed.

Lemma append_assoc (a b c : string) : (a +:+ b) +:+ c = a +:+ (b +:+ c).
Proof. induction a as [|x a IH]; simpl; [reflexivity | now f_equal]. Qed.

Lemma append_eq_nil (a b : string) :
  a +:+ b = EmptyString -> a = EmptyString /\ b = EmptyString.
Proof. destruct a; simpl; [auto | discriminate]. Qed.

Lemma startsWith_spec (s p : string) :
  startsWith s p = true <-> exists post, s = p +:+ post.
Proof.
  revert s. induction p as [|b p IH]; intros s; simpl.
  - split; [intros _; now exists s | intros _; reflexivity].
  - destruct s as [|a s]; simpl.
    + split; [discriminate | intros [post H]; discriminate].
    + rewrite andb_true_iff, IH. split.
      * intros [Hab [post ->]]. apply Ascii.eqb_eq in Hab. subst. now exists post.
      * intros [post H]. injection H as -> ->. split; [apply Ascii.eqb_refl | now exists post].
Qed.

(** [includes] decides the substring relation. *)
Lemma includes_spec (s p : string) :
  includes s p = true <-> exists pre post, s = pre +:+ p +:+ post.
Proof.
  induction s as [|a s IH].
  - cbn [includes]. rewrite orb_false_r, startsWith_spec. split.
    + intros [post H]. now exists EmptyString, post.
    + intros [pre [post H]]. symmetry in H.
      apply append_eq_nil in H as [-> H]. apply append_eq_nil in H as [-> ->].
      now exists EmptyString.
  - cbn [includes]. rewrite orb_true_iff, IH, startsWith_spec. split.
    + intros [[post H] | [pre [post H]]].
      * now exists EmptyString, post.
      * exists (String a pre), post. simpl. now rewrite H.
    + intros [pre [post H]]. destruct pre as [|x pre]; simpl in H.
      * left. now exists post.
      * right. injection H as _ H. now exists pre, post.
Qed.

Lemma nullable_lang (r : regex) : nullable r = true <-> lang r EmptyString.
Proof.
  split.
  - induction r; simpl; intros H; try discriminate.
    + constructor.
    + apply andb_true_iff in H as [H1 H2].
      change EmptyString with (EmptyString +:+ EmptyString). constructor; auto.
    + apply orb_true_iff in H as [H | H]; [apply lang_alt_l | apply lang_alt_r]; auto.
    + constructor.
  - intros H. remember EmptyString as s eqn:E.
    induction H; simpl; try reflexivity; try discriminate.
    + apply append_eq_nil in E as [-> ->]. rewrite IHlang1, IHlang2; auto.
    + rewrite IHlang; auto.
    + rewrite IHlang; auto. apply orb_true_r.
Qed.

Lemma deriv_sound (c : ascii) (r : regex) :
  forall s, lang (deriv c r) s -> lang r (String c s).
Proof.
  induction r; simpl; intros s H.
  - inversion H.
  - inversion H.
  - destruct (p c) eqn:E; inversion H; subst. now constructor.
  - destruct (nullable r1) eqn:N.
    + inversion H as [| |? ? ? ? ? ?| ? ? ? H1 | ? ? ? H1 | |]; subst.
      * inversion H1; subst.
        change (String c (s1 +:+ s2)) with (String c s1 +:+ s2). constructor; auto.
      * change (String c s) with (EmptyString +:+ String c s).
        constructor; [now apply nullable_lang | auto].
    + inversion H; subst.
      change (String c (s1 +:+ s2)) with (String c s1 +:+ s2). constructor; auto.
  - inversion H; subst; [apply lang_alt_l | apply lang_alt_r]; auto.
  - inversion H; subst.
    change (String c (s1 +:+ s2)) with (String c s1 +:+ s2). constructor; auto.
Qed.

Lemma deriv_complete (c : ascii) (r : regex) (x : string) :
  lang r x -> forall s, x = String c s -> lang (deriv c r) s.
Proof.
  induction 1 as [| p a Hp | r1 r2 s1 s2 H1 IH1 H2 IH2 | r1 r2 s1 H1 IH1
                  | r1 r2 s1 H1 IH1 | r1 | r1 s1 s2 H1 IH1 H2 IH2];
    intros s E; simpl.
  - discriminate.
  - injection E as -> <-. rewrite Hp. constructor.
  - destruct s1 as [|a s1]; simpl in E.
    + apply nullable_lang in H1. rewrite H1. apply lang_alt_r. auto.
    + injection E as -> <-.
      assert (lang (Cat (deriv c r1) r2) (s1 +:+ s2)) by (constructor; auto).
      destruct (nullable r1); [now apply lang_alt_l | assumption].
  - apply lang_alt_l; auto.
  - apply lang_alt_r; auto.
  - discriminate.
  - destruct s1 as [|a s1]; simpl in E.
    + apply (IH2 s E).
    + injection E as -> <-. constructor; auto.
Qed.

(** [test] decides membership in the language of the expression. *)
Lemma test_lang (r : regex) (s : string) : test r s = true <-> lang r s.
Proof.
  revert r. induction s as [|c s IH]; intros r; simpl.
  - apply nullable_lang.
  - rewrite IH. split; [apply deriv_sound | intros H; now apply (deriv_complete c r _ H)].
Qed.

Lemma all_in_app p a b : all_in p (a +:+ b) = (all_in p a && all_in p b)%bool.
Proof. induction a; simpl; [reflexivity | rewrite IHa; now rewrite andb_assoc]. Qed.

Lemma lang_star_class p s : lang (Star (Class p)) s <-> all_in p s = true.
Proof.
  split.
  - intros H. remember (Star (Class p)) as r eqn:E.
    induction H; try discriminate; [reflexivity |].
    injection E as ->. inversion H as [|? ? Hc| | | | |]; subst. simpl.
    rewrite IHlang2 by reflexivity. now rewrite Hc.
  - induction s as [|c s IH]; simpl; intros H; [constructor |].
    apply andb_true_iff in H as [Hc Hs].
    change (String c s) with (String c EmptyString +:+ s).
    constructor; [now constructor | auto].
Qed.

Lemma lang_plus_class p s : lang (Plus (Class p)) s <-> nonempty_of p s.
Proof.
  unfold Plus, nonempty_of. split.
  - intros H. inversion H as [| |? ? ? ? H1 H2| | | |]; subst.
    inversion H1 as [|? ? Hc| | | | |]; subst. apply lang_star_class in H2. simpl.
    split; [discriminate | now rewrite H2, Hc].
  - intros [Hne H]. destruct s as [|c s]; [contradiction |].
    simpl in H. apply andb_true_iff in H as [Hc Hs].
    change (String c s) with (String c EmptyString +:+ s).
    constructor; [now constructor | now apply lang_star_class].
Qed.

Lemma lang_chr a s : lang (chr a) s <-> s = String a EmptyString.
Proof.
  unfold chr. split.
  - intros H. inversion H as [|? ? Hc| | | | |]; subst. apply Ascii.eqb_eq in Hc. now subst.
  - intros ->. constructor. apply Ascii.eqb_refl.
Qed.

Lemma test_semver_triple (v : string) :
  test semver_triple v = true <-> is_version_triple v.
Proof.
  rewrite test_lang. unfold semver_triple, is_version_triple. split.
  - intros H.
    inversion H as [| |? ? a s1 Ha H1| | | |]; subst.
    inversion H1 as [| |? ? d1 s2 Hd1 H2| | | |]; subst.
    inversion H2 as [| |? ? b s3 Hb H3| | | |]; subst.
    inversion H3 as [| |? ? d2 c Hd2 Hc| | | |]; subst.
    apply lang_chr in Hd1, Hd2. subst.
    exists a, b, c. rewrite !lang_plus_class in *. auto.
  - intros (a & b & c & Ha & Hb & Hc & ->).
    repeat constructor; try (now apply lang_plus_class); apply Ascii.eqb_refl.
Qed.

End JsFacts.

(** ** Quality scorer *)

Module QualityFacts.
Import Tpl Quality QualitySpec.

Lemma missingFields_spec (t : Template) :
  filter (fun f => truthy_field t f = false) requiredFields = missing t.
Proof.
  unfold missing, requiredFields.
  destruct t as [n d v au tg r f c]; cbn -[Js.truthy Js.present].
  destruct (Js.truthy n), (Js.truthy d), (Js.truthy v), (Js.present r), (Js.present f);
    reflexivity.
Qed.

Lemma missing_length (t : Template) : (length (missing t) <= 5)%nat.
Proof.
  unfold missing, if_missing.
  destruct (Js.truthy (name t)), (Js.truthy (description t)),
    (Js.truthy (version t)), (Js.present (rules t)), (Js.present (files t));
    simpl; lia.
Qed.

(** The three components of the value of [analyzeCompleteness]. *)
Lemma analyzeCompleteness_spec (t : Template) :
  score (analyzeCompleteness t) = required_points t + files_points t + commands_points t /\
  issues (analyzeCompleteness t) = completeness_issues t /\
  recommendations (analyzeCompleteness t) = completeness_recommendations t.
Proof.
  unfold analyzeCompleteness. rewrite missingFields_spec.
  unfold required_points, files_points, commands_points, completeness_issues,
    completeness_recommendations, absent_commands, command_present, has_cursorrules.
  pose proof (missing_length t) as Hm.
  destruct (missing t) as [|m ms] eqn:Em;
    destruct (files t) as [[|f fs]|]; cbn [Quality.non_empty];
    try destruct (existsb is_cursorrules (f :: fs));
    destruct (commands t) as [c|]; cbn [Js.present];
    try (destruct (has_command c "install"), (has_command c "dev"));
    cbn -[Z.max Z.of_nat Js.join String.append Z.mul Z.add Z.sub];
    (split; [cbn [length] in Hm |- *; lia | split; reflexivity]).
Qed.

Lemma completeness_bounds (t : Template) : 0 <= score (analyzeCompleteness t) <= 30.
Proof.
  destruct (analyzeCompleteness_spec t) as [-> _].
  unfold required_points, files_points, commands_points.
  pose proof (missing_length t).
  destruct (Quality.non_empty (files t)), (has_cursorrules t),
    (command_present t "install"), (command_present t "dev"); lia.
Qed.

Lemma documentation_bounds (t : Template) (a : analysis) :
  analyzeDocumentation t = Ok a -> 0 <= score a <= 25.
Proof.
  unfold analyzeDocumentation.
  destruct (description t) as [[|c d]|]; cbn zeta;
    try destruct (50 <? len (String c d)); try destruct (20 <? len (String c d));
    (destruct (files t ≫= find is_cursorrules) as [f|];
     [destruct (Tpl.content f) as [body|]; [|discriminate];
      destruct (500 <? len body); try destruct (200 <? len body);
      destruct (Js.includes body "context" || Js.includes body "You are")%bool,
        (Js.includes body "```" || Js.includes body "Example")%bool,
        (Js.includes body "Best Practices" || Js.includes body "## ")%bool
     |];
     intros [= <-]; cbn; lia).
Qed.

Lemma bestPractices_bounds (t : Template) : 0 <= score (analyzeBestPractices t) <= 25.
Proof.
  unfold analyzeBestPractices.
  destruct (version t) as [[|c v]|]; try destruct (Js.test Js.semver_triple (String c v));
    destruct (tags t) as [[|x xs]|];
    try destruct (Z.of_nat (length (x :: xs)) <? 3);
    (destruct (rules t) as [r|];
     [destruct (Js.truthy (context r)), (Js.present (style r)),
        (non_empty (restrictions r)), (non_empty (preferences r)) |];
     cbn; lia).
Qed.

Lemma usability_bounds (t : Template) (a : analysis) :
  analyzeUsability t = Ok a -> 0 <= score a <= 20.
Proof.
  unfold analyzeUsability.
  destruct (name t) as [[|c n]|] eqn:En;
    try destruct (Js.test Js.kebab_name (String c n));
    destruct (Js.truthy (author t));
    (destruct (tags t) as [tg|];
     [destruct (rules t) as [r|];
      [match goal with |- context [Js.someM ?f ?l] => destruct (Js.someM f l) as [[|]|e] end
      |] |];
     cbn; try discriminate; intros [= <-]; cbn; lia).
Qed.

Lemma calculateGrade_band (s : Z) : calculateGrade s = band s.
Proof.
  unfold calculateGrade, band, bands. cbn [find fst snd].
  repeat (match goal with |- context [?a <=? s] => destruct (a <=? s) end; try reflexivity).
Qed.

Lemma calculateGrade_monotone (s1 s2 : Z) :
  s1 <= s2 -> (rank (calculateGrade s1) <= rank (calculateGrade s2))%nat.
Proof.
  intros H. unfold calculateGrade.
  repeat match goal with
         | |- context [?a <=? ?s] => destruct (Z.leb_spec a s)
         end; try lia; vm_compute; lia.
Qed.

(** The catch branch: an unreadable descriptor gives the record with
    score 0, grade F and the message of the error. *)
Lemma analyzeTemplate_unreadable (e : exn) (templateName now : string) :
  analyzeTemplate (Throw e) templateName now =
  mkMetrics templateName 0 None None None "F" (Some (message e)) now.
Proof. reflexivity. Qed.

Lemma analyzeTemplate_score_grade (readJson : result Template) (templateName now : string) :
  let m := analyzeTemplate readJson templateName now in
  0 <= m_score m <= 100 /\ m_grade m = calculateGrade (m_score m).
Proof.
  unfold analyzeTemplate. destruct readJson as [t|e]; [|cbn; split; [lia | reflexivity]].
  cbn [mbind result_bind try_catch].
  pose proof (completeness_bounds t).
  pose proof (bestPractices_bounds t).
  pose proof (documentation_bounds t) as Hd.
  pose proof (usability_bounds t) as Hu.
  destruct (analyzeDocumentation t) as [d|e]; [|cbn; split; [lia | reflexivity]].
  destruct (analyzeUsability t) as [u|e]; [|cbn; split; [lia | reflexivity]].
  specialize (Hd d eq_refl). specialize (Hu u eq_refl).
  cbn [mbind result_bind try_catch m_score m_grade]. split; [lia | reflexivity].
Qed.

Example react_vite_score :
  m_score (analyzeTemplate (Ok Samples.react_vite) "react-typescript-vite" "t") = 87 /\
  m_grade (analyzeTemplate (Ok Samples.react_vite) "react-typescript-vite" "t") = "A".
Proof. vm_compute. split; reflexivity. Qed.

(** C3: the score of every analysis is an integer between 0 and 100, and
    the grade is the band of the score in the table 90 A+, 85 A, 80 A-,
    75 B+, 70 B, 65 B-, 60 C+, 55 C, 50 C-, 40 D, else F, which is what
    [calculateGrade] computes and is monotone; 40 gives D and 39 gives F. *)
Theorem C3_score_range_and_grade (readJson : result Template)
    (templateName now : string) (s1 s2 : Z) :
  s1 <= s2 ->
  let m := analyzeTemplate readJson templateName now in
  0 <= m_score m <= 100 /\
  m_grade m = band (m_score m) /\
  calculateGrade s1 = band s1 /\
  (rank (band s1) <= rank (band s2))%nat /\
  band 40 = "D" /\ band 39 = "F".
Proof.
  intros Hle m.
  destruct (analyzeTemplate_score_grade readJson templateName now) as [Hs Hg].
  fold m in Hs, Hg.
  repeat split; try apply Hs.
  - rewrite Hg. apply calculateGrade_band.
  - apply calculateGrade_band.
  - rewrite <- !calculateGrade_band. now apply calculateGrade_monotone.
Qed.

Lemma C3_witness :
  39 <= 40 /\
  let m := analyzeTemplate (Ok Samples.react_vite) "react-typescript-vite" "2026-01-01" in
  0 <= m_score m <= 100 /\
  m_grade m = band (m_score m) /\
  calculateGrade 39 = band 39 /\
  (rank (band 39) <= rank (band 40))%nat /\
  band 40 = "D" /\ band 39 = "F".
Proof.
  split; [lia |].
  apply (C3_score_range_and_grade (Ok Samples.react_vite)
           "react-typescript-vite" "2026-01-01" 39 40).
  lia.
Defined.

(** C4, as stated, fails: a template without a [commands] object has
    neither command, and no recommendation is emitted for them. *)
Lemma C4_counterexample :
  command_present Samples.no_commands "install" = false /\
  command_present Samples.no_commands "dev" = false /\
  recommendations (analyzeCompleteness Samples.no_commands) = [] /\
  recommendations (analyzeCompleteness Samples.no_commands)
    <> absent_commands Samples.no_commands.
Proof. vm_compute. repeat split; discriminate. Qed.

(** C4 (amended): the completeness score is max(0, 15 - 3m), m the
    number of missing fields among name, description, version, rules and
    files, plus 10 for a non-empty file list with a .cursorrules entry, 5
    (and an issue) for one without, 0 (and an issue) without files, plus
    5 for both of commands.install and commands.dev, 3 for exactly one.
    With a [commands] object, one recommendation is emitted for each of
    the two commands that is absent; without one, the issue "No commands
    defined" is recorded and no recommendation is emitted. *)
Theorem C4_completeness (t : Template) :
  score (analyzeCompleteness t) = required_points t + files_points t + commands_points t /\
  issues (analyzeCompleteness t) = completeness_issues t /\
  recommendations (analyzeCompleteness t) =
    (if Js.present (commands t) then absent_commands t else []).
Proof. apply analyzeCompleteness_spec. Qed.

Lemma analyzeLoop_unreadable (now : string) (l1 l2 : list Store.entry)
    (d : string) (e : exn) (results : list metrics) :
  exists thrown,
    analyzeLoop now (l1 ++ Store.mkEntry d (Some (Throw e)) :: l2) results = Throw thrown.
Proof.
  revert results. induction l1 as [|x l1 IH]; intros results; simpl.
  - now exists Js.undefined_length.
  - destruct (Store.descriptor x) as [r|]; [|apply IH].
    destruct (getGradeColor _); [|now exists not_a_function].
    destruct (m_issues _); [|now exists Js.undefined_length].
    destruct (m_recommendations _); [apply IH | now exists Js.undefined_length].
Qed.

(** C10 (code bug): [analyzeTemplate] turns an unreadable descriptor into
    the record with score 0, grade F and the error message, but the
    analysis of a whole store that contains such a descriptor does not
    complete: the loop of [analyzeAllTemplates] reads [.length] of the
    absent [issues] of that record and throws a [TypeError]. *)
Theorem C10_unreadable_descriptor_aborts_analysis (now d : string) (e : exn)
    (l1 l2 : list Store.entry) :
  analyzeTemplate (Throw e) d now =
    mkMetrics d 0 None None None "F" (Some (message e)) now /\
  analyzeAllTemplates (Ok (Store.mkEntry d (Some (Throw e)) :: l2)) now =
    Throw (TypeError "Cannot read properties of undefined (reading 'length')") /\
  exists thrown,
    analyzeAllTemplates (Ok (l1 ++ Store.mkEntry d (Some (Throw e)) :: l2)) now =
    Throw thrown.
Proof.
  split; [reflexivity |]. split; [reflexivity |].
  unfold analyzeAllTemplates. cbn [mbind result_bind].
  apply analyzeLoop_unreadable.
Qed.

Example analyzeAll_corrupt_store :
  analyzeAllTemplates (Ok (Samples.store ++ [Samples.corrupt])) "t" =
  Throw (TypeError "Cannot read properties of undefined (reading 'length')").
Proof. vm_compute. reflexivity. Qed.

Example analyzeAll_sound_store :
  m_score <$> default [] (match analyzeAllTemplates (Ok Samples.store) "t" with
                          | Ok rs => Some rs | Throw _ => None end) = [87; 87].
Proof. vm_compute. reflexivity. Qed.

End QualityFacts.

(** ** Validator *)

Module ValidatorFacts.
Import Tpl Validator ValidatorSpec.

#[local] Arguments String.append !_ _ / : simpl nomatch.

Section WithStringify.

Variable stringify : FileEntry -> string.



(** The file loop when every [.cursorrules] entry has a content: one
    error for each bad entry, one warning for each short
    [.cursorrules], after what was there. *)
Lemma validateFiles_readable (fs : list FileEntry) (errors warnings : list string) :
  forallb rules_readable fs = true ->
  validateFiles stringify fs errors warnings =
  Ok (errors ++ map (file_error stringify) (List.filter bad_entry fs),
      warnings ++ map (fun _ => ".cursorrules file seems too short")
                      (List.filter short_rules fs)).
Proof.
  revert errors warnings.
  induction fs as [|f fs IH]; intros errors warnings H; simpl.
  - now rewrite !app_nil_r.
  - simpl in H. apply andb_true_iff in H as [Hf Hfs].
    unfold rules_readable in Hf. unfold bad_entry at 1. unfold short_rules at 1.
    destruct (is_cursorrules f) eqn:Ec.
    + destruct (content f) as [c|] eqn:Econt; [|discriminate].
      rewrite IH by assumption.
      destruct (negb (Js.truthy (path f)) || negb (Js.truthy (Some c)))%bool,
        (Quality.len c <? 100); simpl; now rewrite <- ?app_assoc.
    + rewrite IH by assumption.
      destruct (negb (Js.truthy (path f)) || negb (Js.truthy (content f)))%bool;
        simpl; now rewrite <- ?app_assoc.
Qed.

(** The file loop throws at the first [.cursorrules] entry without a
    content. *)
Lemma validateFiles_unreadable (fs : list FileEntry) (errors warnings : list string) :
  forallb rules_readable fs = false ->
  validateFiles stringify fs errors warnings = Throw Js.undefined_length.
Proof.
  revert errors warnings.
  induction fs as [|f fs IH]; intros errors warnings H; simpl in *; [discriminate |].
  unfold rules_readable in H at 1.
  destruct (is_cursorrules f).
  - destruct (content f); [apply IH; exact H | reflexivity].
  - apply IH. exact H.
Qed.

(** The errors of a validation that reaches its end. *)
Lemma validateTemplate_errors (t : Template) :
  files_readable t = true ->
  errors (validateTemplate stringify (Ok t)) =
  map (fun field => "Missing required field: " +:+ field)
      (filter (fun field => truthy_field t field = false) required) ++
  (if (Js.truthy (version t) && negb (Js.test Js.semver_triple (default EmptyString (version t))))%bool
   then [version_error] else []) ++
  map (file_error stringify) (List.filter bad_entry (default [] (files t))) /\
  template (validateTemplate stringify (Ok t)) = Some t.
Proof.
  intros Hr. unfold validateTemplate, files_readable in *.
  cbn [mbind result_bind]. cbn zeta.
  destruct (files t) as [fs|].
  - rewrite validateFiles_readable by assumption. cbn [mbind result_bind try_catch].
    split; [|reflexivity]. cbn [errors from_option]. change (id fs) with fs.
    set (M := map _ (filter _ required)).
    destruct (version t) as [[|c v]|]; cbn [Js.truthy andb from_option id];
      try destruct (Js.test _ _); cbn [negb app];
      rewrite <- ?app_assoc; reflexivity.
  - cbn [mbind result_bind try_catch]. split; [|reflexivity].
    cbn [errors from_option List.filter map].
    set (M := map _ (filter _ required)).
    destruct (version t) as [[|c v]|]; cbn [Js.truthy andb from_option id];
      try destruct (Js.test _ _); cbn [negb app];
      rewrite ?app_nil_r; reflexivity.
Qed.

(** A validation that meets a [.cursorrules] entry without content
    returns the single parse failure. *)
Lemma validateTemplate_unreadable (t : Template) :
  files_readable t = false ->
  validateTemplate stringify (Ok t) =
  mkReport ["Failed to parse template: Cannot read properties of undefined (reading 'length')"]
           [] None.
Proof.
  intros Hr. unfold validateTemplate, files_readable in *.
  cbn [mbind result_bind]. cbn zeta.
  destruct (files t) as [fs|]; [|discriminate].
  rewrite validateFiles_unreadable by assumption. reflexivity.
Qed.

End WithStringify.





Example validate_versions :
  errors (validateTemplate show_file (Ok (with_version "1.0"))) =
    [version_error; "Invalid file entry: {path: README.md}"] /\
  errors (validateTemplate show_file (Ok (with_version "1.0.0"))) =
    ["Invalid file entry: {path: README.md}"].
Proof. split; reflexivity. Qed.

(** When the validation reaches its end, every bad entry of the file
    list has its error in the report. *)
Lemma validate_reports_bad_entries (stringify : FileEntry -> string) (t : Template)
    (fs : list FileEntry) (f : FileEntry) :
  files_readable t = true -> files t = Some fs -> In f fs -> bad_entry f = true ->
  In (file_error stringify f) (errors (validateTemplate stringify (Ok t))).
Proof.
  intros Hr Hfs Hin Hbad.
  destruct (validateTemplate_errors stringify t Hr) as [-> _].
  rewrite Hfs. cbn [from_option id]. rewrite !in_app_iff. right. right.
  apply in_map. apply filter_In. auto.
Qed.

(** C5 (code bug): for the descriptor whose file list is the single
    entry [{path: ".cursorrules"}], which has no content, the validation
    does not return the error of that entry with the other findings: the
    read of [file.content.length] throws, and the report is the single
    parse failure, without the entry error, the version error of "1.0"
    and the warnings. *)
Theorem C5_entry_error_discarded (stringify : FileEntry -> string) :
  bad_entry Samples.rules_without_content = true /\
  files Samples.broken_files = Some [Samples.rules_without_content] /\
  validateTemplate stringify (Ok Samples.broken_files) =
    mkReport
      ["Failed to parse template: Cannot read properties of undefined (reading 'length')"]
      [] None /\
  ~ In (file_error stringify Samples.rules_without_content)
       (errors (validateTemplate stringify (Ok Samples.broken_files))).
Proof.
  split; [reflexivity |]. split; [reflexivity |].
  rewrite (validateTemplate_unreadable stringify Samples.broken_files eq_refl).
  split; [reflexivity |].
  cbn [errors]. unfold file_error. simpl. intros [H | []]. discriminate.
Qed.

End ValidatorFacts.

(** ** Template store *)

Module LoaderFacts.
Import Tpl Store Loader LoaderSpec.

Lemma loadLoop_spec (entries : list entry) (templates : list Template)
    (console : list string) :
  loadLoop entries templates console =
  (templates ++ parsed entries, console ++ warnings_of entries).
Proof.
  revert templates console.
  induction entries as [|e es IH]; intros templates console; simpl.
  - unfold warnings_of. simpl. now rewrite !app_nil_r.
  - unfold parsed, warnings_of, parsed_entry, malformed in *. simpl.
    destruct (descriptor e) as [[t|x]|]; rewrite IH; simpl;
      now rewrite <- ?app_assoc.
Qed.

Lemma parsed_app (l1 l2 : list entry) : parsed (l1 ++ l2) = parsed l1 ++ parsed l2.
Proof. unfold parsed. apply omap_app. Qed.

Lemma warnings_of_app (l1 l2 : list entry) :
  warnings_of (l1 ++ l2) = warnings_of l1 ++ warnings_of l2.
Proof. unfold warnings_of. now rewrite List.filter_app, map_app. Qed.

(** C7: whenever the templates directory can be listed, [getTemplates]
    returns: its value is one template per entry whose descriptor exists
    and parses, in directory order, with one warning per malformed
    descriptor; a malformed descriptor anywhere in the directory adds its
    warning and leaves the templates of the other entries as they are. *)
Theorem C7_malformed_descriptor_skipped (entries l1 l2 : list entry)
    (d : string) (e : exn) :
  getTemplates (Ok entries) = Ok (parsed entries, warnings_of entries) /\
  getTemplates (Ok (l1 ++ mkEntry d (Some (Throw e)) :: l2)) =
    Ok (parsed l1 ++ parsed l2,
        warnings_of l1 ++ ("Warning: Could not load template from " +:+ d) :: warnings_of l2) /\
  fst <$> getTemplates (Ok (l1 ++ mkEntry d (Some (Throw e)) :: l2)) =
  fst <$> getTemplates (Ok (l1 ++ l2)).
Proof.
  unfold getTemplates. cbn [mbind result_bind]. rewrite !loadLoop_spec.
  cbn [app]. rewrite !parsed_app, !warnings_of_app.
  repeat split.
Qed.

Example getTemplates_with_corrupt :
  getTemplates (Ok (Samples.corrupt :: Samples.store)) =
  Ok ([Samples.react_vite; Samples.vue_vite],
      ["Warning: Could not load template from corrupt"]).
Proof. reflexivity. Qed.

(** The same for [getAllTemplates] of the discovery module. *)
Lemma loadAllLoop_templates (entries : list entry) (templates : list located)
    (console : list string) :
  map template (fst (loadAllLoop entries templates console)) =
  map template templates ++ parsed entries.
Proof.
  revert templates console.
  induction entries as [|e es IH]; intros templates console; simpl.
  - now rewrite app_nil_r.
  - unfold parsed, parsed_entry in *. simpl.
    destruct (descriptor e) as [[t|x]|]; rewrite IH; simpl; try reflexivity.
    rewrite map_app. simpl. now rewrite <- app_assoc.
Qed.

End LoaderFacts.

(** ** Rating aggregator *)

Module RatingsFacts.
Import Ratings RatingsSpec.

(** *** Rounding *)


Lemma round_div_bounds (lo hi n d : Z) :
  0 < d -> lo * d <= n <= hi * d -> lo <= round_div n d <= hi.
Proof.
  intros Hd [Hlo Hhi]. unfold round_div. split.
  - apply Z.div_le_lower_bound; lia.
  - apply Z.lt_succ_r. apply Z.div_lt_upper_bound; lia.
Qed.

(** *** One submission *)




(** *** The record after a sequence of submissions *)




(** *** The running mean *)





(** Four ratings are enough: 1,1,2,3 leave 1.7 where the mean 1.75
    rounds to 1.8, and 1,2,3,1 leave 1.8. *)
Example four_ratings :
  rating_after [1; 1; 2; 3] = Some 17 /\ rounded_mean [1; 1; 2; 3] = 18 /\
  rating_after [1; 2; 3; 1] = Some 18.
Proof. repeat split; vm_compute; reflexivity. Qed.



Example five_three_four_record :
  lookup_record (submit_all "react-typescript-vite" None five_three_four)
    "react-typescript-vite" =
  Some (mkRecord (Some 40) 3 [mkReview "anonymous" (Some 3) "Works well" "2026-01-02"]).
Proof. vm_compute. reflexivity. Qed.

(** *** The [rate] command *)

Example parseInt_examples :
  parseInt "4" = Some 4 /\ parseInt " 5 stars" = Some 5 /\ parseInt "0x10" = Some 16 /\
  parseInt "-1" = Some (-1) /\ parseInt "abc" = None /\ parseInt EmptyString = None.
Proof. repeat split. Qed.

(** A rating that parses to an integer outside [1,5] is rejected and
    the ratings file is left as it is. *)
Lemma rate_out_of_range (readdir : result (list Store.entry)) (file : ratings_file)
    (templateName rating : string) (comment : option string) (now : string) (n : Z) :
  parseInt rating = Some n -> n < 1 \/ 5 < n ->
  rate readdir file templateName rating comment now = (OutOfRange, file).
Proof.
  intros Hp Hn. unfold rate. rewrite Hp. unfold lt, gt.
  destruct (Z.ltb_spec n 1), (Z.ltb_spec 5 n); try reflexivity; lia.
Qed.

(** A template name that no loaded template has is rejected and the
    ratings file is left as it is. *)
Lemma rate_unknown_template (entries : list Store.entry) (file : ratings_file)
    (templateName rating : string) (comment : option string) (now : string) :
  Forall (fun t => Tpl.name t <> Some templateName) (LoaderSpec.parsed entries) ->
  snd (rate (Ok entries) file templateName rating comment now) = file /\
  fst (rate (Ok entries) file templateName rating comment now) <>
    Rated templateName (parseInt rating).
Proof.
  intros Hall. unfold rate.
  destruct (lt (parseInt rating) 1 || gt (parseInt rating) 5)%bool;
    [split; [reflexivity | discriminate] |].
  unfold Loader.getTemplates. cbn [mbind result_bind].
  rewrite LoaderFacts.loadLoop_spec. cbn [app].
  destruct (find _ (LoaderSpec.parsed entries)) as [t|] eqn:E;
    [|split; [reflexivity | discriminate]].
  apply find_some in E as [Hin Hname]. apply bool_decide_eq_true in Hname.
  rewrite List.Forall_forall in Hall. now apply Hall in Hin.
Qed.

(** No rejection touches the ratings file. *)
Lemma rate_rejected_unchanged (readdir : result (list Store.entry)) (file : ratings_file)
    (templateName rating : string) (comment : option string) (now : string) :
  fst (rate readdir file templateName rating comment now) <>
    Rated templateName (parseInt rating) ->
  snd (rate readdir file templateName rating comment now) = file.
Proof.
  unfold rate.
  destruct (lt (parseInt rating) 1 || gt (parseInt rating) 5)%bool; [reflexivity |].
  destruct (Loader.getTemplates readdir) as [[templates console]|e]; [|reflexivity].
  destruct (find _ templates); [|reflexivity].
  cbn [fst snd]. congruence.
Qed.

(** C6 (code bug): the rating argument "abc" is no integer of [1,5];
    [parseInt] makes it [NaN], both comparisons of the range check are
    false, and the submission is accepted: the ratings file, absent
    before, now holds a record with one vote and a [null] rating. *)
Theorem C6_non_numeric_rating_accepted (now : string) :
  parseInt "abc" = None /\
  rate (Ok Samples.store) None "react-typescript-vite" "abc" None now =
    (Rated "react-typescript-vite" None,
     Some (Ok (mkDocument {["react-typescript-vite" := mkRecord None 1 []]} [] []))) /\
  snd (rate (Ok Samples.store) None "react-typescript-vite" "abc" None now) <> None.
Proof.
  split; [reflexivity |]. split; [|discriminate].
  vm_compute. reflexivity.
Qed.

End RatingsFacts.

(** ** Search and category filter *)

Module SearchFacts.
Import Tpl Search SearchSpec.







Example search_command_native :
  search (Ok native_store) "native" (Some "frontend") = Ok [native_app].
Proof. reflexivity. Qed.



Example search_react :
  search (Ok Samples.store) "react" None = Ok [Samples.react_vite].
Proof. reflexivity. Qed.

End SearchFacts.

(** ** Update *)

Module UpdateFacts.
Import Tpl Update UpdateSpec.

#[local] Arguments String.append !_ _ / : simpl nomatch.

Lemma semver_gt_triples_spec : semver_spec semver_gt_triples.
Proof. intros a b ta tb Ha Hb. unfold semver_gt_triples. now rewrite Ha, Hb. Qed.

Example parse_triple_examples :
  parse_triple "1.1.0" = Some (1, 1, 0) /\ parse_triple "1.0.0" = Some (1, 0, 0) /\
  parse_triple "01.0.0" = None /\ parse_triple "1.0" = None /\
  parse_triple "1.0.0-beta" = None /\ triple_gtb (1, 10, 0) (1, 9, 0) = true.
Proof. repeat split. Qed.

(** [isNewer] on strict numeric triples is their precedence. *)
Lemma isNewer_triples (gt : string -> string -> result bool) (n c : string)
    (tn tc : Z * Z * Z) :
  semver_spec gt -> parse_triple n = Some tn -> parse_triple c = Some tc ->
  isNewer gt (Some n) (Some c) = triple_gtb tn tc.
Proof. intros Hgt Hn Hc. unfold isNewer. now rewrite (Hgt n c tn tc Hn Hc). Qed.

Lemma triple_gtb_irrefl (t : Z * Z * Z) : triple_gtb t t = false.
Proof.
  destruct t as [[a b] c]. unfold triple_gtb.
  rewrite !Z.ltb_irrefl, !Z.eqb_refl. reflexivity.
Qed.

(** *** The file loop *)









(** *** The command *)

Lemma update_found (gt : string -> string -> result bool) (opts : options)
    (entries : list Store.entry) (confirm : bool) (clock : nat -> string) (now : string)
    (p : project) (m : metadata) (cur : Template) :
  marker p = Some m ->
  find (fun t => bool_decide (name t = Some (template m))) (LoaderSpec.parsed entries) = Some cur ->
  update gt opts (Ok entries) confirm clock now p =
  let hasUpdate := isNewer gt (Tpl.version cur) (version m) in
  if check opts then
    if hasUpdate
    then ([UpdateAvailable (template m) (version m) (Tpl.version cur)], p)
    else ([UpToDate (template m) (version m)], p)
  else if (negb hasUpdate && negb (force opts))%bool then ([AlreadyUpToDate (version m)], p)
  else if negb confirm then ([Cancelled], p)
  else
    let '(d, console, thrown) :=
      match files cur with
      | Some fs => writeFiles clock 0 fs (disk p) []
      | None => (disk p, [], None)
      end in
    match thrown with
    | Some error => (console ++ [Failed (message error)], mkProject d (marker p))
    | None =>
        (console ++ [Updated (map path (default [] (files cur)))],
         mkProject d (Some (updated_marker m (Tpl.version cur) now)))
    end.
Proof.
  intros Hm Hfind. unfold update. rewrite Hm.
  unfold Loader.getTemplates. cbn [mbind result_bind].
  rewrite LoaderFacts.loadLoop_spec. cbn [app]. rewrite Hfind. reflexivity.
Qed.

(** Without [--check] and [--force], equal numeric versions leave the
    project as it is. *)
Lemma update_equal_versions_noop (gt : string -> string -> result bool)
    (entries : list Store.entry) (confirm : bool) (clock : nat -> string) (now : string)
    (p : project) (m : metadata) (cur : Template) (v : string) (tv : Z * Z * Z) :
  semver_spec gt ->
  marker p = Some m ->
  find (fun t => bool_decide (name t = Some (template m))) (LoaderSpec.parsed entries) = Some cur ->
  Tpl.version cur = Some v -> version m = Some v -> parse_triple v = Some tv ->
  update gt (mkOptions false false) (Ok entries) confirm clock now p =
  ([AlreadyUpToDate (Some v)], p).
Proof.
  intros Hgt Hm Hfind Hv Hv' Ht.
  rewrite (update_found gt _ entries confirm clock now p m cur Hm Hfind).
  rewrite Hv, Hv', (isNewer_triples gt v v tv tv Hgt Ht Ht), triple_gtb_irrefl.
  reflexivity.
Qed.





Example update_check_reports :
  update semver_gt_triples (mkOptions true false) (Ok two_files_store) true
    at_noon "2026-02-01" (installed "1.0.0") =
  ([UpdateAvailable "two-files" (Some "1.0.0") (Some "1.1.0")], installed "1.0.0").
Proof. reflexivity. Qed.

Example update_forced_equal_versions :
  update semver_gt_triples (mkOptions false true) (Ok two_files_store) true
    at_noon "2026-02-01" (installed "1.1.0") =
  ([BackedUp ".cursorrules" ".cursorrules.backup.1767268800000";
    Updated [Some ".cursorrules"; Some "src/a.txt"]],
   mkProject
     (<["src/a.txt" := "Y"]>
        (<[".cursorrules" := "X"]>
           (<[".cursorrules.backup.1767268800000" := "old rules"]>
              (<[".cursorrules" := "old rules"]> ∅))))
     (Some (mkMetadata "two-files" (Some "1.1.0") "2026-01-01" "demo" (Some "2026-02-01")))).
Proof. vm_compute. reflexivity. Qed.

End UpdateFacts.

(** * Further properties of the code *)

(** ** Rating aggregator: acceptance, frame and unreadable files *)

Module RatingsMore.
Import Ratings RatingsSpec.

(** X1: a rating argument that parses to an integer below 1 or above 5,
    or a template name that no loaded template has, makes [rate] reject the
    submission: the outcome is not [Rated] and the ratings file is exactly
    what it was. *)
Theorem X1_rate_rejects (entries : list Store.entry) (file : ratings_file)
    (templateName rating : string) (comment : option string) (now : string) (n : Z) :
  (parseInt rating = Some n /\ (n < 1 \/ 5 < n)) \/
  Forall (fun t => Tpl.name t <> Some templateName) (LoaderSpec.parsed entries) ->
  snd (rate (Ok entries) file templateName rating comment now) = file /\
  fst (rate (Ok entries) file templateName rating comment now) <>
    Rated templateName (parseInt rating).
Proof.
  intros [[Hp Hn] | Hall].
  - rewrite (RatingsFacts.rate_out_of_range (Ok entries) file templateName rating
               comment now n Hp Hn).
    split; [reflexivity | discriminate].
  - now apply RatingsFacts.rate_unknown_template.
Qed.

Lemma X1_witness :
  ((parseInt "6" = Some 6 /\ (6 < 1 \/ 5 < 6)) \/
   Forall (fun t => Tpl.name t <> Some "react-typescript-vite")
          (LoaderSpec.parsed Samples.store)) /\
  snd (rate (Ok Samples.store) None "react-typescript-vite" "6" None "t") = None /\
  fst (rate (Ok Samples.store) None "react-typescript-vite" "6" None "t") <>
    Rated "react-typescript-vite" (parseInt "6").
Proof.
  assert (H : parseInt "6" = Some 6 /\ (6 < 1 \/ 5 < 6)) by (split; [reflexivity | lia]).
  split; [now left |].
  apply (X1_rate_rejects Samples.store None "react-typescript-vite" "6" None "t" 6).
  now left.
Defined.




End RatingsMore.

(** ** Validator and scorer: validity, failures, breakdown *)

Module ValidatorMore.
Import Tpl Validator ValidatorSpec MoreSpec.

Lemma filter_nil_forallb {A} (p : A -> bool) (l : list A) :
  List.filter p l = [] <-> forallb (fun x => negb (p x)) l = true.
Proof.
  induction l as [|x l IH]; simpl; [tauto |].
  destruct (p x); simpl; [split; discriminate | exact IH].
Qed.

Lemma required_errors_nil (t : Template) :
  map (fun field => "Missing required field: " +:+ field)
      (filter (fun field => truthy_field t field = false) required) = [] <->
  Js.truthy (name t) = true /\ Js.truthy (description t) = true /\
  Js.truthy (version t) = true /\ Js.present (rules t) = true.
Proof.
  unfold required. destruct t as [n d v au tg r f c]; cbn -[Js.truthy Js.present String.append].
  destruct (Js.truthy n), (Js.truthy d), (Js.truthy v), (Js.present r);
    cbn -[String.append]; split; try discriminate; try tauto;
    intros (? & ? & ? & ?); discriminate.
Qed.

(** The reports without errors, among those of validations that reach
    their end. *)
Lemma no_errors_iff (stringify : FileEntry -> string) (t : Template) :
  files_readable t = true ->
  (errors (validateTemplate stringify (Ok t)) = [] <->
   Js.truthy (name t) = true /\ Js.truthy (description t) = true /\
   Js.present (rules t) = true /\
   (exists v, version t = Some v /\ Js.is_version_triple v) /\
   forallb (fun f => negb (bad_entry f)) (default [] (files t)) = true).
Proof.
  intros Hr. destruct (ValidatorFacts.validateTemplate_errors stringify t Hr) as [-> _].
  split.
  - intros H. apply app_eq_nil in H as [HA H]. apply app_eq_nil in H as [HB HC].
    apply required_errors_nil in HA as (Hn & Hd & Hv & Hrl).
    split; [exact Hn |]. split; [exact Hd |]. split; [exact Hrl |]. split.
    + destruct (version t) as [v|]; [|discriminate Hv]. exists v. split; [reflexivity |].
      rewrite Hv in HB. cbn [andb from_option id] in HB.
      apply JsFacts.test_semver_triple.
      destruct (Js.test Js.semver_triple v); [reflexivity | discriminate HB].
    + apply filter_nil_forallb. now apply map_eq_nil in HC.
  - intros (Hn & Hd & Hrl & (v & Hv & Htriple) & Hfiles).
    assert (Hvt : Js.truthy (version t) = true).
    { rewrite Hv. destruct v; [|reflexivity].
      apply JsFacts.test_semver_triple in Htriple. discriminate Htriple. }
    rewrite (proj2 (required_errors_nil t)) by auto.
    rewrite Hvt, Hv. cbn [andb from_option id].
    apply JsFacts.test_semver_triple in Htriple. rewrite Htriple. cbn [negb app].
    apply filter_nil_forallb in Hfiles. now rewrite Hfiles.
Qed.

(** X4: a template is valid (its report has no error) exactly when name,
    description and rules are present, the version is of the form
    digits.digits.digits, and every file entry has a non-empty path and a
    non-empty content -- for every validation that reaches its end.  Tags,
    commands and the parts of the rules never make a template invalid. *)
Theorem X4_valid_iff (stringify : FileEntry -> string) (t : Template) :
  files_readable t = true ->
  (errors (validateTemplate stringify (Ok t)) = [] <->
   Js.truthy (name t) = true /\ Js.truthy (description t) = true /\
   Js.present (rules t) = true /\
   (exists v, version t = Some v /\ Js.is_version_triple v) /\
   forallb (fun f => negb (bad_entry f)) (default [] (files t)) = true).
Proof. apply no_errors_iff. Qed.

Lemma X4_witness :
  files_readable minimal_valid = true /\
  (errors (validateTemplate show_file (Ok minimal_valid)) = [] <->
   Js.truthy (name minimal_valid) = true /\ Js.truthy (description minimal_valid) = true /\
   Js.present (rules minimal_valid) = true /\
   (exists v, version minimal_valid = Some v /\ Js.is_version_triple v) /\
   forallb (fun f => negb (bad_entry f)) (default [] (files minimal_valid)) = true).
Proof.
  split; [reflexivity |]. apply (X4_valid_iff show_file minimal_valid). reflexivity.
Defined.

End ValidatorMore.

Module QualityMore.
Import Tpl Quality QualitySpec MoreSpec.

Lemma someM_named (n : string) (tags fws : list string) :
  exists b,
    Js.someM (fun fw =>
      if existsb (fun tag => Js.includes (Js.toLowerCase tag) fw) tags
      then Ok true
      else Ok (Js.includes (Js.toLowerCase n) fw)) fws = Ok b.
Proof.
  induction fws as [|fw fws [b IH]]; cbn [Js.someM]; [now exists false |].
  destruct (existsb _ tags); cbn [mbind result_bind]; [now exists true |].
  destruct (Js.includes _ fw); [now exists true | now exists b].
Qed.

Ltac ok_with_bounds :=
  eexists; split; [reflexivity |]; split; [reflexivity |];
  cbn; intros; (lia || congruence).

(** The usability analysis throws exactly for the unnamed templates with
    tags and rules whose tags do not contain "react". *)
Lemma usability_result (t : Template) :
  if unnamed_without_react t
  then analyzeUsability t = Throw Js.undefined_toLowerCase
  else exists u, analyzeUsability t = Ok u /\ maxScore u = 20 /\
                 (Js.truthy (name t) = true -> 3 <= score u).
Proof.
  unfold unnamed_without_react, analyzeUsability.
  destruct (name t) as [[|c n]|] eqn:En;
    try destruct (Js.test Js.kebab_name (String c n));
    destruct (Js.truthy (author t));
    (destruct (tags t) as [tg|];
     [destruct (rules t) as [r|] |]); cbn [negb];
    try (eexists; split; [reflexivity |]; split; [reflexivity |];
         cbn; intros; (lia || congruence));
    try (match goal with
         | |- context [Js.someM ?f frameworks] =>
             destruct (someM_named (String c n) tg frameworks) as [b Hb] ||
             destruct (someM_named EmptyString tg frameworks) as [b Hb]
         end;
         rewrite Hb; cbn [mbind result_bind]; destruct b;
         (eexists; split; [reflexivity |]; split; [reflexivity |];
          cbn; intros; (lia || congruence))).
  - unfold frameworks. cbn [Js.someM].
    destruct (existsb _ tg); cbn [mbind result_bind negb]; [|reflexivity].
    eexists; split; [reflexivity |]; split; [reflexivity |]. intros H; discriminate H.
  - unfold frameworks. cbn [Js.someM].
    destruct (existsb _ tg); cbn [mbind result_bind negb]; [|reflexivity].
    eexists; split; [reflexivity |]; split; [reflexivity |]. intros H; discriminate H.
Qed.

(** The documentation analysis throws exactly when the first
    [.cursorrules] entry has no content. *)
Lemma documentation_result (t : Template) :
  if rules_file_without_content t
  then analyzeDocumentation t = Throw Js.undefined_length
  else exists d, analyzeDocumentation t = Ok d /\ maxScore d = 25 /\
                 (Js.truthy (description t) = true -> 4 <= score d).
Proof.
  unfold rules_file_without_content, analyzeDocumentation.
  destruct (description t) as [[|c d]|]; cbn zeta;
    try destruct (50 <? len (String c d)); try destruct (20 <? len (String c d));
    (destruct (files t ≫= find is_cursorrules) as [f|];
     [destruct (Tpl.content f) as [body|]; cbn [Js.present negb];
      [destruct (500 <? len body); try destruct (200 <? len body);
       destruct (Js.includes body "context" || Js.includes body "You are")%bool,
         (Js.includes body "```" || Js.includes body "Example")%bool,
         (Js.includes body "Best Practices" || Js.includes body "## ")%bool;
       ok_with_bounds
      | reflexivity]
     | ok_with_bounds]).
Qed.

Lemma completeness_maxScore (t : Template) : maxScore (analyzeCompleteness t) = 30.
Proof.
  unfold analyzeCompleteness.
  destruct (Nat.eqb _ 0);
    destruct (files t) as [[|f fs]|]; try destruct (existsb is_cursorrules (f :: fs));
    (destruct (commands t) as [c|];
     [destruct (has_command c "install"), (has_command c "dev") |]); reflexivity.
Qed.

Lemma bestPractices_maxScore (t : Template) : maxScore (analyzeBestPractices t) = 25.
Proof.
  unfold analyzeBestPractices.
  destruct (version t) as [[|c v]|]; try destruct (Js.test Js.semver_triple (String c v));
    destruct (tags t) as [[|x xs]|];
    try destruct (Z.of_nat (length (x :: xs)) <? 3);
    (destruct (rules t) as [r|];
     [destruct (Js.truthy (context r)), (Js.present (style r)),
        (non_empty (restrictions r)), (non_empty (preferences r)) |]);
    reflexivity.
Qed.

Lemma bestPractices_valid_version (t : Template) (v : string) :
  version t = Some v -> Js.is_version_triple v -> 5 <= score (analyzeBestPractices t).
Proof.
  intros Hv Ht. apply JsFacts.test_semver_triple in Ht.
  unfold analyzeBestPractices. rewrite Hv.
  destruct v as [|c v]; [discriminate Ht |]. rewrite Ht.
  destruct (tags t) as [[|x xs]|];
    try destruct (Z.of_nat (length (x :: xs)) <? 3);
    (destruct (rules t) as [r|];
     [destruct (Js.truthy (context r)), (Js.present (style r)),
        (non_empty (restrictions r)), (non_empty (preferences r)) |]);
    cbn; lia.
Qed.

Lemma completeness_required_present (t : Template) :
  Js.truthy (name t) = true -> Js.truthy (description t) = true ->
  Js.truthy (version t) = true -> Js.present (rules t) = true ->
  12 <= score (analyzeCompleteness t).
Proof.
  intros Hn Hd Hv Hr.
  destruct (QualityFacts.analyzeCompleteness_spec t) as [-> _].
  unfold required_points, files_points, commands_points, missing.
  rewrite Hn, Hd, Hv, Hr. unfold if_missing. cbn [app].
  destruct (Js.present (files t)), (Quality.non_empty (files t)), (has_cursorrules t),
    (command_present t "install"), (command_present t "dev"); cbn; lia.
Qed.

(** The error record is returned exactly when one of the two analyses
    throws. *)
Lemma analyzeTemplate_result (t : Template) (templateName now : string) :
  if analysis_throws t
  then exists msg,
         analyzeTemplate (Ok t) templateName now =
         mkMetrics templateName 0 None None None "F" (Some msg) now
  else exists d u,
         analyzeDocumentation t = Ok d /\ analyzeUsability t = Ok u /\
         analyzeTemplate (Ok t) templateName now =
         let c := analyzeCompleteness t in
         let b := analyzeBestPractices t in
         mkMetrics templateName (0 + score c + score d + score b + score u)
           (Some (concat (map issues [c; d; b; u])))
           (Some (concat (map recommendations [c; d; b; u])))
           (Some (mkDimensions c d b u))
           (calculateGrade (0 + score c + score d + score b + score u)) None now.
Proof.
  unfold analysis_throws, analyzeTemplate. cbn [mbind result_bind].
  pose proof (documentation_result t) as Hd. pose proof (usability_result t) as Hu.
  destruct (rules_file_without_content t); cbn [orb].
  - rewrite Hd. cbn [mbind result_bind try_catch]. now eexists.
  - destruct Hd as (d & -> & _). cbn [mbind result_bind].
    destruct (unnamed_without_react t).
    + rewrite Hu. cbn [mbind result_bind try_catch]. now eexists.
    + destruct Hu as (u & -> & _). exists d, u. repeat split.
Qed.

Lemma valid_not_throwing (stringify : FileEntry -> string) (t : Template) :
  ValidatorSpec.files_readable t = true ->
  Validator.errors (Validator.validateTemplate stringify (Ok t)) = [] ->
  analysis_throws t = false.
Proof.
  intros Hr He. apply (ValidatorMore.no_errors_iff stringify t Hr) in He.
  destruct He as (Hn & _). unfold analysis_throws.
  apply orb_false_iff. split.
  - unfold rules_file_without_content, ValidatorSpec.files_readable in *.
    destruct (files t) as [fs|]; [|reflexivity]. cbn [mbind option_bind].
    destruct (find is_cursorrules fs) as [f|] eqn:E; [|reflexivity].
    apply find_some in E as [Hin Hc].
    rewrite forallb_forall in Hr. specialize (Hr f Hin).
    unfold ValidatorSpec.rules_readable in Hr. rewrite Hc in Hr. cbn [negb orb] in Hr.
    now rewrite Hr.
  - unfold unnamed_without_react. destruct (name t); [reflexivity | discriminate Hn].
Qed.

(** X5: validator and scorer compose.  A template whose validation
    reaches its end without errors is always analysable: the quality
    analysis returns no error record, and the score is at least 24 (12 for
    the required fields, 4 for the description, 5 for the version, 3 for
    the name); the bound is attained. *)
Theorem X5_valid_template_scores (stringify : FileEntry -> string) (t : Template)
    (templateName now : string) :
  ValidatorSpec.files_readable t = true ->
  Validator.errors (Validator.validateTemplate stringify (Ok t)) = [] ->
  m_error (analyzeTemplate (Ok t) templateName now) = None /\
  24 <= m_score (analyzeTemplate (Ok t) templateName now) /\
  m_score (analyzeTemplate (Ok minimal_valid) templateName now) = 24.
Proof.
  intros Hr He. pose proof (valid_not_throwing stringify t Hr He) as Hnt.
  apply (ValidatorMore.no_errors_iff stringify t Hr) in He.
  destruct He as (Hn & Hd & Hrl & (v & Hv & Htriple) & _).
  pose proof (analyzeTemplate_result t templateName now) as H. rewrite Hnt in H.
  destruct H as (d & u & Hdoc & Hus & ->). cbn [m_error m_score].
  split; [reflexivity |]. split; [|reflexivity].
  apply orb_false_iff in Hnt as [Hnd Hnu].
  pose proof (documentation_result t) as Hd'. rewrite Hnd in Hd'.
  destruct Hd' as (d' & Hd1 & _ & Hd2). rewrite Hdoc in Hd1. injection Hd1 as <-.
  pose proof (usability_result t) as Hu'. rewrite Hnu in Hu'.
  destruct Hu' as (u' & Hu1 & _ & Hu2). rewrite Hus in Hu1. injection Hu1 as <-.
  assert (Hvt : Js.truthy (version t) = true).
  { rewrite Hv. destruct v; [|reflexivity].
    apply JsFacts.test_semver_triple in Htriple. discriminate Htriple. }
  pose proof (completeness_required_present t Hn Hd Hvt Hrl).
  pose proof (bestPractices_valid_version t v Hv Htriple).
  specialize (Hd2 Hd). specialize (Hu2 Hn). lia.
Qed.

Lemma X5_witness :
  ValidatorSpec.files_readable Samples.react_vite = true /\
  Validator.errors (Validator.validateTemplate ValidatorSpec.show_file (Ok Samples.react_vite)) = [] /\
  m_error (analyzeTemplate (Ok Samples.react_vite) "react-typescript-vite" "t") = None /\
  24 <= m_score (analyzeTemplate (Ok Samples.react_vite) "react-typescript-vite" "t") /\
  m_score (analyzeTemplate (Ok minimal_valid) "react-typescript-vite" "t") = 24.
Proof.
  split; [reflexivity |]. split; [reflexivity |].
  apply (X5_valid_template_scores ValidatorSpec.show_file Samples.react_vite
           "react-typescript-vite" "t"); reflexivity.
Defined.

(** X6: when the analysis of a readable descriptor fails.  [analyzeTemplate]
    returns its error record (score 0, grade F, no issues) exactly when the
    first .cursorrules entry of the file list has no content, or when the
    template has tags and rules but no name and none of its tags contains
    "react"; in every other case it returns a full record without error. *)
Theorem X6_analysis_failure (t : Template) (templateName now : string) :
  let m := analyzeTemplate (Ok t) templateName now in
  if (rules_file_without_content t || unnamed_without_react t)%bool
  then m_score m = 0 /\ m_grade m = "F" /\ m_issues m = None /\
       m_analysis m = None /\ m_error m <> None
  else m_error m = None /\ m_issues m <> None /\ m_recommendations m <> None /\
       m_analysis m <> None.
Proof.
  intros m. subst m.
  pose proof (analyzeTemplate_result t templateName now) as H.
  unfold analysis_throws in H.
  destruct (rules_file_without_content t || unnamed_without_react t)%bool.
  - destruct H as [msg ->]. cbn. repeat split; discriminate.
  - destruct H as (d & u & _ & _ & ->). cbn. repeat split; discriminate.
Qed.

Example unnamed_vue_fails :
  m_error (analyzeTemplate (Ok unnamed_vue) "vue" "t") =
  Some "Cannot read properties of undefined (reading 'toLowerCase')".
Proof. reflexivity. Qed.

(** X7: the breakdown of a successful analysis adds up.  Whenever
    [analyzeTemplate] returns a breakdown, the score is the sum of the four
    dimension scores, each dimension score lies between 0 and the
    [maxScore] the dimension records (30, 25, 25 and 20), and the issues
    and recommendations are those of the four dimensions in the order
    completeness, documentation, best practices, usability. *)
Theorem X7_breakdown_adds_up (readJson : result Template) (templateName now : string)
    (dims : dimensions) :
  m_analysis (analyzeTemplate readJson templateName now) = Some dims ->
  let m := analyzeTemplate readJson templateName now in
  let parts := [completeness dims; documentation dims; bestPractices dims; usability dims] in
  m_score m = fold_right Z.add 0 (map score parts) /\
  map maxScore parts = [30; 25; 25; 20] /\
  Forall (fun a => 0 <= score a <= maxScore a) parts /\
  m_issues m = Some (concat (map issues parts)) /\
  m_recommendations m = Some (concat (map recommendations parts)).
Proof.
  destruct readJson as [t|e]; [|discriminate].
  pose proof (analyzeTemplate_result t templateName now) as H.
  destruct (analysis_throws t).
  - destruct H as [msg ->]. discriminate.
  - destruct H as (d & u & Hdoc & Hus & ->). cbn [m_analysis].
    intros [= <-]. cbn [completeness documentation bestPractices usability
                        m_score m_issues m_recommendations map fold_right].
    pose proof (QualityFacts.completeness_bounds t).
    pose proof (QualityFacts.bestPractices_bounds t).
    pose proof (QualityFacts.documentation_bounds t d Hdoc).
    pose proof (QualityFacts.usability_bounds t u Hus).
    assert (Hmd : maxScore d = 25).
    { pose proof (documentation_result t) as Hd.
      destruct (rules_file_without_content t); [congruence |].
      destruct Hd as (d' & Hd1 & Hd2 & _). congruence. }
    assert (Hmu : maxScore u = 20).
    { pose proof (usability_result t) as Hu.
      destruct (unnamed_without_react t); [congruence |].
      destruct Hu as (u' & Hu1 & Hu2 & _). congruence. }
    rewrite completeness_maxScore, bestPractices_maxScore, Hmd, Hmu.
    split; [lia |]. split; [reflexivity |].
    split; [|split; reflexivity].
    repeat constructor; rewrite ?completeness_maxScore, ?bestPractices_maxScore, ?Hmd, ?Hmu; lia.
Qed.

Lemma X7_witness :
  m_analysis (analyzeTemplate (Ok Samples.react_vite) "react-typescript-vite" "t") =
    Some (mkDimensions (analyzeCompleteness Samples.react_vite)
            (mkAnalysis 12 25 [".cursorrules content is too brief"]
               ["Add code examples to .cursorrules";
                "Add best practices section to .cursorrules"])
            (analyzeBestPractices Samples.react_vite)
            (mkAnalysis 20 20 [] [])) /\
  let dims := mkDimensions (analyzeCompleteness Samples.react_vite)
            (mkAnalysis 12 25 [".cursorrules content is too brief"]
               ["Add code examples to .cursorrules";
                "Add best practices section to .cursorrules"])
            (analyzeBestPractices Samples.react_vite)
            (mkAnalysis 20 20 [] []) in
  let m := analyzeTemplate (Ok Samples.react_vite) "react-typescript-vite" "t" in
  let parts := [completeness dims; documentation dims; bestPractices dims; usability dims] in
  m_score m = fold_right Z.add 0 (map score parts) /\
  map maxScore parts = [30; 25; 25; 20] /\
  Forall (fun a => 0 <= score a <= maxScore a) parts /\
  m_issues m = Some (concat (map issues parts)) /\
  m_recommendations m = Some (concat (map recommendations parts)).
Proof.
  split; [reflexivity |].
  apply (X7_breakdown_adds_up (Ok Samples.react_vite) "react-typescript-vite" "t").
  reflexivity.
Defined.

End QualityMore.

(** ** Store, categories and search *)

Module StoreMore.
Import Tpl Store Loader LoaderSpec MoreSpec.

Lemma loadAllLoop_spec (entries : list entry) (templates : list located)
    (console : list string) :
  loadAllLoop entries templates console =
  (templates ++ located_of entries,
   console ++ map (fun e => "Warning: Invalid template in " +:+ dir e)
                  (List.filter malformed entries)).
Proof.
  revert templates console.
  induction entries as [|e es IH]; intros templates console; simpl.
  - now rewrite !app_nil_r.
  - unfold located_of, located_entry, malformed in *. simpl.
    destruct (descriptor e) as [[t|x]|]; rewrite IH; simpl; now rewrite <- ?app_assoc.
Qed.



End StoreMore.

Module CategoriesMore.
Import Tpl Categories MoreSpec.

Lemma classify_shape (l1 l2 l3 l4 l5 l6 : list Template) (t : Template) :
  classify (shape l1 l2 l3 l4 l5 l6) t =
  shape (l1 ++ List.filter (belongs ["react"; "vue"; "angular"; "svelte"]) [t])
        (l2 ++ List.filter (belongs ["express"; "fastapi"; "django"; "node"; "python"; "backend"; "api"]) [t])
        (l3 ++ List.filter (belongs ["react-native"; "flutter"; "mobile"; "ios"; "android"]) [t])
        (l4 ++ List.filter (belongs ["electron"; "tauri"; "desktop"]) [t])
        (l5 ++ List.filter (belongs ["nextjs"; "t3"; "remix"; "nuxt"; "fullstack"; "ssr"]) [t])
        (l6 ++ List.filter uncategorized [t]).
Proof.
  unfold classify, shape, tests, uncategorized, belongs.
  destruct (tags t) as [tg|] eqn:Etg; cbn -[some_listed]; rewrite ?Etg;
    cbn -[some_listed];
  destruct (some_listed ["react"; "vue"; "angular"; "svelte"] _),
    (some_listed ["express"; "fastapi"; "django"; "node"; "python"; "backend"; "api"] _),
    (some_listed ["react-native"; "flutter"; "mobile"; "ios"; "android"] _),
    (some_listed ["electron"; "tauri"; "desktop"] _),
    (some_listed ["nextjs"; "t3"; "remix"; "nuxt"; "fullstack"; "ssr"] _);
    cbn; rewrite ?app_nil_r; reflexivity.
Qed.

Lemma filter_snoc {A} (p : A -> bool) (l : list A) (x : A) (rest : list A) :
  (l ++ List.filter p [x]) ++ List.filter p rest = l ++ List.filter p (x :: rest).
Proof. cbn [List.filter]. destruct (p x); cbn; now rewrite <- ?app_assoc, ?app_nil_r. Qed.

Lemma fold_classify_shape (ts : list Template) :
  forall l1 l2 l3 l4 l5 l6,
  fold_left classify ts (shape l1 l2 l3 l4 l5 l6) =
  shape (l1 ++ List.filter (belongs ["react"; "vue"; "angular"; "svelte"]) ts)
        (l2 ++ List.filter (belongs ["express"; "fastapi"; "django"; "node"; "python"; "backend"; "api"]) ts)
        (l3 ++ List.filter (belongs ["react-native"; "flutter"; "mobile"; "ios"; "android"]) ts)
        (l4 ++ List.filter (belongs ["electron"; "tauri"; "desktop"]) ts)
        (l5 ++ List.filter (belongs ["nextjs"; "t3"; "remix"; "nuxt"; "fullstack"; "ssr"]) ts)
        (l6 ++ List.filter uncategorized ts).
Proof.
  induction ts as [|t ts IH]; intros l1 l2 l3 l4 l5 l6.
  - cbn [fold_left List.filter]. now rewrite !app_nil_r.
  - cbn [fold_left]. rewrite classify_shape, IH, !filter_snoc. reflexivity.
Qed.

(** The groups before the empty ones are removed. *)
Lemma fold_classify_grouped (ts : list Template) :
  fold_left classify ts empty_groups = grouped ts.
Proof. apply (fold_classify_shape ts [] [] [] [] [] []). Qed.

Lemma groups_spec (ts : list Template) :
  groupTemplatesByCategory ts =
  List.filter (fun g => negb (Nat.eqb (length (snd g)) 0)) (grouped ts).
Proof. unfold groupTemplatesByCategory. now rewrite fold_classify_grouped. Qed.

Lemma kept_group (ts : list Template) (g : string * list Template) (t : Template) :
  In g (grouped ts) -> In t (snd g) -> In g (groupTemplatesByCategory ts).
Proof.
  intros Hg Ht. rewrite groups_spec. apply filter_In. split; [exact Hg |].
  destruct (snd g); [contradiction | reflexivity].
Qed.

Lemma in_some_group (ts : list Template) (t : Template) :
  In t ts -> exists g, In g (grouped ts) /\ In t (snd g).
Proof.
  intros Hin. destruct (uncategorized t) eqn:Eu.
  - exists ("Other", List.filter uncategorized ts). split.
    + unfold grouped. apply in_or_app. right. now left.
    + apply filter_In. auto.
  - unfold uncategorized in Eu.
    apply not_true_iff_false in Eu. rewrite forallb_forall in Eu.
    assert (Hex : exists test, In test tests /\ belongs (snd test) t = true).
    { clear Hin. unfold tests in *.
      destruct (belongs ["react"; "vue"; "angular"; "svelte"] t) eqn:E1;
        [eexists; split; [now left | exact E1] |].
      destruct (belongs ["express"; "fastapi"; "django"; "node"; "python"; "backend"; "api"] t) eqn:E2;
        [eexists; split; [right; now left | exact E2] |].
      destruct (belongs ["react-native"; "flutter"; "mobile"; "ios"; "android"] t) eqn:E3;
        [eexists; split; [do 2 right; now left | exact E3] |].
      destruct (belongs ["electron"; "tauri"; "desktop"] t) eqn:E4;
        [eexists; split; [do 3 right; now left | exact E4] |].
      destruct (belongs ["nextjs"; "t3"; "remix"; "nuxt"; "fullstack"; "ssr"] t) eqn:E5;
        [eexists; split; [do 4 right; now left | exact E5] |].
      exfalso. apply Eu. intros x [<- | [<- | [<- | [<- | [<- | []]]]]]; cbn [snd];
        rewrite ?E1, ?E2, ?E3, ?E4, ?E5; reflexivity. }
    destruct Hex as (test & Htest & Hb).
    exists (fst test, List.filter (belongs (snd test)) ts). split.
    + unfold grouped. apply in_or_app. left.
      apply (in_map (fun test => (fst test, List.filter (belongs (snd test)) ts))). exact Htest.
    + apply filter_In. auto.
Qed.

Lemma grouped_members (ts : list Template) (g : string * list Template) (t : Template) :
  In g (grouped ts) -> In t (snd g) -> In t ts.
Proof.
  unfold grouped. intros Hg Ht. apply in_app_or in Hg as [Hg | [<- | []]].
  - apply in_map_iff in Hg as (test & <- & _). cbn [snd] in Ht.
    now apply filter_In in Ht.
  - cbn [snd] in Ht. now apply filter_In in Ht.
Qed.

Lemma count_sum_filter (groups : groups_type) :
  count_sum (map (fun g => (fst g, length (snd g)))
               (List.filter (fun g => negb (Nat.eqb (length (snd g)) 0)) groups)) =
  count_sum (map (fun g => (fst g, length (snd g))) groups).
Proof.
  induction groups as [|g gs IH]; [reflexivity |]. cbn [List.filter map count_sum fold_right].
  destruct (snd g) eqn:E; cbn [length Nat.eqb negb map count_sum fold_right snd].
  - exact IH.
  - rewrite E. cbn [length]. unfold count_sum in IH. now rewrite IH.
Qed.

Lemma grouped_count (ts : list Template) :
  (length ts <= count_sum (map (fun g => (fst g, length (snd g))) (grouped ts)))%nat.
Proof.
  unfold grouped, tests, count_sum. cbn [map app fold_right fst snd].
  induction ts as [|t ts IH]; [cbn; lia |].
  cbn [List.filter]. unfold uncategorized at 1. unfold tests. cbn [forallb snd].
  unfold count_sum in IH.
  destruct (belongs ["react"; "vue"; "angular"; "svelte"] t),
    (belongs ["express"; "fastapi"; "django"; "node"; "python"; "backend"; "api"] t),
    (belongs ["react-native"; "flutter"; "mobile"; "ios"; "android"] t),
    (belongs ["electron"; "tauri"; "desktop"] t),
    (belongs ["nextjs"; "t3"; "remix"; "nuxt"; "fullstack"; "ssr"] t);
    cbn [negb andb length]; lia.
Qed.

Lemma grouped_shape (ts : list Template) :
  grouped ts =
  shape (List.filter (belongs ["react"; "vue"; "angular"; "svelte"]) ts)
        (List.filter (belongs ["express"; "fastapi"; "django"; "node"; "python"; "backend"; "api"]) ts)
        (List.filter (belongs ["react-native"; "flutter"; "mobile"; "ios"; "android"]) ts)
        (List.filter (belongs ["electron"; "tauri"; "desktop"]) ts)
        (List.filter (belongs ["nextjs"; "t3"; "remix"; "nuxt"; "fullstack"; "ssr"]) ts)
        (List.filter uncategorized ts).
Proof. reflexivity. Qed.

Lemma members_shape (l1 l2 l3 l4 l5 l6 : list Template) :
  let kept := List.filter (fun g => negb (Nat.eqb (length (snd g)) 0)) (shape l1 l2 l3 l4 l5 l6) in
  members "Frontend" kept = l1 /\ members "Mobile" kept = l3 /\
  members "Desktop" kept = l4 /\ members "Full-Stack" kept = l5 /\
  members "Other" kept = l6.
Proof. destruct l1, l2, l3, l4, l5, l6; repeat split. Qed.

Lemma includes_refl (s : string) : Js.includes s s = true.
Proof.
  apply JsFacts.includes_spec. exists EmptyString, EmptyString.
  cbn. now rewrite JsFacts.append_nil_r.
Qed.

(** A tag equal to a keyword contains it. *)
Lemma belongs_contains (keywords : list string) (t : Template) :
  belongs keywords t = true ->
  Search.some_tag (fun tag =>
    existsb (fun categoryTag => Js.includes (Js.toLowerCase tag) categoryTag) keywords) t = true.
Proof.
  unfold belongs, some_listed, Search.some_tag, Search.array_includes.
  destruct (tags t) as [tg|]; cbn [from_option id]; [|discriminate].
  rewrite !existsb_exists. intros (tag & Hin & H).
  apply existsb_exists in H as (kw & Hkw & Heq). apply String.eqb_eq in Heq. subst kw.
  exists tag. split; [exact Hin |]. apply existsb_exists.
  exists (Js.toLowerCase tag). split; [exact Hkw | apply includes_refl].
Qed.

(** X9: the grouping covers the store.  Every template handed to
    [groupTemplatesByCategory] is in at least one reported group; it is
    under Other exactly when none of its tags, lowercased, is a keyword of
    the five categories; no reported group is empty and every member of a
    group is a template of the input; so every count of [getCategories] is
    at least 1 and the counts sum to at least the number of templates (a
    template may count in several categories). *)
Theorem X9_groups_cover (ts : list Template) (t : Template) :
  In t ts ->
  (exists g, In g (groupTemplatesByCategory ts) /\ In t (snd g)) /\
  (In t (members "Other" (groupTemplatesByCategory ts)) <-> uncategorized t = true) /\
  Forall (fun g => snd g <> [] /\ forall x, In x (snd g) -> In x ts)
         (groupTemplatesByCategory ts) /\
  Forall (fun c => (1 <= snd c)%nat) (getCategories ts) /\
  (length ts <= count_sum (getCategories ts))%nat.
Proof.
  intros Hin. split; [|split; [|split; [|split]]].
  - destruct (in_some_group ts t Hin) as (g & Hg & Ht).
    exists g. split; [now apply (kept_group ts g t) | exact Ht].
  - rewrite groups_spec, grouped_shape.
    destruct (members_shape
                (List.filter (belongs ["react"; "vue"; "angular"; "svelte"]) ts)
                (List.filter (belongs ["express"; "fastapi"; "django"; "node"; "python"; "backend"; "api"]) ts)
                (List.filter (belongs ["react-native"; "flutter"; "mobile"; "ios"; "android"]) ts)
                (List.filter (belongs ["electron"; "tauri"; "desktop"]) ts)
                (List.filter (belongs ["nextjs"; "t3"; "remix"; "nuxt"; "fullstack"; "ssr"]) ts)
                (List.filter uncategorized ts)) as (_ & _ & _ & _ & ->).
    rewrite filter_In. tauto.
  - apply List.Forall_forall. intros g Hg. rewrite groups_spec in Hg.
    apply filter_In in Hg as [Hg Hne]. split.
    + destruct (snd g); [discriminate Hne | discriminate].
    + intros x Hx. now apply (grouped_members ts g).
  - apply List.Forall_forall. intros c Hc. unfold getCategories in Hc.
    apply in_map_iff in Hc as (g & <- & Hg). rewrite groups_spec in Hg.
    apply filter_In in Hg as [_ Hne]. cbn [snd].
    destruct (snd g); [discriminate Hne | cbn; lia].
  - unfold getCategories. rewrite groups_spec, count_sum_filter. apply grouped_count.
Qed.

Lemma X9_witness :
  In api_service [Samples.react_vite; api_service; reactjs_app] /\
  (exists g, In g (groupTemplatesByCategory [Samples.react_vite; api_service; reactjs_app]) /\
             In api_service (snd g)) /\
  (In api_service (members "Other"
        (groupTemplatesByCategory [Samples.react_vite; api_service; reactjs_app])) <->
   uncategorized api_service = true) /\
  Forall (fun g => snd g <> [] /\
                   forall x, In x (snd g) -> In x [Samples.react_vite; api_service; reactjs_app])
         (groupTemplatesByCategory [Samples.react_vite; api_service; reactjs_app]) /\
  Forall (fun c => (1 <= snd c)%nat) (getCategories [Samples.react_vite; api_service; reactjs_app]) /\
  (length [Samples.react_vite; api_service; reactjs_app] <=
   count_sum (getCategories [Samples.react_vite; api_service; reactjs_app]))%nat.
Proof.
  split; [right; now left |].
  apply (X9_groups_cover [Samples.react_vite; api_service; reactjs_app] api_service).
  right; now left.
Defined.

Example getCategories_sample :
  getCategories [Samples.react_vite; api_service; reactjs_app] =
  [("Frontend", 1%nat); ("Backend", 1%nat); ("Other", 1%nat)].
Proof. reflexivity. Qed.

(** X10: grouping and the category filter.  For Frontend, Mobile, Desktop
    and Full-Stack, every template the grouping puts in the group passes
    the category filter of the [list] and [search] commands for that
    category (a tag equal to a keyword contains it).  The converse fails:
    a template tagged reactjs passes the frontend filter and is grouped
    under Other. *)
Theorem X10_group_members_pass_filter (ts : list Template) (t : Template)
    (group category : string) :
  In (group, category) shared_categories ->
  In t (members group (groupTemplatesByCategory ts)) ->
  In t (Search.filterByCategory ts category) /\
  In reactjs_app (Search.filterByCategory [reactjs_app] "frontend") /\
  members "Frontend" (groupTemplatesByCategory [reactjs_app]) = [] /\
  members "Other" (groupTemplatesByCategory [reactjs_app]) = [reactjs_app].
Proof.
  intros Hc Hin. split; [|repeat split; now left].
  rewrite groups_spec, grouped_shape in Hin.
  destruct (members_shape
              (List.filter (belongs ["react"; "vue"; "angular"; "svelte"]) ts)
              (List.filter (belongs ["express"; "fastapi"; "django"; "node"; "python"; "backend"; "api"]) ts)
              (List.filter (belongs ["react-native"; "flutter"; "mobile"; "ios"; "android"]) ts)
              (List.filter (belongs ["electron"; "tauri"; "desktop"]) ts)
              (List.filter (belongs ["nextjs"; "t3"; "remix"; "nuxt"; "fullstack"; "ssr"]) ts)
              (List.filter uncategorized ts)) as (H1 & H3 & H4 & H5 & _).
  unfold shared_categories in Hc.
  destruct Hc as [[= <- <-] | [[= <- <-] | [[= <- <-] | [[= <- <-] | []]]]];
    [rewrite H1 in Hin | rewrite H3 in Hin | rewrite H4 in Hin | rewrite H5 in Hin];
    apply filter_In in Hin as [Hts Hb]; apply belongs_contains in Hb;
    unfold Search.filterByCategory; apply filter_In; (split; [exact Hts | exact Hb]).
Qed.

Lemma X10_witness :
  In ("Frontend", "frontend") shared_categories /\
  In Samples.react_vite
     (members "Frontend" (groupTemplatesByCategory [Samples.react_vite; api_service])) /\
  In Samples.react_vite (Search.filterByCategory [Samples.react_vite; api_service] "frontend") /\
  In reactjs_app (Search.filterByCategory [reactjs_app] "frontend") /\
  members "Frontend" (groupTemplatesByCategory [reactjs_app]) = [] /\
  members "Other" (groupTemplatesByCategory [reactjs_app]) = [reactjs_app].
Proof.
  split; [now left |]. split; [now left |].
  apply (X10_group_members_pass_filter [Samples.react_vite; api_service]
           Samples.react_vite "Frontend" "frontend"); now left.
Defined.

End CategoriesMore.

Module SearchMore.
Import Tpl Search MoreSpec.

Lemma matches_described (query : string) (t : Template) :
  matches (Js.toLowerCase query) t =
  if described t then Ok (query_matches query t) else Throw Js.undefined_toLowerCase.
Proof.
  unfold matches, described, query_matches.
  destruct (name t), (description t); reflexivity.
Qed.

Lemma filterM_matches (query : string) (ts : list Template) :
  filterM (matches (Js.toLowerCase query)) ts =
  if forallb described ts then Ok (List.filter (query_matches query) ts)
  else Throw Js.undefined_toLowerCase.
Proof.
  induction ts as [|t ts IH]; cbn [filterM forallb List.filter]; [reflexivity |].
  rewrite matches_described, IH.
  destruct (described t); cbn [mbind result_bind andb]; [|reflexivity].
  destruct (forallb described ts); cbn [mbind result_bind]; [|reflexivity].
  destruct (query_matches query t); reflexivity.
Qed.

Lemma search_spec (entries : list Store.entry) (query : string) (category : option string) :
  search (Ok entries) query category =
  let candidates :=
    if Js.truthy category
    then filterByCategory (LoaderSpec.parsed entries) (default EmptyString category)
    else LoaderSpec.parsed entries in
  if forallb described candidates
  then Ok (List.filter (query_matches query) candidates)
  else Throw Js.undefined_toLowerCase.
Proof.
  unfold search, Loader.getTemplates. cbn [mbind result_bind].
  rewrite LoaderFacts.loadLoop_spec. cbn [app]. apply filterM_matches.
Qed.


Example search_with_undescribed :
  search (Ok (Samples.store ++ [Store.mkEntry "bare" (Some (Ok undescribed))])) "react" None =
  Throw (TypeError "Cannot read properties of undefined (reading 'toLowerCase')").
Proof. reflexivity. Qed.

(** X12: [list --tag] against [search].  Whenever the search for a
    non-empty word succeeds, every template that [list --tag <word>] shows
    is among the results of [search <word>]: the tag filter of [list] is
    the tag part of the query match. *)
Theorem X12_list_tag_within_search (entries : list Store.entry) (word : string)
    (rs : list Template) (t : Template) :
  word <> EmptyString ->
  search (Ok entries) word None = Ok rs ->
  exists ls,
    Categories.list_templates (Ok entries) None (Some word) = Ok ls /\
    (In t ls -> In t rs).
Proof.
  intros Hw Hs. rewrite search_spec in Hs. cbn [Js.truthy] in Hs. cbn zeta in Hs.
  destruct (forallb described (LoaderSpec.parsed entries)); [|discriminate Hs].
  injection Hs as <-.
  unfold Categories.list_templates, Loader.getTemplates. cbn [mbind result_bind].
  rewrite LoaderFacts.loadLoop_spec. cbn [app Js.truthy].
  destruct word as [|c w]; [contradiction |]. cbn [Js.truthy from_option id].
  eexists. split; [reflexivity |].
  rewrite !filter_In. intros [Hin Htag]. split; [exact Hin |].
  unfold query_matches, some_tag. destruct (tags t); [|discriminate Htag].
  rewrite Htag. now rewrite !orb_true_r.
Qed.

Lemma X12_witness :
  "vite" <> EmptyString /\
  search (Ok Samples.store) "vite" None = Ok [Samples.react_vite; Samples.vue_vite] /\
  exists ls,
    Categories.list_templates (Ok Samples.store) None (Some "vite") = Ok ls /\
    (In Samples.vue_vite ls -> In Samples.vue_vite [Samples.react_vite; Samples.vue_vite]).
Proof.
  split; [discriminate |]. split; [reflexivity |].
  apply (X12_list_tag_within_search Samples.store "vite"
           [Samples.react_vite; Samples.vue_vite] Samples.vue_vite);
    [discriminate | reflexivity].
Defined.

End SearchMore.

(** ** Update: what it never writes, failures, frame, version order *)

Module UpdateMore.
Import Tpl Update UpdateSpec MoreSpec.

(** X13: [update] writes nothing before the confirmation.  Whatever the
    options, the store (listable or not) and the versions, the project
    (files, backups and marker) is left exactly as it is when [--check] is
    given, when the prompt is declined, or when the project has no
    marker. *)
Theorem X13_update_writes_nothing (gt : string -> string -> result bool)
    (opts : options) (readdir : result (list Store.entry)) (confirm : bool)
    (clock : nat -> string) (now : string) (p : project) :
  check opts = true \/ confirm = false \/ marker p = None ->
  snd (update gt opts readdir confirm clock now p) = p.
Proof.
  intros H. unfold update.
  destruct (marker p) as [m|] eqn:Em; [|reflexivity].
  destruct (Loader.getTemplates readdir) as [[templates console]|e]; [|reflexivity].
  destruct (find _ templates) as [cur|]; [|reflexivity].
  destruct (check opts); [destruct (isNewer _ _ _); reflexivity |].
  destruct (negb _ && negb _)%bool; [reflexivity |].
  destruct confirm; [|reflexivity].
  destruct H as [H | [H | H]]; discriminate H.
Qed.

Lemma X13_witness :
  (check (mkOptions false true) = true \/ false = false \/
   marker (installed "1.0.0") = None) /\
  snd (update semver_gt_triples (mkOptions false true) (Ok two_files_store) false
         at_noon "2026-02-01" (installed "1.0.0")) = installed "1.0.0".
Proof.
  split; [right; now left |].
  apply (X13_update_writes_nothing semver_gt_triples (mkOptions false true)
           (Ok two_files_store) false at_noon "2026-02-01" (installed "1.0.0")).
  right; now left.
Defined.

(** X14: equal versions are a no-op unless forced.  Without [--check] and
    [--force], when the marker and the store template carry the same
    numeric version, [update] reports that the template is up to date and
    leaves the project as it is, without asking for confirmation. *)
Theorem X14_equal_versions_noop (gt : string -> string -> result bool)
    (entries : list Store.entry) (confirm : bool) (clock : nat -> string) (now : string)
    (p : project) (m : metadata) (cur : Template) (v : string) (tv : Z * Z * Z) :
  semver_spec gt ->
  marker p = Some m ->
  find (fun t => bool_decide (name t = Some (template m))) (LoaderSpec.parsed entries) = Some cur ->
  Tpl.version cur = Some v -> version m = Some v -> parse_triple v = Some tv ->
  update gt (mkOptions false false) (Ok entries) confirm clock now p =
  ([AlreadyUpToDate (Some v)], p).
Proof. apply UpdateFacts.update_equal_versions_noop. Qed.

Lemma X14_witness :
  semver_spec semver_gt_triples /\
  marker (installed "1.1.0") =
    Some (mkMetadata "two-files" (Some "1.1.0") "2026-01-01" "demo" None) /\
  find (fun t => bool_decide (name t = Some "two-files")) (LoaderSpec.parsed two_files_store) =
    Some two_files /\
  Tpl.version two_files = Some "1.1.0" /\
  version (mkMetadata "two-files" (Some "1.1.0") "2026-01-01" "demo" None) = Some "1.1.0" /\
  parse_triple "1.1.0" = Some (1, 1, 0) /\
  update semver_gt_triples (mkOptions false false) (Ok two_files_store) true at_noon
    "2026-02-01" (installed "1.1.0") =
  ([AlreadyUpToDate (Some "1.1.0")], installed "1.1.0").
Proof.
  split; [exact UpdateFacts.semver_gt_triples_spec |].
  repeat (split; [reflexivity |]).
  apply (X14_equal_versions_noop semver_gt_triples two_files_store true at_noon "2026-02-01"
           (installed "1.1.0") (mkMetadata "two-files" (Some "1.1.0") "2026-01-01" "demo" None)
           two_files "1.1.0" (1, 1, 0));
    [exact UpdateFacts.semver_gt_triples_spec | reflexivity..].
Defined.






Example half_written_update :
  update semver_gt_triples (mkOptions false true)
    (Ok [Store.mkEntry "two-files" (Some (Ok half_written))]) true at_noon
    "2026-02-01" (installed "1.0.0") =
  ([BackedUp ".cursorrules" ".cursorrules.backup.1767268800000"; Failed "ERR_INVALID_ARG_TYPE"],
   mkProject
     (<[".cursorrules.backup.1767268800000" := "old rules"]>
        (<["src/a.txt" := "Y"]> (<[".cursorrules" := "old rules"]> ∅)))
     (Some two_files_marker)).
Proof. vm_compute. reflexivity. Qed.



Lemma triple_gtb_asym (a b : Z * Z * Z) : triple_gtb a b = true -> triple_gtb b a = false.
Proof.
  destruct a as [[a1 a2] a3], b as [[b1 b2] b3]. unfold triple_gtb.
  destruct (Z.ltb_spec b1 a1), (Z.eqb_spec b1 a1), (Z.ltb_spec b2 a2), (Z.eqb_spec b2 a2),
    (Z.ltb_spec b3 a3), (Z.ltb_spec a1 b1), (Z.eqb_spec a1 b1), (Z.ltb_spec a2 b2),
    (Z.eqb_spec a2 b2), (Z.ltb_spec a3 b3); cbn; intros; try reflexivity; try discriminate; lia.
Qed.

Lemma triple_gtb_trans (a b c : Z * Z * Z) :
  triple_gtb a b = true -> triple_gtb b c = true -> triple_gtb a c = true.
Proof.
  destruct a as [[a1 a2] a3], b as [[b1 b2] b3], c as [[c1 c2] c3]. unfold triple_gtb.
  rewrite !orb_true_iff, !andb_true_iff, !orb_true_iff, !andb_true_iff,
    !Z.ltb_lt, !Z.eqb_eq. lia.
Qed.

(** X17: on well-formed versions [isNewer] is a strict order.  For
    versions that are strict numeric triples (and a [semver.gt] that
    compares them by precedence), a version is never newer than itself, two
    versions are never each newer than the other, and newer is transitive:
    [update] never offers the same version or a downgrade as an update. *)
Theorem X17_isNewer_strict_order (gt : string -> string -> result bool)
    (a b c : string) (ta tb tc : Z * Z * Z) :
  semver_spec gt ->
  parse_triple a = Some ta -> parse_triple b = Some tb -> parse_triple c = Some tc ->
  isNewer gt (Some a) (Some a) = false /\
  (isNewer gt (Some a) (Some b) = true -> isNewer gt (Some b) (Some a) = false) /\
  (isNewer gt (Some a) (Some b) = true -> isNewer gt (Some b) (Some c) = true ->
   isNewer gt (Some a) (Some c) = true).
Proof.
  intros Hgt Ha Hb Hc.
  rewrite !(UpdateFacts.isNewer_triples gt a a ta ta Hgt Ha Ha),
    !(UpdateFacts.isNewer_triples gt a b ta tb Hgt Ha Hb),
    !(UpdateFacts.isNewer_triples gt b a tb ta Hgt Hb Ha),
    !(UpdateFacts.isNewer_triples gt b c tb tc Hgt Hb Hc),
    !(UpdateFacts.isNewer_triples gt a c ta tc Hgt Ha Hc).
  split; [apply UpdateFacts.triple_gtb_irrefl |].
  split; [apply triple_gtb_asym | apply triple_gtb_trans].
Qed.

Lemma X17_witness :
  semver_spec semver_gt_triples /\
  parse_triple "1.10.0" = Some (1, 10, 0) /\ parse_triple "1.9.0" = Some (1, 9, 0) /\
  parse_triple "1.2.3" = Some (1, 2, 3) /\
  isNewer semver_gt_triples (Some "1.10.0") (Some "1.10.0") = false /\
  (isNewer semver_gt_triples (Some "1.10.0") (Some "1.9.0") = true ->
   isNewer semver_gt_triples (Some "1.9.0") (Some "1.10.0") = false) /\
  (isNewer semver_gt_triples (Some "1.10.0") (Some "1.9.0") = true ->
   isNewer semver_gt_triples (Some "1.9.0") (Some "1.2.3") = true ->
   isNewer semver_gt_triples (Some "1.10.0") (Some "1.2.3") = true).
Proof.
  split; [exact UpdateFacts.semver_gt_triples_spec |].
  repeat (split; [reflexivity |]).
  apply (X17_isNewer_strict_order semver_gt_triples "1.10.0" "1.9.0" "1.2.3"
           (1, 10, 0) (1, 9, 0) (1, 2, 3));
    [exact UpdateFacts.semver_gt_triples_spec | reflexivity..].
Defined.

End UpdateMore.

Module LogsMore.
Import Logs.

Lemma slice_last_short {A} (n : nat) (xs : list A) :
  (length xs <= n)%nat -> slice_last n xs = xs.
Proof. intros H. unfold slice_last. now replace (length xs - n)%nat with 0%nat by lia. Qed.

Lemma slice_last_length {A} (n : nat) (xs : list A) :
  length (slice_last n xs) = Nat.min n (length xs).
Proof. unfold slice_last. rewrite length_drop. lia. Qed.

Lemma slice_last_snoc {A} (n : nat) (xs : list A) (e : A) :
  slice_last n (slice_last n xs ++ [e]) = slice_last n (xs ++ [e]).
Proof.
  unfold slice_last. rewrite !length_app, !length_drop, !drop_app, drop_drop, length_drop.
  cbn [length]. f_equal; f_equal; lia.
Qed.

Lemma slice_last_suffix {A} (n : nat) (xs : list A) : suffix (slice_last n xs) xs.
Proof. apply suffix_drop. Qed.

Lemma slice_last_last {A} (n : nat) (xs : list A) (e : A) :
  last (slice_last (S n) (xs ++ [e])) = Some e.
Proof.
  unfold slice_last. rewrite length_app, drop_app. cbn [length].
  replace (length xs + 1 - S n - length xs)%nat with 0%nat by lia.
  cbn [drop]. apply last_snoc.
Qed.

(** A function that appends to a readable log and keeps the last [n]. *)
Lemma capped_sequence {A} (n : nat) (f : array_file A -> A -> array_file A) :
  (forall file old e, default (Ok []) file = Ok old ->
                      f file e = Some (Ok (slice_last n (old ++ [e])))) ->
  forall es file old e, default (Ok []) file = Ok old ->
    fold_left f (e :: es) file = Some (Ok (slice_last n (old ++ e :: es))).
Proof.
  intros Hstep es. induction es as [|e' es IH] using rev_ind; intros file old e Hfile.
  - cbn [fold_left]. now apply Hstep.
  - replace (e :: es ++ [e']) with ((e :: es) ++ [e']) by reflexivity.
    rewrite fold_left_app, (IH file old e Hfile). cbn [fold_left].
    rewrite (Hstep (Some (Ok (slice_last n (old ++ e :: es)))) _ e' eq_refl), slice_last_snoc.
    now rewrite <- app_assoc.
Qed.

Lemma saveErrorLog_step {A} (file : array_file A) (old : list A) (e : A) :
  default (Ok []) file = Ok old ->
  saveErrorLog file e = Some (Ok (slice_last 50 (old ++ [e]))).
Proof.
  intros H. unfold saveErrorLog.
  destruct file as [[l|x]|]; cbn in H; try discriminate H; injection H as <-;
    cbn [mbind result_bind try_catch];
    (match goal with
     | |- context [(?a <? ?b)%nat] => destruct (Nat.ltb_spec a b) as [Hl|Hl]
     end; [reflexivity | now rewrite slice_last_short]).
Qed.

Lemma trackSession_step {A} (file : array_file A) (old : list A) (e : A) :
  default (Ok []) file = Ok old ->
  trackSession file e = Some (Ok (slice_last 100 (old ++ [e]))).
Proof.
  intros H. unfold trackSession.
  destruct file as [[l|x]|]; cbn in H; try discriminate H; injection H as <-;
    cbn [mbind result_bind try_catch];
    (match goal with
     | |- context [(?a <? ?b)%nat] => destruct (Nat.ltb_spec a b) as [Hl|Hl]
     end; [reflexivity | now rewrite slice_last_short]).
Qed.

(** X18: the error log holds the last 50 errors.  After any series of
    errors saved to a log that is absent or readable, the log holds the
    old entries followed by the new ones, in order, cut down to the last
    50: the newest error is its last entry and it never has more than 50
    entries, however long the log was before. *)
Theorem X18_error_log_keeps_last_50 {A} (file : array_file A) (old es : list A) (e : A) :
  default (Ok []) file = Ok old ->
  exists log,
    fold_left saveErrorLog (e :: es) file = Some (Ok log) /\
    log = slice_last 50 (old ++ e :: es) /\
    suffix log (old ++ e :: es) /\
    length log = Nat.min 50 (length old + S (length es)) /\
    last log = last (e :: es).
Proof.
  intros H. eexists. split; [apply (capped_sequence 50 saveErrorLog), H |].
  - intros f o x. apply saveErrorLog_step.
  - split; [reflexivity |]. split; [apply slice_last_suffix |]. split.
    + rewrite slice_last_length, length_app. reflexivity.
    + destruct (exists_last (l := e :: es)) as (front & x & Heq); [discriminate |].
      rewrite Heq, app_assoc, slice_last_last. symmetry. apply last_snoc.
Qed.

Lemma X18_witness :
  default (Ok []) (Some (Ok (replicate 60 "old"))) = Ok (replicate 60 "old") /\
  exists log,
    fold_left saveErrorLog ["e1"; "e2"] (Some (Ok (replicate 60 "old"))) = Some (Ok log) /\
    log = slice_last 50 (replicate 60 "old" ++ ["e1"; "e2"]) /\
    suffix log (replicate 60 "old" ++ ["e1"; "e2"]) /\
    length log = Nat.min 50 (length (replicate 60 "old") + 2) /\
    last log = last ["e1"; "e2"].
Proof.
  split; [reflexivity |].
  apply (X18_error_log_keeps_last_50 (Some (Ok (replicate 60 "old")))
           (replicate 60 "old") ["e2"] "e1").
  reflexivity.
Defined.

(** X19: the session file holds the last 100 sessions.  After any series
    of sessions tracked with a session file that is absent or readable,
    the file holds the old sessions followed by the new ones, in order, cut
    down to the last 100: the newest session is its last entry and it
    never has more than 100 entries. *)
Theorem X19_sessions_keep_last_100 {A} (file : array_file A) (old ss : list A) (s : A) :
  default (Ok []) file = Ok old ->
  exists sessions,
    fold_left trackSession (s :: ss) file = Some (Ok sessions) /\
    sessions = slice_last 100 (old ++ s :: ss) /\
    suffix sessions (old ++ s :: ss) /\
    length sessions = Nat.min 100 (length old + S (length ss)) /\
    last sessions = last (s :: ss).
Proof.
  intros H. eexists. split; [apply (capped_sequence 100 trackSession), H |].
  - intros f o x. apply trackSession_step.
  - split; [reflexivity |]. split; [apply slice_last_suffix |]. split.
    + rewrite slice_last_length, length_app. reflexivity.
    + destruct (exists_last (l := s :: ss)) as (front & x & Heq); [discriminate |].
      rewrite Heq, app_assoc, slice_last_last. symmetry. apply last_snoc.
Qed.

Lemma X19_witness :
  default (Ok []) (None : array_file string) = Ok [] /\
  exists sessions,
    fold_left trackSession ["s1"; "s2"; "s3"] None = Some (Ok sessions) /\
    sessions = slice_last 100 ([] ++ ["s1"; "s2"; "s3"]) /\
    suffix sessions ([] ++ ["s1"; "s2"; "s3"]) /\
    length sessions = Nat.min 100 (length (@nil string) + 3) /\
    last sessions = last ["s1"; "s2"; "s3"].
Proof.
  split; [reflexivity |].
  apply (X19_sessions_keep_last_100 None [] ["s2"; "s3"] "s1"). reflexivity.
Defined.

Lemma total_empty : total ∅ = 0%nat.
Proof. apply map_fold_empty. Qed.

Lemma total_insert (k : string) (n : nat) (m : gmap string nat) :
  m !! k = None -> total (<[k := n]> m) = (n + total m)%nat.
Proof.
  intros H. unfold total.
  rewrite (map_fold_insert_L (fun (_ : string) (n acc : nat) => (n + acc)%nat) 0%nat k n m);
    [reflexivity | intros; lia | exact H].
Qed.

Lemma total_increment (k : string) (m : gmap string nat) :
  total (increment k m) = S (total m).
Proof.
  unfold increment. destruct (m !! k) as [n|] eqn:E; cbn [default from_option id].
  - rewrite <- (insert_delete_id m k n E) at 2.
    rewrite <- insert_delete_eq.
    rewrite !total_insert by apply lookup_delete_eq. reflexivity.
  - now rewrite total_insert.
Qed.

Lemma increment_lookup (k c : string) (m : gmap string nat) :
  default 0%nat (increment k m !! c) =
  if bool_decide (c = k) then S (default 0%nat (m !! c)) else default 0%nat (m !! c).
Proof.
  unfold increment. case_bool_decide as H.
  - subst c. now rewrite lookup_insert_eq.
  - now rewrite lookup_insert_ne.
Qed.

Lemma getUsageData_fresh (now : string) : consistent (mkUsage 0 0 ∅ ∅ ∅ now now).
Proof.
  unfold consistent. cbn. rewrite total_empty. repeat split; try lia.
Qed.

Lemma trackCommand_step (file : usage_file) (command : string)
    (templateName : option string) (success : bool) (now : string) :
  consistent (getUsageData file now) ->
  exists data,
    trackCommand file command templateName success now = Some (Ok data) /\
    consistent data /\
    totalCommands data = S (totalCommands (getUsageData file now)) /\
    firstUsed data = firstUsed (getUsageData file now) /\
    lastUsed data = now.
Proof.
  intros (Hc & Ht & He & Hp). unfold trackCommand.
  set (data := getUsageData file now) in *.
  destruct (Js.truthy templateName && String.eqb command "init")%bool;
    (eexists; split; [reflexivity |]; split; [|cbn; auto]);
    unfold consistent; cbn [totalCommands templatesCreated popularTemplates commandUsage
                              errorCounts];
    rewrite ?total_increment; (split; [congruence |]); (split; [congruence |]);
    (destruct success; [split; [lia |] | rewrite total_increment; split; [lia |]]);
    intros c; rewrite ?increment_lookup; specialize (Hp c);
    destruct (bool_decide (c = command)); lia.
Qed.

(** X20: the counters of the usage document stay in agreement.  After
    any series of tracked commands, starting without a usage file or with
    one that cannot be read, the document written has [totalCommands]
    equal to the number of commands tracked and to the sum of the
    per-command counts, [templatesCreated] equal to the sum of the
    per-template counts, and no more errors than commands, in total and
    for each command: the success rate of the report is never
    negative. *)
Theorem X20_usage_counters_agree (file : usage_file) (c : call) (calls : list call) :
  (file = None \/ exists e, file = Some (Throw e)) ->
  exists data,
    fold_left track (c :: calls) file = Some (Ok data) /\
    consistent data /\
    totalCommands data = S (length calls) /\
    firstUsed data = snd c.
Proof.
  intros Hfile. induction calls as [|c' calls IH] using rev_ind.
  - destruct c as [[[command templateName] success] now]. cbn [fold_left track].
    destruct (trackCommand_step file command templateName success now)
      as (data & Hd & Hcons & Htot & Hfirst & _).
    { destruct Hfile as [-> | [e ->]]; apply getUsageData_fresh. }
    exists data. split; [exact Hd |]. split; [exact Hcons |].
    destruct Hfile as [-> | [e ->]]; cbn in Htot, Hfirst; cbn; auto.
  - destruct IH as (data & Hd & Hcons & Htot & Hfirst).
    replace (c :: calls ++ [c']) with ((c :: calls) ++ [c']) by reflexivity.
    rewrite fold_left_app, Hd. cbn [fold_left].
    destruct c' as [[[command templateName] success] now]. cbn [track].
    destruct (trackCommand_step (Some (Ok data)) command templateName success now)
      as (data' & Hd' & Hcons' & Htot' & Hfirst' & _); [exact Hcons |].
    exists data'. split; [exact Hd' |]. split; [exact Hcons' |].
    cbn in Htot', Hfirst'. rewrite length_app. cbn [length]. split; [lia | congruence].
Qed.

Lemma X20_witness :
  ((None : usage_file) = None \/ exists e, (None : usage_file) = Some (Throw e)) /\
  exists data,
    fold_left track [("init", Some "react-vite", true, "t1");
                     ("update", None, false, "t2")] None = Some (Ok data) /\
    consistent data /\
    totalCommands data = 2%nat /\
    firstUsed data = "t1".
Proof.
  split; [now left |].
  apply (X20_usage_counters_agree None ("init", Some "react-vite", true, "t1")
           [("update", None, false, "t2")]).
  now left.
Defined.

(** X21: what an unreadable file does to the three logs.  An error log
    or a session file that cannot be read is left as it is and nothing is
    recorded, for every later error or session as well; an unreadable
    usage file is treated as absent, so the counts start again from the
    command being tracked. *)
Theorem X21_unreadable_logs {A} (x : exn) (es : list A) (command : string)
    (templateName : option string) (success : bool) (now : string) :
  fold_left saveErrorLog es (Some (Throw x)) = Some (Throw x) /\
  fold_left trackSession es (Some (Throw x)) = Some (Throw x) /\
  trackCommand (Some (Throw x)) command templateName success now =
  trackCommand None command templateName success now.
Proof.
  split; [|split; [|reflexivity]]; induction es as [|e es IH]; cbn; auto.
Qed.

End LogsMore.

Module SummaryMore.
Import Tpl Quality Summary MoreSpec.

Lemma bump_count_of (k x : string) (c : counter) :
  count_of x (bump k c) = if String.eqb k x then S (count_of x c) else count_of x c.
Proof.
  induction c as [|[k' n] c IH]; cbn [bump count_of].
  - destruct (String.eqb k x); reflexivity.
  - destruct (String.eqb k' k) eqn:E; cbn [count_of].
    + apply String.eqb_eq in E. subst k'. destruct (String.eqb k x); reflexivity.
    + destruct (String.eqb k' x) eqn:E2; [|exact IH].
      apply String.eqb_eq in E2. subst k'. rewrite String.eqb_sym, E. reflexivity.
Qed.

Lemma bump_keys_in (k y : string) (c : counter) :
  In y (map fst (bump k c)) -> y = k \/ In y (map fst c).
Proof.
  induction c as [|[k' n] c IH]; cbn [bump map fst In].
  - intros [<- | []]. now left.
  - destruct (String.eqb k' k); cbn [map fst In]; [tauto |].
    intros [H | H]; [tauto |]. destruct (IH H); tauto.
Qed.

Lemma bump_NoDup (k : string) (c : counter) :
  List.NoDup (map fst c) -> List.NoDup (map fst (bump k c)).
Proof.
  induction c as [|[k' n] c IH]; cbn [bump map fst]; intros H.
  - constructor; [intros [] | constructor].
  - destruct (String.eqb k' k) eqn:E; cbn [map fst]; [exact H |].
    inversion H as [|? ? Hn Hc]; subst. constructor; [|now apply IH].
    intros Hin. apply bump_keys_in in Hin as [-> | Hin]; [|contradiction].
    rewrite String.eqb_refl in E. discriminate E.
Qed.

Lemma bump_count_sum (k : string) (c : counter) : count_sum (bump k c) = S (count_sum c).
Proof.
  induction c as [|[k' n] c IH]; cbn [bump count_sum fold_right snd]; [reflexivity |].
  destruct (String.eqb k' k); cbn [count_sum fold_right snd]; [reflexivity |].
  fold (count_sum (bump k c)). fold (count_sum c). rewrite IH. lia.
Qed.

Lemma bump_positive (k : string) (c : counter) :
  List.Forall (fun p => (1 <= snd p)%nat) c ->
  List.Forall (fun p => (1 <= snd p)%nat) (bump k c).
Proof.
  induction c as [|[k' n] c IH]; cbn [bump]; intros H.
  - constructor; [cbn; lia | constructor].
  - inversion H; subst. destruct (String.eqb k' k); constructor; cbn in *; auto; lia.
Qed.

Lemma In_count_of (x : string) (n : nat) (c : counter) :
  List.NoDup (map fst c) -> In (x, n) c -> count_of x c = n.
Proof.
  induction c as [|[k m] c IH]; cbn [map fst count_of In]; [tauto |].
  intros Hnd [Heq | Hin].
  - injection Heq as -> ->. now rewrite String.eqb_refl.
  - inversion Hnd as [|? ? Hk Hc]; subst. destruct (String.eqb k x) eqn:E; [|now apply IH].
    apply String.eqb_eq in E. subst k. exfalso. apply Hk.
    apply (in_map fst) in Hin. exact Hin.
Qed.

(** Counting the elements of a list one by one. *)
Lemma tally_spec (xs : list string) (c0 : counter) :
  let c := fold_left (fun c x => bump x c) xs c0 in
  (forall x, count_of x c = (count_occ string_dec xs x + count_of x c0)%nat) /\
  (List.NoDup (map fst c0) -> List.NoDup (map fst c)) /\
  count_sum c = (length xs + count_sum c0)%nat /\
  (List.Forall (fun p => (1 <= snd p)%nat) c0 -> List.Forall (fun p => (1 <= snd p)%nat) c).
Proof.
  revert c0. induction xs as [|k xs IH]; intros c0; cbn [fold_left].
  - cbn. repeat split; auto.
  - destruct (IH (bump k c0)) as (H1 & H2 & H3 & H4). cbn zeta in *.
    split; [|split; [|split]].
    + intros x. rewrite H1, bump_count_of. cbn [count_occ].
      destruct (string_dec k x) as [->|Hne].
      * rewrite String.eqb_refl. lia.
      * apply String.eqb_neq in Hne. now rewrite Hne.
    + intros H. apply H2, bump_NoDup, H.
    + rewrite H3, bump_count_sum. cbn [length]. lia.
    + intros H. apply H4, bump_positive, H.
Qed.

Lemma count_all_tally (field : metrics -> option (list string)) (results : list metrics) :
  count_all field results = fold_left (fun c x => bump x c) (occurrences field results) [].
Proof.
  unfold count_all, occurrences. generalize (@nil (string * nat)) as c0.
  induction results as [|r rs IH]; intros c0; cbn [fold_left map concat]; [reflexivity |].
  now rewrite fold_left_app, IH.
Qed.

Lemma distribution_tally (results : list metrics) :
  getGradeDistribution results = fold_left (fun c x => bump x c) (map m_grade results) [].
Proof.
  unfold getGradeDistribution. generalize (@nil (string * nat)) as c0.
  induction results as [|r rs IH]; intros c0; cbn [fold_left map]; [reflexivity |].
  apply IH.
Qed.

Lemma insert_desc_perm (x : string * nat) (l : counter) : insert_desc x l ≡ₚ x :: l.
Proof.
  induction l as [|y l IH]; cbn [insert_desc]; [reflexivity |].
  destruct (snd x <? snd y)%nat; [|reflexivity].
  rewrite IH. apply Permutation_swap.
Qed.

Lemma sort_desc_perm (l : counter) : sort_desc l ≡ₚ l.
Proof.
  induction l as [|x l IH]; cbn [sort_desc fold_right]; [reflexivity |].
  fold (sort_desc l). now rewrite insert_desc_perm, IH.
Qed.

Lemma insert_desc_descending (x : string * nat) (l : counter) :
  descending l -> descending (insert_desc x l).
Proof.
  induction l as [|y l IH]; cbn [insert_desc descending].
  - intros _. split; [constructor | exact I].
  - intros [Hy Hl]. destruct (Nat.ltb_spec (snd x) (snd y)) as [Hlt|Hge]; cbn [descending].
    + split; [|now apply IH].
      apply List.Forall_forall. intros z Hz.
      apply (Permutation_in _ (insert_desc_perm x l)) in Hz. destruct Hz as [<- | Hz]; [lia |].
      exact (proj1 (List.Forall_forall _ _) Hy z Hz).
    + split; [|split; [exact Hy | exact Hl]].
      constructor; [exact Hge |].
      revert Hy. apply List.Forall_impl. intros z Hz. lia.
Qed.

Lemma sort_desc_descending (l : counter) : descending (sort_desc l).
Proof.
  induction l as [|x l IH]; cbn [sort_desc fold_right]; [exact I |].
  now apply insert_desc_descending.
Qed.

Lemma descending_app (l1 l2 : counter) :
  descending (l1 ++ l2) ->
  descending l1 /\ forall a b, In a l1 -> In b l2 -> (snd b <= snd a)%nat.
Proof.
  induction l1 as [|x l1 IH]; cbn [app descending].
  - intros _. split; [exact I | intros a b []].
  - intros [Hx Hl]. destruct (IH Hl) as [Hd Hab]. apply List.Forall_app in Hx as [Hx1 Hx2].
    split; [split; assumption |].
    intros a b [<- | Ha] Hb; [|now apply Hab].
    exact (proj1 (List.Forall_forall _ _) Hx2 b Hb).
Qed.

Lemma count_of_In (x : string) (c : counter) :
  (0 < count_of x c)%nat -> In (x, count_of x c) c.
Proof.
  induction c as [|[k m] c IH]; cbn [count_of]; [lia |].
  destruct (String.eqb k x) eqn:E; intros H.
  - apply String.eqb_eq in E. subst k. now left.
  - right. now apply IH.
Qed.

(** The five most frequent of a tally. *)
Lemma top_five_spec (xs : list string) :
  let count := fold_left (fun c x => bump x c) xs [] in
  let top := take 5 (sort_desc count) in
  (length top <= 5)%nat /\
  descending top /\
  List.NoDup (map fst top) /\
  (forall x n, In (x, n) top -> n = count_occ string_dec xs x /\ (1 <= n)%nat) /\
  (forall x a, In x xs -> ~ In x (map fst top) ->
               length top = 5%nat /\ (In a top -> (count_occ string_dec xs x <= snd a)%nat)).
Proof.
  intros count top.
  destruct (tally_spec xs []) as (Hcount & Hnd & _ & Hpos). fold count in Hcount, Hnd, Hpos.
  specialize (Hnd (List.NoDup_nil _)). specialize (Hpos (List.Forall_nil _)).
  pose proof (sort_desc_perm count) as Hperm.
  pose proof (sort_desc_descending count) as Hdesc.
  rewrite <- (take_drop 5 (sort_desc count)) in Hdesc. fold top in Hdesc.
  apply descending_app in Hdesc as [Htop Hrest].
  assert (Hin : forall p, In p top -> In p count).
  { intros p Hp. apply (Permutation_in _ Hperm).
    rewrite <- (take_drop 5 (sort_desc count)). apply in_or_app. now left. }
  assert (Hnds : List.NoDup (map fst (sort_desc count))).
  { apply (Permutation_NoDup (l := map fst count)); [|exact Hnd].
    symmetry. apply Permutation_map, Hperm. }
  rewrite <- (take_drop 5 (sort_desc count)), map_app in Hnds. fold top in Hnds.
  split; [unfold top; rewrite length_take; lia |]. split; [exact Htop |].
  split; [exact (NoDup_app_remove_r _ _ Hnds) |]. split.
  - intros x n Hx. apply Hin in Hx. split.
    + rewrite <- (In_count_of x n count Hnd Hx), Hcount. cbn. lia.
    + exact (proj1 (List.Forall_forall _ _) Hpos (x, n) Hx).
  - intros x a Hx Hnot.
    assert (Hc : In (x, count_of x count) count).
    { apply count_of_In. rewrite Hcount. apply (count_occ_In string_dec) in Hx. lia. }
    rewrite Hcount in Hc. cbn [count_of] in Hc. rewrite Nat.add_0_r in Hc.
    apply (Permutation_in _ (Permutation_sym Hperm)) in Hc.
    rewrite <- (take_drop 5 (sort_desc count)) in Hc. fold top in Hc.
    apply in_app_or in Hc as [Hc | Hc].
    { exfalso. apply Hnot. apply (in_map fst) in Hc. exact Hc. }
    split.
    + unfold top. rewrite length_take. 
      assert (5 < length (sort_desc count) \/ length (sort_desc count) <= 5)%nat as [H|H] by lia;
        [lia |].
      rewrite drop_ge in Hc by exact H. destruct Hc.
    + intros Ha. exact (Hrest a _ Ha Hc).
Qed.

Lemma sum_scores_bounds (rs : list metrics) (acc : Z) :
  List.Forall (fun r => 0 <= m_score r <= 100) rs ->
  acc <= fold_left (fun sum r => sum + m_score r) rs acc <= acc + 100 * Z.of_nat (length rs).
Proof.
  revert acc. induction rs as [|r rs IH]; intros acc H; cbn [fold_left length].
  - lia.
  - inversion H as [|? ? Hr Hrs]; subst. specialize (IH (acc + m_score r) Hrs). lia.
Qed.

(** X22: the summary of a quality run.  For the results of analysing any
    descriptors, the summary counts every result, counts as analysed those
    without error message, reports an average score between 0 and 100, and
    a grade distribution whose grades are distinct and whose counts add up
    to the number analysed. *)
Theorem X22_summary_counts (inputs : list (result Template * string)) (now : string) :
  let results := analyses inputs now in
  let s := generateSummary results in
  total s = length inputs /\
  analyzed s = length (without_error results) /\
  (analyzed s <= total s)%nat /\
  0 <= averageScore s <= 100 /\
  count_sum (gradeDistribution s) = analyzed s /\
  List.NoDup (map fst (gradeDistribution s)) /\
  (forall grade, count_of grade (gradeDistribution s) =
                 count_occ string_dec (map m_grade (without_error results)) grade).
Proof.
  intros results s. unfold s, generateSummary.
  fold (without_error results).
  cbn [total analyzed averageScore gradeDistribution].
  assert (Hscores : List.Forall (fun r => 0 <= m_score r <= 100) (without_error results)).
  { apply List.Forall_forall. intros r Hr. apply List.filter_In in Hr as [Hr _].
    unfold results, analyses in Hr. apply List.in_map_iff in Hr as (i & <- & _).
    exact (proj1 (QualityFacts.analyzeTemplate_score_grade (fst i) (snd i) now)). }
  split; [unfold results, analyses; apply length_map |].
  split; [reflexivity |].
  split; [apply List.filter_length_le |].
  split.
  - destruct (Nat.ltb_spec 0 (length (without_error results))) as [Hpos|Hz]; [|lia].
    apply RatingsFacts.round_div_bounds; [lia |].
    pose proof (sum_scores_bounds _ 0 Hscores). lia.
  - rewrite distribution_tally.
    destruct (tally_spec (map m_grade (without_error results)) []) as (H1 & H2 & H3 & _).
    cbn zeta in *. split; [|split].
    + rewrite H3, length_map. cbn. lia.
    + apply H2. constructor.
    + intros grade. rewrite H1. cbn. lia.
Qed.

(** X23: the top issues and the top recommendations.  Each list has at
    most five entries with distinct texts, in descending order of count;
    the count of an entry is the number of times its text occurs in the
    results; and a text that occurs in the results and is left out occurs
    no more often than any reported one, the list being full. *)
Theorem X23_top_lists (results : list metrics) :
  let issues := occurrences m_issues results in
  let recs := occurrences m_recommendations results in
  ((length (getTopIssues results) <= 5)%nat /\
   descending (getTopIssues results) /\
   List.NoDup (map fst (getTopIssues results)) /\
   (forall x n, In (x, n) (getTopIssues results) ->
                n = count_occ string_dec issues x /\ (1 <= n)%nat) /\
   (forall x a, In x issues -> ~ In x (map fst (getTopIssues results)) ->
                length (getTopIssues results) = 5%nat /\
                (In a (getTopIssues results) ->
                 (count_occ string_dec issues x <= snd a)%nat))) /\
  ((length (getTopRecommendations results) <= 5)%nat /\
   descending (getTopRecommendations results) /\
   List.NoDup (map fst (getTopRecommendations results)) /\
   (forall x n, In (x, n) (getTopRecommendations results) ->
                n = count_occ string_dec recs x /\ (1 <= n)%nat) /\
   (forall x a, In x recs -> ~ In x (map fst (getTopRecommendations results)) ->
                length (getTopRecommendations results) = 5%nat /\
                (In a (getTopRecommendations results) ->
                 (count_occ string_dec recs x <= snd a)%nat))).
Proof.
  intros issues recs. unfold getTopIssues, getTopRecommendations.
  rewrite !count_all_tally. split; apply top_five_spec.
Qed.

End SummaryMore.

Module DiscoveryMore.
Import Tpl Discovery MoreSpec.

#[local] Arguments String.append !_ _ / : simpl nomatch.

Lemma existsb_name_In (n : option string) (ts : list registry_entry) :
  existsb (fun t => bool_decide (name t = n)) ts = true <-> In n (map name ts).
Proof.
  rewrite List.existsb_exists, List.in_map_iff. split.
  - intros (t & Ht & Hn). apply bool_decide_eq_true in Hn. now exists t.
  - intros (t & Hn & Ht). exists t. split; [exact Ht | now apply bool_decide_eq_true].
Qed.

(** X24: the registry lists a template once.  After [addToRegistry] the
    registry has an entry of the template's name, the entries it had
    before are unchanged and come first, and names that were distinct are
    still distinct; adding the same template again, or another template of
    the same name, changes nothing. *)
Theorem X24_registry_lists_once (templates : list registry_entry) (t t' : Template)
    (now now' : string) :
  List.NoDup (map name templates) ->
  Tpl.name t' = Tpl.name t ->
  let after := addToRegistry templates t now in
  List.NoDup (map name after) /\
  In (Tpl.name t) (map name after) /\
  (exists added, after = templates ++ added /\ (length added <= 1)%nat) /\
  addToRegistry after t' now' = after.
Proof.
  intros Hnd Hname after. unfold after, addToRegistry.
  destruct (existsb (fun e => bool_decide (name e = Tpl.name t)) templates) eqn:E.
  - split; [exact Hnd |]. split; [now apply existsb_name_In |].
    split; [exists []; split; [now rewrite app_nil_r | cbn; lia] |].
    rewrite Hname, E. reflexivity.
  - assert (Hnot : ~ In (Tpl.name t) (map name templates)).
    { intros H. apply existsb_name_In in H. congruence. }
    split; [|split; [|split]].
    + rewrite map_app. cbn [map name]. apply List.NoDup_app; [exact Hnd | | ].
      * constructor; [intros [] | constructor].
      * intros a Ha [<- | []]. contradiction.
    + rewrite map_app. apply in_or_app. right. now left.
    + eexists. split; [reflexivity | cbn; lia].
    + rewrite Hname, existsb_app. cbn [existsb name].
      rewrite bool_decide_eq_true_2 by reflexivity. now rewrite orb_true_r.
Qed.

Lemma X24_witness :
  List.NoDup (map name []) /\
  Tpl.name Samples.react_vite = Tpl.name Samples.react_vite /\
  let after := addToRegistry [] Samples.react_vite "t1" in
  List.NoDup (map name after) /\
  In (Tpl.name Samples.react_vite) (map name after) /\
  (exists added, after = [] ++ added /\ (length added <= 1)%nat) /\
  addToRegistry after Samples.react_vite "t2" = after.
Proof.
  split; [constructor |]. split; [reflexivity |].
  apply (X24_registry_lists_once [] Samples.react_vite Samples.react_vite "t1" "t2");
    [constructor | reflexivity].
Defined.

Lemma map_set_keys_in {V} (k y : option string) (v : V) (m : list (option string * V)) :
  In y (map fst (map_set k v m)) -> y = k \/ In y (map fst m).
Proof.
  induction m as [|[k' v'] m IH]; cbn [map_set map fst In].
  - intros [<- | []]. now left.
  - case_bool_decide; cbn [map fst In]; [tauto |].
    intros [H' | H']; [tauto |]. destruct (IH H'); tauto.
Qed.

Lemma map_set_NoDup {V} (k : option string) (v : V) (m : list (option string * V)) :
  List.NoDup (map fst m) -> List.NoDup (map fst (map_set k v m)).
Proof.
  induction m as [|[k' v'] m IH]; cbn [map_set map fst]; intros H.
  - constructor; [intros [] | constructor].
  - case_bool_decide as E; cbn [map fst]; [exact H |].
    inversion H as [|? ? Hn Hc]; subst. constructor; [|now apply IH].
    intros Hin. apply map_set_keys_in in Hin as [-> | Hin]; [|contradiction].
    now apply E.
Qed.

Lemma map_set_values {V} (P : option string -> V -> Prop) (k : option string) (v : V)
    (m : list (option string * V)) :
  P k v -> List.Forall (fun p => P (fst p) (snd p)) m ->
  List.Forall (fun p => P (fst p) (snd p)) (map_set k v m).
Proof.
  intros Hv. induction m as [|[k' v'] m IH]; cbn [map_set]; intros H.
  - constructor; [exact Hv | constructor].
  - inversion H; subst. case_bool_decide as E.
    + subst k'. constructor; [exact Hv | assumption].
    + constructor; [assumption | now apply IH].
Qed.

Lemma unique_by_name_spec (ts : list Loader.located) :
  List.NoDup (map (fun r => Tpl.name (Loader.template r)) (unique_by_name ts)) /\
  forall r, In r (unique_by_name ts) -> In r ts.
Proof.
  pose (key := fun t : Loader.located => Tpl.name (Loader.template t)).
  assert (H : forall todo m,
    (forall r, In r todo -> In r ts) ->
    List.NoDup (map fst m) ->
    List.Forall (fun p => fst p = key (snd p) /\ In (snd p) ts) m ->
    List.NoDup (map fst (fold_left (fun m t => map_set (key t) t m) todo m)) /\
    List.Forall (fun p => fst p = key (snd p) /\ In (snd p) ts)
                (fold_left (fun m t => map_set (key t) t m) todo m)).
  { induction todo as [|t todo IH]; intros m Hsub Hnd Hall; cbn [fold_left]; [now split |].
    apply IH.
    - intros r Hr. apply Hsub. now right.
    - now apply map_set_NoDup.
    - apply (map_set_values (fun k v => k = key v /\ In v ts)); [|exact Hall].
      split; [reflexivity | apply Hsub; now left]. }
  destruct (H ts [] (fun r Hr => Hr) (List.NoDup_nil _) (List.Forall_nil _)) as [Hnd Hall].
  change (unique_by_name ts)
    with (map snd (fold_left (fun m t => map_set (key t) t m) ts [])).
  change (fun r : Loader.located => Tpl.name (Loader.template r)) with key.
  revert Hnd Hall. generalize (fold_left (fun m t => map_set (key t) t m) ts []).
  intros m Hnd Hall. split.
  - replace (map key (map snd m)) with (map fst m); [exact Hnd |].
    rewrite List.map_map. apply List.map_ext_in. intros p Hp.
    exact (proj1 (proj1 (List.Forall_forall _ _) Hall p Hp)).
  - intros r Hr. apply List.in_map_iff in Hr as (p & <- & Hp).
    exact (proj2 (proj1 (List.Forall_forall _ _) Hall p Hp)).
Qed.

Lemma take_NoDup {A} (n : nat) (l : list A) : List.NoDup l -> List.NoDup (take n l).
Proof.
  intros H. rewrite <- (take_drop n l) in H. exact (NoDup_app_remove_r _ _ H).
Qed.

Lemma take_In {A} (n : nat) (l : list A) (x : A) : In x (take n l) -> In x l.
Proof.
  intros H. rewrite <- (take_drop n l). apply in_or_app. now left.
Qed.

(** X25: the recommendations.  [recommendTemplates] returns at most five
    templates of the store, no two of the same name, each of them featured
    in the registry or sharing a tag with the tags of the context; it
    throws when the templates directory cannot be listed. *)
Theorem X25_recommendations (reg : Search.registry) (entries : list Store.entry)
    (currentTags : option (list string)) (e : exn) :
  (exists rs,
     recommendTemplates reg (Ok entries) currentTags = Ok rs /\
     (length rs <= 5)%nat /\
     List.NoDup (map (fun r => Tpl.name (Loader.template r)) rs) /\
     forall r, In r rs ->
       In r (located_of entries) /\
       (name_listed (Search.featured reg) r = true \/
        exists current, currentTags = Some current /\
          Search.some_tag (fun tag => Search.array_includes current tag)
                          (Loader.template r) = true)) /\
  recommendTemplates reg (Throw e) currentTags = Throw e.
Proof.
  split; [|reflexivity].
  unfold recommendTemplates, getFeaturedTemplates, Loader.getAllTemplates.
  cbn [mbind result_bind]. rewrite StoreMore.loadAllLoop_spec. cbn [app mbind result_bind].
  eexists. split; [reflexivity |].
  split; [rewrite length_take; lia |].
  match goal with
  | |- context [take 5 (unique_by_name ?l)] => destruct (unique_by_name_spec l) as [Hnd Hin]
  end.
  split.
  - rewrite <- firstn_map. apply take_NoDup, Hnd.
  - intros r Hr. apply take_In, Hin in Hr.
    destruct currentTags as [current|].
    + apply in_app_or in Hr as [Hr | Hr]; apply List.filter_In in Hr as [Hr Hp].
      * split; [exact Hr | now left].
      * split; [exact Hr | right; now exists current].
    + apply List.filter_In in Hr as [Hr Hp]. split; [exact Hr | now left].
Qed.

Lemma span_segment_whole (seg : string) :
  Js.includes seg "/" = false -> span_segment seg = (seg, EmptyString).
Proof.
  induction seg as [|c seg IH]; cbn [span_segment]; [reflexivity |].
  cbn [Js.includes Js.startsWith]. unfold not_slash.
  destruct (Ascii.eqb c "/"); cbn [andb orb negb]; [discriminate |].
  intros H. now rewrite (IH H).
Qed.

Lemma span_segment_slash (seg rest : string) :
  Js.includes seg "/" = false ->
  span_segment (seg +:+ String "/" rest) = (seg, String "/" rest).
Proof.
  induction seg as [|c seg IH]; cbn [span_segment String.append]; [intros _; reflexivity |].
  cbn [Js.includes Js.startsWith]. unfold not_slash.
  destruct (Ascii.eqb c "/"); cbn [andb orb negb]; [discriminate |].
  intros H. now rewrite (IH H).
Qed.

Lemma match_github_url (owner repo : string) :
  owner <> EmptyString -> repo <> EmptyString ->
  Js.includes owner "/" = false -> Js.includes repo "/" = false ->
  match_github ("https://github.com/" +:+ owner +:+ "/" +:+ repo) = Some (owner, repo).
Proof.
  intros Ho Hr Hso Hsr.
  cbn [String.append match_github match_here Js.startsWith Ascii.eqb Bool.eqb andb drop_chars].
  rewrite (span_segment_slash owner repo Hso).
  destruct owner as [|a owner]; [contradiction |].
  rewrite (span_segment_whole repo Hsr).
  destruct repo as [|b repo]; [contradiction |]. reflexivity.
Qed.

(** X26: importing from a GitHub address.  For an address
    https://github.com/owner/repo, owner and repo being non-empty and
    without slash, [importFromGitHub] returns a template whose author is
    the owner, whose name is the repo without a final -template, and whose
    version is 1.0.0, and lists it in the registry; unless that name is
    empty the validator finds no error in the template. *)
Theorem X26_import_from_github (stringify : FileEntry -> string)
    (templates : list registry_entry) (owner repo now : string) :
  owner <> EmptyString -> repo <> EmptyString ->
  Js.includes owner "/" = false -> Js.includes repo "/" = false ->
  exists template,
    importFromGitHub templates ("https://github.com/" +:+ owner +:+ "/" +:+ repo) now =
      Ok (template, addToRegistry templates template now) /\
    Tpl.author template = Some owner /\
    Tpl.name template = Some (strip_template repo) /\
    Tpl.version template = Some "1.0.0" /\
    Tpl.files template = None /\
    (strip_template repo <> EmptyString ->
     Validator.errors (Validator.validateTemplate stringify (Ok template)) = []).
Proof.
  intros Ho Hr Hso Hsr. exists (placeholder owner repo).
  unfold importFromGitHub. rewrite (match_github_url owner repo Ho Hr Hso Hsr).
  repeat (split; [reflexivity |]).
  intros Hname. apply ValidatorMore.no_errors_iff; [reflexivity |].
  cbn [placeholder Tpl.name Tpl.description Tpl.rules Tpl.version Tpl.files].
  split; [destruct (strip_template repo); [contradiction | reflexivity] |].
  split; [reflexivity |]. split; [reflexivity |].
  split; [|reflexivity].
  exists "1.0.0". split; [reflexivity |]. apply JsFacts.test_semver_triple. reflexivity.
Qed.

Lemma X26_witness :
  "acme" <> EmptyString /\ "react-template" <> EmptyString /\
  Js.includes "acme" "/" = false /\ Js.includes "react-template" "/" = false /\
  exists template,
    importFromGitHub [] ("https://github.com/" +:+ "acme" +:+ "/" +:+ "react-template") "t" =
      Ok (template, addToRegistry [] template "t") /\
    Tpl.author template = Some "acme" /\
    Tpl.name template = Some (strip_template "react-template") /\
    Tpl.version template = Some "1.0.0" /\
    Tpl.files template = None /\
    (strip_template "react-template" <> EmptyString ->
     Validator.errors (Validator.validateTemplate ValidatorSpec.show_file (Ok template)) = []).
Proof.
  split; [discriminate |]. split; [discriminate |].
  split; [reflexivity |]. split; [reflexivity |].
  apply (X26_import_from_github ValidatorSpec.show_file [] "acme" "react-template" "t");
    [discriminate | discriminate | reflexivity | reflexivity].
Defined.

Example strip_template_sample :
  strip_template "react-template" = "react" /\ strip_template "template-kit" = "template-kit".
Proof. split; reflexivity. Qed.

Lemma match_github_includes (repoUrl : string) (groups : string * string) :
  match_github repoUrl = Some groups -> Js.includes repoUrl "github.com/" = true.
Proof.
  induction repoUrl as [|c s IH]; cbn [match_github].
  - unfold match_here. cbn. discriminate.
  - destruct (match_here (String c s)) as [g|] eqn:E.
    + intros _. unfold match_here in E. cbn [Js.includes].
      destruct (Js.startsWith (String c s) "github.com/"); [reflexivity | discriminate E].
    + intros H. cbn [Js.includes]. rewrite (IH H). apply orb_true_r.
Qed.

(** X27: an address that does not contain github.com/ is refused.
    [importFromGitHub] throws Invalid GitHub URL: no template is returned
    and the registry is not touched. *)
Theorem X27_import_refused (templates : list registry_entry) (repoUrl now : string) :
  Js.includes repoUrl "github.com/" = false ->
  importFromGitHub templates repoUrl now = Throw (Error "Invalid GitHub URL").
Proof.
  intros H. unfold importFromGitHub.
  destruct (match_github repoUrl) as [[owner repo]|] eqn:E; [|reflexivity].
  apply match_github_includes in E. congruence.
Qed.

Lemma X27_witness :
  Js.includes "https://gitlab.com/acme/react" "github.com/" = false /\
  importFromGitHub [] "https://gitlab.com/acme/react" "t" = Throw (Error "Invalid GitHub URL").
Proof.
  split; [reflexivity |].
  apply (X27_import_refused [] "https://gitlab.com/acme/react" "t"). reflexivity.
Defined.

End DiscoveryMore.

Module InitMore.
Import Tpl Update Init ValidatorSpec UpdateSpec MoreSpec.








Lemma validate_valid_iff (t : Template) :
  validate (Ok t) = Valid <->
  Js.truthy (name t) = true /\ Js.truthy (description t) = true /\
  Js.present (rules t) = true /\
  exists v, Tpl.version t = Some v /\ Js.is_version_triple v.
Proof.
  unfold validate, Validator.required. cbn [mbind result_bind try_catch].
  destruct t as [n d v au tg r f c].
  cbn -[Js.truthy Js.present Js.test Js.semver_triple].
  destruct (Js.truthy n) eqn:En, (Js.truthy d) eqn:Ed, (Js.truthy v) eqn:Ev,
    (Js.present r) eqn:Er; cbn -[Js.test Js.semver_triple];
    try (split; [discriminate | intros (? & ? & ? & ?); try discriminate]).
  - destruct v as [v|]; [|discriminate Ev]. cbn [default from_option id].
    destruct (Js.test Js.semver_triple v) eqn:Et; cbn [negb].
    + split; [intros _ | reflexivity]. repeat (split; [reflexivity |]).
      exists v. split; [reflexivity |]. now apply JsFacts.test_semver_triple.
    + split; [discriminate |]. intros (_ & _ & _ & w & Hw & Htr).
      injection Hw as <-. apply JsFacts.test_semver_triple in Htr. congruence.
  - destruct H2 as (w & Hw & Htr). subst v.
    destruct w; [|discriminate Ev]. apply JsFacts.test_semver_triple in Htr. discriminate Htr.
Qed.

(** X30: the [validate] command and the validation script agree but for
    the file entries.  For a descriptor the script can validate to its
    end, the script reports no error exactly when the command says the
    template is valid and every file entry has a non-empty path and
    content: the command never looks at the file entries. *)
Theorem X30_validate_agrees (stringify : FileEntry -> string) (t : Template) :
  files_readable t = true ->
  (Validator.errors (Validator.validateTemplate stringify (Ok t)) = [] <->
   validate (Ok t) = Valid /\
   forallb (fun f => negb (bad_entry f)) (default [] (files t)) = true).
Proof.
  intros Hr. rewrite (ValidatorMore.no_errors_iff stringify t Hr), validate_valid_iff. tauto.
Qed.

Lemma X30_witness :
  files_readable two_files = true /\
  (Validator.errors (Validator.validateTemplate show_file (Ok two_files)) = [] <->
   validate (Ok two_files) = Valid /\
   forallb (fun f => negb (bad_entry f)) (default [] (files two_files)) = true).
Proof.
  split; [reflexivity |].
  apply (X30_validate_agrees show_file two_files). reflexivity.
Defined.

End InitMore.
